(** * gmocoiner: the request signer and the dispatch core

    A shallow embedding of [gmocoiner/auth.py] (the request signer
    [GMOCoinAuth]) and of [gmocoiner/api.py] (the client [GMOCoin], its
    dispatch method [_request] and the endpoint methods), together with
    the parts of the Python standard library and of [requests] that the
    two files call.

    Conventions.
    - A Python [str] is a [string]; a character stands for the code point
      of the same number, so the model covers the code points below 256.
    - [bytes] are lists of [Z] in the range 0..255; a 32-bit word is a [Z]
      with the wrap-around written out.
    - A [dict] is an association list in insertion order, its keys
      pairwise distinct.
    - [time.time()] is a rational number of seconds; the rounding of
      binary floating point is not part of the model, so that the
      product of line 16 of [auth.py] is exact here, where a product of
      doubles can differ in its last unit.  Statements about the
      timestamp hold whatever the rounding.
    - The values of a payload are [None], [bool], [int], [str], [list]
      and [dict]: the values that [json.dumps] accepts.  A [float] is
      not modelled; on a [Decimal], [bytes] or [set] value, line 50 of
      [api.py] raises [TypeError] before anything else is done, and
      CPython refuses to write an [int] of more than 4300 digits; such
      payloads are outside the model: a statement about every payload
      is a statement about the payloads made of the values above.
    - Exceptions are values; a computation that raises keeps the state it
      had reached. *)

From Stdlib Require Import String Ascii ZArith List Bool Lia QArith Lqa.
From Stdlib Require Import DecimalString.
Import ListNotations.

Set Implicit Arguments.

(** ** hashlib.sha256 and hmac (FIPS 180-4, RFC 2104) *)

Module Sha256.
Local Open Scope Z_scope.

Definition w32 (x : Z) : Z := x mod 2 ^ 32.
Definition add32 (a b : Z) : Z := w32 (a + b).
Definition not32 (x : Z) : Z := Z.lxor x 0xffffffff.
Definition rotr (n x : Z) : Z :=
  Z.lor (Z.shiftr x n) (w32 (Z.shiftl x (32 - n))).
Definition shr (n x : Z) : Z := Z.shiftr x n.

Definition Ch (x y z : Z) : Z := Z.lxor (Z.land x y) (Z.land (not32 x) z).
Definition Maj (x y z : Z) : Z :=
  Z.lxor (Z.lxor (Z.land x y) (Z.land x z)) (Z.land y z).
Definition Sigma0 (x : Z) : Z :=
  Z.lxor (Z.lxor (rotr 2 x) (rotr 13 x)) (rotr 22 x).
Definition Sigma1 (x : Z) : Z :=
  Z.lxor (Z.lxor (rotr 6 x) (rotr 11 x)) (rotr 25 x).
Definition sigma0 (x : Z) : Z :=
  Z.lxor (Z.lxor (rotr 7 x) (rotr 18 x)) (shr 3 x).
Definition sigma1 (x : Z) : Z :=
  Z.lxor (Z.lxor (rotr 17 x) (rotr 19 x)) (shr 10 x).

(** The constants of FIPS 180-4, 4.2.2 and 5.3.3: the first 32 bits of
    the fractional parts of the cube roots of the first 64 primes, and
    of the square roots of the first 8 primes. *)
Definition is_prime (n : Z) : bool :=
  (1 <? n) && forallb (fun d => negb (n mod Z.of_nat d =? 0))
                      (seq 2 (Z.to_nat n - 2)).

Definition primes : list Z :=
  Eval vm_compute in filter is_prime (map Z.of_nat (seq 0 312)).

(** The integer [k]-th root of [n], built from the bit [bits - 1] down,
    on top of [r]. *)
Fixpoint iroot (k : Z) (bits : nat) (n r : Z) : Z :=
  match bits with
  | O => r
  | S b =>
      let c := r + 2 ^ Z.of_nat b in
      iroot k b n (if c ^ k <=? n then c else r)
  end.

Definition K : list Z :=
  Eval vm_compute in map (fun p => w32 (iroot 3 36 (p * 2 ^ 96) 0)) primes.

Definition H0 : list Z :=
  Eval vm_compute in
    map (fun p => w32 (iroot 2 36 (p * 2 ^ 64) 0)) (firstn 8 primes).

(** Big-endian packing of bytes into 32-bit words and back. *)
Fixpoint words_of_bytes (l : list Z) : list Z :=
  match l with
  | b0 :: b1 :: b2 :: b3 :: r =>
      (((b0 * 256 + b1) * 256 + b2) * 256 + b3) :: words_of_bytes r
  | _ => []
  end.

Definition bytes_of_word (w : Z) : list Z :=
  [ Z.shiftr w 24 mod 256; Z.shiftr w 16 mod 256;
    Z.shiftr w 8 mod 256; w mod 256 ].

(** The message followed by the bit 1, zeros, and its length in bits as
    a 64-bit big-endian number, a multiple of 64 bytes in all. *)
Definition pad (msg : list Z) : list Z :=
  let n := Z.of_nat (length msg) in
  let bits := 8 * n in
  msg ++ [0x80] ++ repeat 0 (Z.to_nat ((55 - n) mod 64))
      ++ bytes_of_word (Z.shiftr bits 32 mod 2 ^ 32)
      ++ bytes_of_word (bits mod 2 ^ 32).

(** The message schedule: [n] more words after those of [w]. *)
Fixpoint schedule (n : nat) (w : list Z) : list Z :=
  match n with
  | O => w
  | S n' =>
      let t := length w in
      let g i := nth (t - i) w 0 in
      schedule n'
        (w ++ [add32 (add32 (sigma1 (g 2%nat)) (g 7%nat))
                     (add32 (sigma0 (g 15%nat)) (g 16%nat))])
  end.

Definition regs : Type := Z * Z * Z * Z * Z * Z * Z * Z.

Definition round (s : regs) (kw : Z * Z) : regs :=
  let '(a, b, c, d, e, f, g, h) := s in
  let '(k, w) := kw in
  let t1 := h + Sigma1 e + Ch e f g + k + w in
  let t2 := Sigma0 a + Maj a b c in
  (w32 (t1 + t2), a, b, c, w32 (d + t1), e, f, g).

Definition regs_of_list (h : list Z) : regs :=
  let g i := nth i h 0 in
  (g 0%nat, g 1%nat, g 2%nat, g 3%nat, g 4%nat, g 5%nat, g 6%nat, g 7%nat).

Definition list_of_regs (s : regs) : list Z :=
  let '(a, b, c, d, e, f, g, h) := s in [a; b; c; d; e; f; g; h].

Definition compress (h : list Z) (block : list Z) : list Z :=
  let w := schedule 48 (words_of_bytes block) in
  let s := fold_left round (combine K w) (regs_of_list h) in
  map (fun p => add32 (fst p) (snd p)) (combine h (list_of_regs s)).

Fixpoint blocks (n : nat) (h : list Z) (l : list Z) : list Z :=
  match n with
  | O => h
  | S n' => blocks n' (compress h (firstn 64 l)) (skipn 64 l)
  end.

Definition digest (msg : list Z) : list Z :=
  let p := pad msg in
  flat_map bytes_of_word (blocks (length p / 64) H0 p).

Definition block_size : nat := 64.
End Sha256.

Module Hmac.
Local Open Scope Z_scope.

(** [hmac.new(key, msg, hashlib.sha256).digest()] *)
Definition digest (key msg : list Z) : list Z :=
  let k0 := if (Sha256.block_size <? length key)%nat
            then Sha256.digest key else key in
  let k := k0 ++ repeat 0 (Sha256.block_size - length k0) in
  Sha256.digest (map (Z.lxor 0x5c) k
                 ++ Sha256.digest (map (Z.lxor 0x36) k ++ msg)).
End Hmac.

(** ** Python strings *)

Module PyStr.
Local Open Scope string_scope.

Definition ord (c : ascii) : Z := Z.of_N (N_of_ascii c).
Definition chr (z : Z) : ascii := ascii_of_N (Z.to_N z).

Definition hex_digit (z : Z) : ascii :=
  if (z <? 10)%Z then chr (48 + z) else chr (87 + z).

(** Two lowercase hexadecimal digits of a byte. *)
Definition hex_byte (b : Z) : string :=
  String (hex_digit (b / 16)) (String (hex_digit (b mod 16)) "").

(** [bytes.hex()], as [hexdigest] renders a digest. *)
Fixpoint hex (l : list Z) : string :=
  match l with
  | [] => ""
  | b :: r => hex_byte b ++ hex r
  end.

(** [s.encode('ascii')]: [None] stands for [UnicodeEncodeError]. *)
Fixpoint encode_ascii (s : string) : option (list Z) :=
  match s with
  | "" => Some []
  | String c r =>
      if (ord c <? 128)%Z
      then option_map (cons (ord c)) (encode_ascii r)
      else None
  end.

(** [str(z)] of an [int]. *)
Definition str_of_Z (z : Z) : string :=
  NilZero.string_of_int (Z.to_int z).

(** [c.lower()] and [c.upper()] of one character, over ASCII and
    Latin-1.  The capital of the sharp s (223) is [SS]; the capitals of
    the micro sign (181) and of the y with diaeresis (255) lie beyond
    code point 255, where the model does not reach, and these two
    characters are left as they are. *)
Definition lower_char (c : ascii) : ascii :=
  if (((65 <=? ord c) && (ord c <=? 90))
      || ((192 <=? ord c) && (ord c <=? 222) && negb (ord c =? 215)))%Z
  then chr (ord c + 32) else c.
Definition upper_char (c : ascii) : string :=
  if (((97 <=? ord c) && (ord c <=? 122))
      || ((224 <=? ord c) && (ord c <=? 254) && negb (ord c =? 247)))%Z
  then String (chr (ord c - 32)) ""
  else if (ord c =? 223)%Z then "SS"
  else String c "".

Fixpoint lower (s : string) : string :=
  match s with
  | "" => ""
  | String c r => String (lower_char c) (lower r)
  end.

Fixpoint upper (s : string) : string :=
  match s with
  | "" => ""
  | String c r => upper_char c ++ upper r
  end.

(** [sep.join(l)] *)
Fixpoint join (sep : string) (l : list string) : string :=
  match l with
  | [] => ""
  | [x] => x
  | x :: r => x ++ sep ++ join sep r
  end.

(** [Some rest] when [s = p ++ rest], as [s.startswith(p)] decides. *)
Fixpoint strip_prefix (p s : string) : option string :=
  match p, s with
  | "", _ => Some s
  | String a p', String b s' =>
      if Ascii.eqb a b then strip_prefix p' s' else None
  | String _ _, "" => None
  end.

(** The longest prefix free of the characters in [p], and what follows
    it (empty, or starting with a character in [p]). *)
Fixpoint break (p : ascii -> bool) (s : string) : string * string :=
  match s with
  | "" => ("", "")
  | String c r =>
      if p c then ("", s)
      else let '(a, b) := break p r in (String c a, b)
  end.

Fixpoint forallb (p : ascii -> bool) (s : string) : bool :=
  match s with
  | "" => true
  | String c r => p c && forallb p r
  end.

Definition existsb (p : ascii -> bool) (s : string) : bool :=
  negb (forallb (fun c => negb (p c)) s).

Definition is_digit (c : ascii) : bool :=
  ((48 <=? ord c) && (ord c <=? 57))%Z.
Definition is_alpha (c : ascii) : bool :=
  (((65 <=? ord c) && (ord c <=? 90)) || ((97 <=? ord c) && (ord c <=? 122)))%Z.
Definition is_alnum (c : ascii) : bool := is_alpha c || is_digit c.

(** Membership of a character in the string [set]. *)
Definition one_of (set : string) (c : ascii) : bool :=
  existsb (Ascii.eqb c) set.

Definition tail (s : string) : string :=
  match s with
  | "" => ""
  | String _ r => r
  end.

Definition is_empty (s : string) : bool :=
  match s with
  | "" => true
  | _ => false
  end.

Definition dquote : string := String (chr 34) "".

Definition upper_hex_byte (b : Z) : string :=
  upper (hex_byte b).

Definition is_ascii (s : string) : bool :=
  forallb (fun c => (ord c <? 128)%Z) s.
End PyStr.

(** [hmac.new(key, msg, hashlib.sha256).hexdigest()] *)
Definition hexdigest (key msg : list Z) : string :=
  PyStr.hex (Hmac.digest key msg).

(** The bytes of a string of code points below 256, one for each. *)
Definition bytes_of_string (s : string) : list Z :=
  map PyStr.ord (list_ascii_of_string s).

Set Warnings "-register-all".

(** ** Python values, [dict], [json.dumps], [repr] and [urlencode] *)

(** The values a payload holds: [None], [bool], [int], [str], [list] and
    [dict] with [str] keys.  ([float] is not modelled.) *)
Inductive PyVal : Type :=
| VNone
| VBool (b : bool)
| VInt (z : Z)
| VStr (s : string)
| VList (l : list PyVal)
| VDict (d : list (string * PyVal)).

Definition is_None (v : PyVal) : bool :=
  match v with
  | VNone => true
  | _ => false
  end.

(** A [dict] with [str] keys: the items in insertion order. *)
Module Dict.
Section Ops.
Variable V : Type.

Definition t : Type := list (string * V).

(** [d.get(k)] *)
Fixpoint get (k : string) (d : t) : option V :=
  match d with
  | [] => None
  | (k', v) :: r => if String.eqb k k' then Some v else get k r
  end.

(** [d[k] = v]: the value is replaced where the key stands, a new key
    goes to the end. *)
Fixpoint set (k : string) (v : V) (d : t) : t :=
  match d with
  | [] => [(k, v)]
  | (k', v') :: r =>
      if String.eqb k k' then (k', v) :: r else (k', v') :: set k v r
  end.

(** [del d[k]], for a key of [d]. *)
Fixpoint del (k : string) (d : t) : t :=
  match d with
  | [] => []
  | (k', v') :: r => if String.eqb k k' then r else (k', v') :: del k r
  end.

Definition items (d : t) : list (string * V) := d.
Definition keys (d : t) : list string := map fst d.

(** [dict(pairs)] *)
Definition from_items (l : list (string * V)) : t :=
  fold_left (fun d kv => set (fst kv) (snd kv) d) l [].

(** The invariant of a [dict]: no key twice. *)
Definition wf (d : t) : Prop := NoDup (keys d).
End Ops.
End Dict.

Module Json.
Local Open Scope string_scope.

(** One character of a string under [ensure_ascii=True]. *)
Definition escape_char (c : ascii) : string :=
  let n := PyStr.ord c in
  if (n =? 34)%Z then "\" ++ PyStr.dquote
  else if (n =? 92)%Z then "\\"
  else if (n =? 10)%Z then "\n"
  else if (n =? 13)%Z then "\r"
  else if (n =? 9)%Z then "\t"
  else if (n =? 8)%Z then "\b"
  else if (n =? 12)%Z then "\f"
  else if ((32 <=? n) && (n <=? 126))%Z then String c ""
  else "\u00" ++ PyStr.hex_byte n.

Fixpoint escape (s : string) : string :=
  match s with
  | "" => ""
  | String c r => escape_char c ++ escape r
  end.

Definition quote (s : string) : string :=
  PyStr.dquote ++ escape s ++ PyStr.dquote.

(** [json.dumps(v)] with the default separators, for the values of the
    model; on a value of another type [json.dumps] raises [TypeError]. *)
Fixpoint dumps (v : PyVal) : string :=
  match v with
  | VNone => "null"
  | VBool true => "true"
  | VBool false => "false"
  | VInt z => PyStr.str_of_Z z
  | VStr s => quote s
  | VList l => "[" ++ PyStr.join ", " (map dumps l) ++ "]"
  | VDict d =>
      "{" ++ PyStr.join ", "
               (map (fun kv => let '(k, x) := kv in
                               quote k ++ ": " ++ dumps x) d) ++ "}"
  end.
End Json.

Module Repr.
Local Open Scope string_scope.

(** The code points below 256 that [repr] writes as they are. *)
Definition printable (n : Z) : bool :=
  (((32 <=? n) && (n <=? 126)) || ((161 <=? n) && negb (n =? 173)))%Z.

Definition escape_char (q : ascii) (c : ascii) : string :=
  let n := PyStr.ord c in
  if Ascii.eqb c q || (n =? 92)%Z then String "\" (String c "")
  else if (n =? 9)%Z then "\t"
  else if (n =? 10)%Z then "\n"
  else if (n =? 13)%Z then "\r"
  else if printable n then String c ""
  else "\x" ++ PyStr.hex_byte n.

Fixpoint escape (q : ascii) (s : string) : string :=
  match s with
  | "" => ""
  | String c r => escape_char q c ++ escape q r
  end.

(** [repr(s)] of a [str]: single quotes, unless the string holds a
    single quote and no double quote. *)
Definition of_str (s : string) : string :=
  let q := if PyStr.one_of s (PyStr.chr 39) && negb (PyStr.one_of s (PyStr.chr 34))
           then PyStr.chr 34 else PyStr.chr 39 in
  String q (escape q s) ++ String q "".

Fixpoint repr (v : PyVal) : string :=
  match v with
  | VNone => "None"
  | VBool true => "True"
  | VBool false => "False"
  | VInt z => PyStr.str_of_Z z
  | VStr s => of_str s
  | VList l => "[" ++ PyStr.join ", " (map repr l) ++ "]"
  | VDict d =>
      "{" ++ PyStr.join ", "
               (map (fun kv => let '(k, x) := kv in
                               of_str k ++ ": " ++ repr x) d) ++ "}"
  end.

(** [str(v)] *)
Definition str (v : PyVal) : string :=
  match v with
  | VStr s => s
  | _ => repr v
  end.
End Repr.

Module UrlEncode.
Local Open Scope string_scope.

Definition utf8 (c : ascii) : list Z :=
  let n := PyStr.ord c in
  if (n <? 128)%Z then [n] else [192 + n / 64; 128 + n mod 64]%Z.

Definition quote_byte (b : Z) : string :=
  let c := PyStr.chr b in
  if ((b <? 128)%Z && (PyStr.is_alnum c || PyStr.one_of "_.-~" c))
  then String c ""
  else if (b =? 32)%Z then "+"
  else "%" ++ PyStr.upper_hex_byte b.

(** [urllib.parse.quote_plus(s)] of a [str], through UTF-8. *)
Fixpoint quote_plus (s : string) : string :=
  match s with
  | "" => ""
  | String c r => String.concat "" (map quote_byte (utf8 c)) ++ quote_plus r
  end.

(** What [urlencode(..., doseq=True)] writes for one value that
    [requests] has paired with a key. *)
Definition element (v : PyVal) : list string :=
  match v with
  | VNone => []
  | VStr s => [quote_plus s]
  | VBool _ | VInt _ => [quote_plus (Repr.str v)]
  | VList l => map (fun x => quote_plus (Repr.str x)) l
  | VDict d => map (fun kv => quote_plus (fst kv)) d
  end.

(** The values [requests] pairs with a key: the value itself when it is
    a string or not iterable, its elements otherwise ([None] dropped). *)
Definition values (v : PyVal) : list string :=
  match v with
  | VList l => flat_map element l
  | VDict d => map (fun kv => quote_plus (fst kv)) d
  | _ => element v
  end.

(** [requests.models.RequestEncodingMixin._encode_params(d)] of a dict. *)
Definition encode_params (d : Dict.t PyVal) : string :=
  PyStr.join "&"
    (flat_map (fun kv => map (fun e => quote_plus (fst kv) ++ "=" ++ e)
                             (values (snd kv))) d).
End UrlEncode.


(** ** Exceptions *)

Inductive Exception : Type :=
| HTTPError (msg : string)
| UnicodeEncodeError
| ValueError (msg : string)
| AttributeError (msg : string)
| OtherError (cls msg : string).
(** [OtherError] stands for every other class: [ConnectionError],
    [Timeout], [SSLError], [MissingSchema], ... *)

(** [isinstance(e, HTTPError)], the test of the [except] clause. *)
Definition is_HTTPError (e : Exception) : bool :=
  match e with
  | HTTPError _ => true
  | _ => false
  end.

(** [str(e)] *)
Definition exc_str (e : Exception) : string :=
  match e with
  | HTTPError m | ValueError m | AttributeError m | OtherError _ m => m
  | UnicodeEncodeError => "'ascii' codec can't encode character"
  end.

(** A result or a raised exception. *)
Definition Exc (A : Type) : Type := (Exception + A)%type.

Definition exc_bind {A B} (c : Exc A) (k : A -> Exc B) : Exc B :=
  match c with
  | inl e => inl e
  | inr a => k a
  end.

Declare Scope exc_scope.
Delimit Scope exc_scope with exc.
Notation "x <~ c ;; k" := (exc_bind c (fun x => k))
  (at level 61, c at next level, right associativity) : exc_scope.

(** ** urllib.parse *)

Module Url.
Local Open Scope string_scope.

Record SplitResult : Type := {
  scheme : string;
  netloc : string;
  path : string;
  query : string;
  fragment : string
}.

Definition scheme_char (c : ascii) : bool :=
  (PyStr.ord c <? 128)%Z && (PyStr.is_alnum c || PyStr.one_of "+-." c).

(** [url.lstrip(_WHATWG_C0_CONTROL_OR_SPACE)] *)
Fixpoint lstrip (s : string) : string :=
  match s with
  | "" => ""
  | String c r => if (PyStr.ord c <=? 32)%Z then lstrip r else s
  end.

(** Tab, carriage return and line feed are removed wherever they are. *)
Fixpoint remove_unsafe (s : string) : string :=
  match s with
  | "" => ""
  | String c r =>
      let n := PyStr.ord c in
      if ((n =? 9) || (n =? 13) || (n =? 10))%Z then remove_unsafe r
      else String c (remove_unsafe r)
  end.

(** [urllib.parse.urlsplit(url)].  A host in brackets or with a
    character outside ASCII goes through checks of its own in Python;
    here every such host is refused with [ValueError]. *)
Definition urlsplit (url : string) : Exc SplitResult :=
  let url := remove_unsafe (lstrip url) in
  let '(pre, rest) := PyStr.break (Ascii.eqb ":") url in
  let '(sch, url1) :=
    match pre, rest with
    | String c0 _, String _ rest' =>
        if (PyStr.ord c0 <? 128)%Z && PyStr.is_alpha c0
           && PyStr.forallb scheme_char pre
        then (PyStr.lower pre, rest') else ("", url)
    | _, _ => ("", url)
    end in
  let '(loc, url2) :=
    match PyStr.strip_prefix "//" url1 with
    | Some r => PyStr.break (PyStr.one_of "/?#") r
    | None => ("", url1)
    end in
  if PyStr.existsb (PyStr.one_of "[]") loc || negb (PyStr.is_ascii loc)
  then inl (ValueError "Invalid URL")
  else
    let '(url3, frag) := PyStr.break (Ascii.eqb "#") url2 in
    let '(p, q) := PyStr.break (Ascii.eqb "?") url3 in
    inr {| scheme := sch; netloc := loc; path := p;
           query := PyStr.tail q; fragment := PyStr.tail frag |}.

Definition uses_params : list string :=
  [ ""; "ftp"; "hdl"; "prospero"; "http"; "imap"; "https"; "shttp";
    "rtsp"; "rtspu"; "sip"; "sips"; "mms"; "sftp"; "tel" ].

(** The last segment of [s]: what follows the last slash, and the part
    up to and with that slash. *)
Fixpoint rsplit_slash (s : string) : string * string :=
  match s with
  | "" => ("", "")
  | String c r =>
      let '(h, t) := rsplit_slash r in
      if PyStr.one_of r "/" then (String c h, t)
      else if Ascii.eqb c "/" then (String c "", r)
      else ("", s)
  end.

(** The first component of [_splitparams(url)]: the parameters (from
    the first semicolon on) of the last segment are cut off. *)
Definition splitparams (url : string) : string :=
  let '(h, t) := rsplit_slash url in
  h ++ fst (PyStr.break (Ascii.eqb ";") t).

(** [urllib.parse.urlparse(url).path] *)
Definition urlparse_path (url : string) : Exc string :=
  (u <~ urlsplit url ;;
   inr (if existsb (String.eqb (scheme u)) uses_params
           && PyStr.one_of (path u) ";"
        then splitparams (path u) else path u))%exc.

Definition uses_netloc : list string :=
  [ ""; "ftp"; "http"; "gopher"; "nntp"; "telnet"; "imap"; "wais";
    "file"; "mms"; "https"; "shttp"; "snews"; "prospero"; "rtsp";
    "rtspu"; "rsync"; "svn"; "svn+ssh"; "sftp"; "nfs"; "git";
    "git+ssh"; "ws"; "wss"; "itms-services" ].

(** [urllib.parse.urlunsplit] *)
Definition urlunsplit (u : SplitResult) : string :=
  let url := path u in
  let url :=
    if negb (PyStr.is_empty (netloc u))
       || (negb (PyStr.is_empty (scheme u))
           && existsb (String.eqb (scheme u)) uses_netloc
           && negb (match PyStr.strip_prefix "//" url with
                    | Some _ => true | None => false end))
    then "//" ++ netloc u
         ++ (if negb (PyStr.is_empty url)
                && negb (match url with String "/" _ => true | _ => false end)
             then "/" ++ url else url)
    else url in
  let url := if PyStr.is_empty (scheme u) then url
             else scheme u ++ ":" ++ url in
  let url := if PyStr.is_empty (query u) then url
             else url ++ "?" ++ query u in
  if PyStr.is_empty (fragment u) then url else url ++ "#" ++ fragment u.

(** The characters of the paths of this API: letters, digits, slash,
    underscore and hyphen.  [requests] leaves a URL made of them as it
    is. *)
Definition plain_char (c : ascii) : bool :=
  (PyStr.ord c <? 128)%Z && (PyStr.is_alnum c || PyStr.one_of "/_-" c).
Definition plain (s : string) : bool := PyStr.forallb plain_char s.
End Url.

(** ** requests: headers, requests and responses *)

(** [requests.structures.CaseInsensitiveDict]: the store maps each
    lowered key to the key as it was last written and its value. *)
Module CaseInsensitiveDict.
Definition t : Type := Dict.t (string * string).

Definition empty : t := [].

(** [d[k] = v] *)
Definition setitem (k v : string) (d : t) : t :=
  Dict.set (PyStr.lower k) (k, v) d.

(** [d.get(k)] *)
Definition get (k : string) (d : t) : option string :=
  option_map snd (Dict.get (PyStr.lower k) d).

(** [d.items()]: the keys as written, with their values. *)
Definition items (d : t) : list (string * string) := map snd d.

(** [CaseInsensitiveDict(pairs)] *)
Definition from_items (l : list (string * string)) : t :=
  fold_left (fun d kv => setitem (fst kv) (snd kv) d) l empty.

(** The invariant of the store. *)
Definition wf (d : t) : Prop :=
  NoDup (Dict.keys d)
  /\ Forall (fun e => fst e = PyStr.lower (fst (snd e))) d.
End CaseInsensitiveDict.

Module Headers.
Local Open Scope string_scope.

Definition is_space (c : ascii) : bool :=
  let n := PyStr.ord c in
  (((9 <=? n) && (n <=? 13)) || ((28 <=? n) && (n <=? 32))
   || (n =? 133) || (n =? 160))%Z.

(** Whether [s] matches the pattern [[^x\r\n]*\Z], [bad] deciding [x]:
    no carriage return, no line feed and no character of [bad]. *)
Definition line (bad : ascii -> bool) (s : string) : bool :=
  PyStr.forallb
    (fun c => negb (PyStr.ord c =? 10)%Z && negb (PyStr.ord c =? 13)%Z
              && negb (bad c)) s.

(** The pattern [^[^:\s][^:\r\n]*\Z] of a header name. *)
Definition valid_name (s : string) : bool :=
  match s with
  | "" => false
  | String c r =>
      negb (Ascii.eqb c ":") && negb (is_space c) && line (Ascii.eqb ":") r
  end.

(** The pattern [^\S[^\r\n]*\Z|^\Z] of a header value: a value that
    ends in a line feed is refused. *)
Definition valid_value (s : string) : bool :=
  match s with
  | "" => true
  | String c r => negb (is_space c) && line (fun _ => false) r
  end.

(** [requests.utils.check_header_validity] *)
Definition check_header_validity (h : string * string) : Exc unit :=
  if valid_name (fst h) && valid_value (snd h) then inr tt
  else inl (OtherError "InvalidHeader" "Invalid header").
End Headers.

Module PreparedRequest.
Local Open Scope string_scope.

(** [requests.PreparedRequest], its body a [str] or [None] as the client
    makes it (a body of [bytes] is not modelled). *)
Record t : Type := {
  method : string;
  url : string;
  headers : CaseInsensitiveDict.t;
  body : option string
}.

(** The property [path_url]: the path of the URL, [/] when it is
    empty, and the query after a question mark when there is one. *)
Definition path_url (r : t) : Exc string :=
  (p <~ Url.urlsplit (url r) ;;
   let path := if PyStr.is_empty (Url.path p) then "/" else Url.path p in
   inr (if PyStr.is_empty (Url.query p) then path
        else path ++ "?" ++ Url.query p))%exc.

Fixpoint check_all (l : list (string * string)) : Exc unit :=
  match l with
  | [] => inr tt
  | h :: r => (_ <~ Headers.check_header_validity h ;; check_all r)%exc
  end.

(** [r.prepare_headers(headers)]: a new store, filled from the items
    of [headers] after each has passed the validity check. *)
Definition prepare_headers (r : t) (hs : Dict.t string) : Exc t :=
  (_ <~ check_all (Dict.items hs) ;;
   inr {| method := method r; url := url r;
          headers := CaseInsensitiveDict.from_items (Dict.items hs);
          body := body r |})%exc.

Definition set_header (k v : string) (r : t) : t :=
  {| method := method r; url := url r;
     headers := CaseInsensitiveDict.setitem k v (headers r);
     body := body r |}.

(** The length of the UTF-8 encoding of a string. *)
Definition super_len (s : string) : Z :=
  Z.of_nat (List.length (flat_map UrlEncode.utf8 (list_ascii_of_string s))).

(** [r.prepare_content_length(body)] *)
Definition prepare_content_length (r : t) : t :=
  match body r with
  | Some b =>
      if (super_len b =? 0)%Z then r
      else set_header "Content-Length" (PyStr.str_of_Z (super_len b)) r
  | None =>
      if negb (String.eqb (method r) "GET" || String.eqb (method r) "HEAD")
      then match CaseInsensitiveDict.get "Content-Length" (headers r) with
           | None => set_header "Content-Length" "0" r
           | Some _ => r
           end
      else r
  end.
End PreparedRequest.

Module Response.
Local Open Scope string_scope.

Record t : Type := {
  status_code : Z;
  reason : string;
  url : string;
  headers : list (string * string);
  text : string
}.

(** [resp.raise_for_status()]: the exception it raises, if any. *)
Definition raise_for_status (resp : t) : option Exception :=
  let c := status_code resp in
  if ((400 <=? c) && (c <? 500))%Z
  then Some (HTTPError (PyStr.str_of_Z c ++ " Client Error: " ++ reason resp
                        ++ " for url: " ++ url resp))
  else if ((500 <=? c) && (c <? 600))%Z
  then Some (HTTPError (PyStr.str_of_Z c ++ " Server Error: " ++ reason resp
                        ++ " for url: " ++ url resp))
  else None.
End Response.

(** ** gmocoiner/auth.py *)

(** [int(x)] of a number: truncation towards zero. *)
Definition py_int (x : Q) : Z := Z.quot (Qnum x) (QDen x).

Definition encode (s : string) : Exc (list Z) :=
  match PyStr.encode_ascii s with
  | Some b => inr b
  | None => inl UnicodeEncodeError
  end.

Module GMOCoinAuth.
Local Open Scope string_scope.

Record t : Type := {
  api_key : string;
  secret : string
}.

(** [GMOCoinAuth(api_key, secret)] *)
Definition __init__ (api_key secret : string) : t :=
  {| api_key := api_key; secret := secret |}.

(** [re.sub(r'\A/(public|private)', '', o)] *)
Definition canonical_path (o : string) : string :=
  match PyStr.strip_prefix "/public" o with
  | Some rest => rest
  | None =>
      match PyStr.strip_prefix "/private" o with
      | Some rest => rest
      | None => o
      end
  end.

(** [str(int(time.time() * 1000))], [now] being what [time.time()]
    returns; the product is the exact one. *)
Definition timestamp_of (now : Q) : string :=
  PyStr.str_of_Z (py_int (now * 1000)).

(** [r.body or ''] *)
Definition body_or_empty (r : PreparedRequest.t) : string :=
  match PreparedRequest.body r with
  | Some b => b
  | None => ""
  end.

(** The text that is signed (line 20). *)
Definition text_of (timestamp : string) (r : PreparedRequest.t) (o : string)
  : string :=
  timestamp ++ PreparedRequest.method r ++ canonical_path o
            ++ body_or_empty r.

(** [GMOCoinAuth.__call__(self, r)], [now] being what [time.time()]
    returns. *)
Definition __call__ (self : t) (now : Q) (r : PreparedRequest.t)
  : Exc PreparedRequest.t :=
  (let timestamp := timestamp_of now in
   pu <~ PreparedRequest.path_url r ;;
   o <~ Url.urlparse_path pu ;;
   let text := text_of timestamp r o in
   key <~ encode (secret self) ;;
   msg <~ encode text ;;
   let sign := hexdigest key msg in
   let headers := Dict.from_items (CaseInsensitiveDict.items
                                     (PreparedRequest.headers r)) in
   let headers := Dict.set "API-KEY" (api_key self) headers in
   let headers := Dict.set "API-TIMESTAMP" timestamp headers in
   let headers := Dict.set "API-SIGN" sign headers in
   PreparedRequest.prepare_headers r headers)%exc.
End GMOCoinAuth.

(** ** requests: sessions *)

Module Request.
(** [Request(method, url, data=..., params=...)] *)
Record t : Type := {
  method : string;
  url : string;
  data : option string;
  params : option (Dict.t PyVal)
}.
End Request.

Module Session.
Local Open Scope string_scope.

(** The state of a [requests.Session] that the client uses: the
    default headers and the authentication hook.  (Cookies that
    responses set, proxies and [.netrc] files are not modelled.) *)
Record t : Type := {
  headers : CaseInsensitiveDict.t;
  auth : option GMOCoinAuth.t
}.

(** [Session()], with the two header values that depend on the
    installed version of [requests]. *)
Definition __init__ (user_agent accept_encoding : string) : t :=
  {| headers :=
       CaseInsensitiveDict.from_items
         [ ("User-Agent", user_agent);
           ("Accept-Encoding", accept_encoding);
           ("Accept", "*/*");
           ("Connection", "keep-alive") ];
     auth := None |}.

(** [s.lstrip()] *)
Fixpoint lstrip (s : string) : string :=
  match s with
  | "" => ""
  | String c r => if Headers.is_space c then lstrip r else s
  end.

Definition startswith (p s : string) : bool :=
  match PyStr.strip_prefix p s with
  | Some _ => true
  | None => false
  end.

(** [PreparedRequest.prepare_url(url, params)].  The URL is split as
    [urlsplit] does; the percent-quoting and the normalisation that
    [requests] applies on top, which leave a URL of plain characters
    as it is, are not modelled. *)
Definition prepare_url (url : string) (params : option (Dict.t PyVal))
  : Exc string :=
  let url := lstrip url in
  if PyStr.one_of url ":" && negb (startswith "http" (PyStr.lower url))
  then inr url
  else
    (u <~ Url.urlsplit url ;;
     if PyStr.is_empty (Url.scheme u)
     then inl (OtherError "MissingSchema" "Invalid URL: No scheme supplied")
     else if PyStr.is_empty (Url.netloc u)
     then inl (OtherError "InvalidURL" "Invalid URL: No host supplied")
     else
       let enc := match params with
                  | Some d => UrlEncode.encode_params d
                  | None => ""
                  end in
       let q := if PyStr.is_empty enc then Url.query u
                else if PyStr.is_empty (Url.query u) then enc
                else Url.query u ++ "&" ++ enc in
       inr (Url.urlunsplit
              {| Url.scheme := Url.scheme u;
                 Url.netloc := Url.netloc u;
                 Url.path := if PyStr.is_empty (Url.path u) then "/"
                             else Url.path u;
                 Url.query := q;
                 Url.fragment := Url.fragment u |}))%exc.

(** [s.prepare_request(req)], [now] being what [time.time()] returns
    should the authentication hook ask: method, URL, the headers of
    the session, the body with its length, then the hook. *)
Definition prepare_request (s : t) (now : Q) (req : Request.t)
  : Exc PreparedRequest.t :=
  (url <~ prepare_url (Request.url req) (Request.params req) ;;
   p <~ PreparedRequest.prepare_headers
          {| PreparedRequest.method := PyStr.upper (Request.method req);
             PreparedRequest.url := url;
             PreparedRequest.headers := CaseInsensitiveDict.empty;
             PreparedRequest.body := None |}
          (CaseInsensitiveDict.items
             (CaseInsensitiveDict.from_items
                (CaseInsensitiveDict.items (headers s)))) ;;
   let body := match Request.data req with
               | Some d => if PyStr.is_empty d then None else Some d
               | None => None
               end in
   let p := PreparedRequest.prepare_content_length
              {| PreparedRequest.method := PreparedRequest.method p;
                 PreparedRequest.url := PreparedRequest.url p;
                 PreparedRequest.headers := PreparedRequest.headers p;
                 PreparedRequest.body := body |} in
   match auth s with
   | Some a =>
       r <~ GMOCoinAuth.__call__ a now p ;;
       inr (PreparedRequest.prepare_content_length r)
   | None => inr p
   end)%exc.
End Session.

(** ** The world around the client: clock, log and wire *)

Inductive Level : Type := DEBUG | ERROR.

Inductive Event : Type :=
| Logged (level : Level) (msg : string)
| Slept (start secs : Q)
| Sent (start finish : Q) (r : PreparedRequest.t).

Record World : Type := {
  clock : Q;
  trace : list Event
}.

(** What the transport does with a request. *)
Inductive Outcome : Type :=
| Responds (resp : Response.t)
| Raises (e : Exception).

(** What one dispatch meets: the time that passes between its steps and
    the outcome of the send. *)
Record Env : Type := {
  t_build : Q;      (* before the request is prepared *)
  t_check : Q;      (* before the rate check reads the clock *)
  t_oversleep : Q;  (* by how much [time.sleep] overruns *)
  t_enter : Q;      (* before [send] is called *)
  t_send : Q;       (* from the call of [send] to its return *)
  t_stamp : Q;      (* before the clock is read for [last_req_time] *)
  outcome : Outcome
}.

(** Time does not run backwards. *)
Definition Env_ok (env : Env) : Prop :=
  (0 <= t_build env /\ 0 <= t_check env /\ 0 <= t_oversleep env
   /\ 0 <= t_enter env /\ 0 <= t_send env /\ 0 <= t_stamp env)%Q.

(** [x < y] *)
Definition Qltb (x y : Q) : bool := negb (Qle_bool y x).

(** ** gmocoiner/api.py *)

Module GMOCoin.
Local Open Scope string_scope.

(** The attributes of a client.  (The logger is the trace of the
    world.) *)
Record t : Type := {
  s : Session.t;
  gmo_auth : GMOCoinAuth.t;
  late_limit : bool;
  last_req_time : Q
}.

Definition endpoint : Dict.t string :=
  [ ("public", "https://api.coin.z.com/public");
    ("private", "https://api.coin.z.com/private") ].

(** [self.endpoint[k]] *)
Definition endpoint_at (k : string) : string :=
  match Dict.get k endpoint with
  | Some u => u
  | None => ""
  end.

(** [GMOCoin(api_key, secret, late_limit)] *)
Definition __init__ (user_agent accept_encoding : string)
           (api_key secret : string) (late_limit : bool) : t :=
  let s0 := Session.__init__ user_agent accept_encoding in
  {| s := {| Session.headers :=
               CaseInsensitiveDict.setitem "Content-Type" "application/json"
                                           (Session.headers s0);
             Session.auth := Session.auth s0 |};
     gmo_auth := GMOCoinAuth.__init__ api_key secret;
     late_limit := late_limit;
     last_req_time := 0 |}.

(** *** The monad of a method: state and exceptions *)

Record State : Type := {
  self : t;
  world : World
}.

Definition M (A : Type) : Type := State -> Exc A * State.

Definition ret {A} (a : A) : M A := fun st => (inr a, st).

Definition bind {A B} (c : M A) (k : A -> M B) : M B :=
  fun st =>
    match c st with
    | (inl e, st') => (inl e, st')
    | (inr a, st') => k a st'
    end.

Definition raise {A} (e : Exception) : M A := fun st => (inl e, st).

Definition lift {A} (c : Exc A) : M A := fun st => (c, st).

(** [try: c  except E as e: h e], [catches] deciding the class [E]. *)
Definition try_except {A} (c : M A) (catches : Exception -> bool)
           (h : Exception -> M A) : M A :=
  fun st =>
    match c st with
    | (inl e, st') => if catches e then h e st' else (inl e, st')
    | r => r
    end.

Definition get_self : M t := fun st => (inr (self st), st).

Definition put_self (c : t) : M unit :=
  fun st => (inr tt, {| self := c; world := world st |}).

Declare Scope m_scope.
Delimit Scope m_scope with m.
Notation "x <- c ;; k" := (bind c (fun x => k))
  (at level 61, c at next level, right associativity) : m_scope.
Notation "c ;; k" := (bind c (fun _ => k))
  (at level 61, right associativity) : m_scope.
Local Open Scope m_scope.

(** *** The clock, the logger and the transport *)

(** Time passes. *)
Definition elapse (d : Q) : M unit :=
  fun st =>
    (inr tt, {| self := self st;
                world := {| clock := (clock (world st) + d)%Q;
                            trace := trace (world st) |} |}).

(** [time.time()] *)
Definition time_time : M Q := fun st => (inr (clock (world st)), st).

Definition emit (e : Event) : M unit :=
  fun st =>
    (inr tt, {| self := self st;
                world := {| clock := clock (world st);
                            trace := trace (world st) ++ [e] |} |}).

(** [time.sleep(secs)]: at least [secs] pass. *)
Definition time_sleep (env : Env) (secs : Q) : M unit :=
  now <- time_time ;;
  emit (Slept now secs) ;;
  elapse (secs + t_oversleep env)%Q.

(** [self.logger.debug(msg)] and [self.logger.error(msg)] *)
Definition logger_debug (msg : string) : M unit := emit (Logged DEBUG msg).
Definition logger_error (msg : string) : M unit := emit (Logged ERROR msg).

(** [self.s.send(prepped)] *)
Definition send (env : Env) (prepped : PreparedRequest.t) : M Response.t :=
  now <- time_time ;;
  emit (Sent now (now + t_send env)%Q prepped) ;;
  elapse (t_send env) ;;
  match outcome env with
  | Responds resp => ret resp
  | Raises e => raise e
  end.

(** [self.s.auth = a] *)
Definition set_auth (a : option GMOCoinAuth.t) : M unit :=
  c <- get_self ;;
  put_self {| s := {| Session.headers := Session.headers (s c);
                      Session.auth := a |};
              gmo_auth := gmo_auth c;
              late_limit := late_limit c;
              last_req_time := last_req_time c |}.

(** [self.last_req_time = now] *)
Definition set_last_req_time (now : Q) : M unit :=
  c <- get_self ;;
  put_self {| s := s c; gmo_auth := gmo_auth c;
              late_limit := late_limit c; last_req_time := now |}.

(** *** [_request] *)

(** Lines 42-44: every key of the snapshot [list(payload.items())]
    whose value is [None] is deleted from [payload]. *)
Definition strip_none (payload : Dict.t PyVal) : Dict.t PyVal :=
  fold_left (fun p kv => if is_None (snd kv) then Dict.del (fst kv) p else p)
            (Dict.items payload) payload.

(** Lines 46-51: the pair [(body, query)]. *)
Definition body_query (method : string) (payload : Dict.t PyVal)
  : option string * option (Dict.t PyVal) :=
  if String.eqb method "GET" then (None, Some payload)
  else (Some (Json.dumps (VDict payload)), None).

(** Lines 53-58: the base URL, and the hook of the session. *)
Definition select_endpoint (auth : bool) : M string :=
  if negb auth then
    set_auth None ;;
    ret (endpoint_at "public")
  else
    c <- get_self ;;
    set_auth (Some (gmo_auth c)) ;;
    ret (endpoint_at "private").

(** What the f-string of line 62 writes for [prepped.body]. *)
Definition show_body (b : option string) : string :=
  match b with
  | Some x => x
  | None => "None"
  end.

(** Lines 42-62: from the arguments to the prepared request. *)
Definition build (env : Env) (method path : string)
           (payload : Dict.t PyVal) (auth : bool) : M PreparedRequest.t :=
  let payload := strip_none payload in
  let bq := body_query method payload in
  endpoint <- select_endpoint auth ;;
  let req := {| Request.method := method;
                Request.url := endpoint ++ path;
                Request.data := fst bq;
                Request.params := snd bq |} in
  elapse (t_build env) ;;
  c <- get_self ;;
  now <- time_time ;;
  prepped <- lift (Session.prepare_request (s c) now req) ;;
  logger_debug ("sending req to " ++ PreparedRequest.url prepped ++ ": "
                ++ show_body (PreparedRequest.body prepped)) ;;
  ret prepped.

(** Lines 64-68: the wait of the rate limit. *)
Definition throttle (env : Env) : M unit :=
  c <- get_self ;;
  if late_limit c then
    elapse (t_check env) ;;
    now <- time_time ;;
    if Qltb now (last_req_time c + 1)%Q
    then time_sleep env (last_req_time c + 1 - now)%Q
    else ret tt
  else ret tt.

(** Lines 70-75.  The two statements of the [try] share one handler;
    [resp] keeps what was assigned before the exception: nothing when
    [send] raised, the response when [raise_for_status] did. *)
Definition send_logged (env : Env) (prepped : PreparedRequest.t)
  : M (option Response.t) :=
  try_except
    (resp <- send env prepped ;;
     try_except
       (match Response.raise_for_status resp with
        | Some e => raise e
        | None => ret (Some resp)
        end)
       is_HTTPError
       (fun e => logger_error (exc_str e) ;; ret (Some resp)))
    is_HTTPError
    (fun e => logger_error (exc_str e) ;; ret None).

(** Lines 77-78. *)
Definition stamp (env : Env) : M unit :=
  c <- get_self ;;
  if late_limit c then
    elapse (t_stamp env) ;;
    now <- time_time ;;
    set_last_req_time now
  else ret tt.

(** Lines 64-82: from the prepared request to the response. *)
Definition exchange (env : Env) (prepped : PreparedRequest.t)
  : M Response.t :=
  throttle env ;;
  elapse (t_enter env) ;;
  resp <- send_logged env prepped ;;
  stamp env ;;
  match resp with
  | Some r =>
      logger_debug ("<Response [" ++ PyStr.str_of_Z (Response.status_code r)
                    ++ "]> " ++ Response.text r) ;;
      ret r
  | None => raise (AttributeError "'NoneType' object has no attribute 'text'")
  end.

(** [GMOCoin._request(self, method, path, payload, auth)] *)
Definition _request (env : Env) (method path : string)
           (payload : Dict.t PyVal) (auth : bool) : M Response.t :=
  prepped <- build env method path payload auth ;;
  exchange env prepped.

(** *** The endpoint methods

    Every argument is a Python value; an argument left out is passed as
    its default, [VNone]. *)

Section Endpoints.
Variable env : Env.

Definition status : M Response.t :=
  _request env "GET" "/v1/status" [] false.

Definition ticker (symbol : PyVal) : M Response.t :=
  _request env "GET" "/v1/ticker" [("symbol", symbol)] false.

Definition orderbooks (symbol : PyVal) : M Response.t :=
  _request env "GET" "/v1/orderbooks" [("symbol", symbol)] false.

Definition trades (symbol page count : PyVal) : M Response.t :=
  _request env "GET" "/v1/trades"
           [("symbol", symbol); ("page", page); ("count", count)] false.

Definition account_margin : M Response.t :=
  _request env "GET" "/v1/account/margin" [] true.

Definition account_assets : M Response.t :=
  _request env "GET" "/v1/account/assets" [] true.

Definition orders (orderId : PyVal) : M Response.t :=
  _request env "GET" "/v1/orders" [("orderId", orderId)] true.

Definition activeorders (symbol page count : PyVal) : M Response.t :=
  _request env "GET" "/v1/activeOrders"
           [("symbol", symbol); ("page", page); ("count", count)] true.

Definition executions (orderId executionId : PyVal) : M Response.t :=
  _request env "GET" "/v1/executions"
           [("orderId", orderId); ("executionId", executionId)] true.

Definition latestexecutions (symbol page count : PyVal) : M Response.t :=
  _request env "GET" "/v1/latestExecutions"
           [("symbol", symbol); ("page", page); ("count", count)] true.

Definition openpositions (symbol page count : PyVal) : M Response.t :=
  _request env "GET" "/v1/openPositions"
           [("symbol", symbol); ("page", page); ("count", count)] true.

Definition positionsummary (symbol : PyVal) : M Response.t :=
  _request env "GET" "/v1/positionSummary" [("symbol", symbol)] true.

Definition order (symbol side executionType size price : PyVal)
  : M Response.t :=
  _request env "POST" "/v1/order"
           [("symbol", symbol); ("side", side);
            ("executionType", executionType); ("price", price);
            ("size", size)] true.

Definition changeorder (orderId price : PyVal) : M Response.t :=
  _request env "POST" "/v1/changeOrder"
           [("orderId", orderId); ("price", price)] true.

Definition cancelorder (orderId : PyVal) : M Response.t :=
  _request env "POST" "/v1/cancelOrder" [("orderId", orderId)] true.

(** The [payload] of [closeorder] (lines 367-378). *)
Definition closeorder_payload
           (symbol side executionType settlePosition_positionId
                   settlePosition_size price : PyVal) : Dict.t PyVal :=
  [("symbol", symbol); ("side", side);
   ("executionType", executionType); ("price", price);
   ("settlePosition",
    VList [VDict [("positionId", settlePosition_positionId);
                  ("size", settlePosition_size)]])].

Definition closeorder
           (symbol side executionType settlePosition_positionId
                   settlePosition_size price : PyVal) : M Response.t :=
  _request env "POST" "/v1/closeOrder"
           (closeorder_payload symbol side executionType
                               settlePosition_positionId
                               settlePosition_size price) true.

Definition closebulkorder (symbol side executionType size price : PyVal)
  : M Response.t :=
  _request env "POST" "/v1/closeBulkOrder"
           [("symbol", symbol); ("side", side);
            ("executionType", executionType); ("price", price);
            ("size", size)] true.

Definition changelosscutprice (positionId losscutPrice : PyVal)
  : M Response.t :=
  _request env "POST" "/v1/changeLosscutPrice"
           [("positionId", positionId); ("losscutPrice", losscutPrice)]
           true.
End Endpoints.
End GMOCoin.

(** * The vocabulary of the properties *)

(** The items that the loop of lines 42-44 keeps. *)
Definition not_None (kv : string * PyVal) : bool := negb (is_None (snd kv)).

(** The session that [build] prepares the request with. *)
Definition session_for (c : GMOCoin.t) (auth : bool) : Session.t :=
  {| Session.headers := Session.headers (GMOCoin.s c);
     Session.auth := if auth then Some (GMOCoin.gmo_auth c) else None |}.

(** The base URL of line 54 or 57. *)
Definition base_url (auth : bool) : string :=
  GMOCoin.endpoint_at (if auth then "private" else "public").

(** The [Request] of line 60. *)
Definition request_of (method path : string) (payload : Dict.t PyVal)
           (auth : bool) : Request.t :=
  let bq := GMOCoin.body_query method (GMOCoin.strip_none payload) in
  {| Request.method := method;
     Request.url := (base_url auth ++ path)%string;
     Request.data := fst bq;
     Request.params := snd bq |}.

(** The path of the base URL. *)
Definition family (auth : bool) : string :=
  if auth then "/private"%string else "/public"%string.

(** What [prepare_url] appends for the parameters [params]. *)
Definition query_suffix (params : option (Dict.t PyVal)) : string :=
  let enc := match params with
             | Some d => UrlEncode.encode_params d
             | None => ""%string
             end in
  if PyStr.is_empty enc then ""%string else ("?" ++ enc)%string.

(** Whether a path segment ends where [rest] begins. *)
Definition at_segment_end (rest : string) : bool :=
  match rest with
  | EmptyString => true
  | String c _ => Ascii.eqb c "/"
  end.

(** The canonical path as the specification words it: a leading path
    segment [/public] or [/private] is removed, and a path that does not
    begin with such a segment is left as it is. *)
Definition strip_family_segment (o : string) : string :=
  match PyStr.strip_prefix "/public" o with
  | Some rest => if at_segment_end rest then rest else o
  | None =>
      match PyStr.strip_prefix "/private" o with
      | Some rest => if at_segment_end rest then rest else o
      | None => o
      end
  end.

(** A suffix of a URL that is empty or a query. *)
Definition query_like (sfx : string) : Prop :=
  sfx = ""%string \/ exists q, sfx = ("?" ++ q)%string.

(** The body that [_request] gives to [Request], as the signer reads it. *)
Definition body_text (method : string) (payload : Dict.t PyVal) : string :=
  if String.eqb method "GET" then ""%string
  else Json.dumps (VDict (GMOCoin.strip_none payload)).

(** ** Sample inputs *)

Module Sample.
Local Open Scope string_scope.

(** A text with every apostrophe turned into a double quote, to write
    JSON texts with. *)
Fixpoint dq (s : string) : string :=
  match s with
  | "" => ""
  | String c r =>
      String (if Ascii.eqb c "'" then PyStr.chr 34 else c) (dq r)
  end.

Definition client : GMOCoin.t :=
  GMOCoin.__init__ "python-requests/2.31.0" "gzip, deflate"
                   "KEY" "test" true.

Definition state : GMOCoin.State :=
  {| GMOCoin.self := client;
     GMOCoin.world := {| clock := 1700000000; trace := [] |} |}.

Definition bad_request : Response.t :=
  {| Response.status_code := 400;
     Response.reason := "Bad Request";
     Response.url := "https://api.coin.z.com/private/v1/order";
     Response.headers := [("Content-Type", "application/json")];
     Response.text := "{}" |}.

Definition env (o : Outcome) : Env :=
  {| t_build := 1 # 10; t_check := 0; t_oversleep := 1 # 100;
     t_enter := 0; t_send := 1 # 4; t_stamp := 1 # 1000;
     outcome := o |}.

Definition signer : GMOCoinAuth.t := GMOCoinAuth.__init__ "KEY" "test".

(** A prepared request that already has a header [API-KEY]. *)
Definition request_with_key : PreparedRequest.t :=
  {| PreparedRequest.method := "POST";
     PreparedRequest.url := "https://api.coin.z.com/private/v1/order";
     PreparedRequest.headers :=
       CaseInsensitiveDict.from_items
         [("Content-Type", "application/json"); ("API-KEY", "OLD")];
     PreparedRequest.body := Some "{}" |}.

(** A dispatch that is answered with [400 Bad Request], and one whose
    connection is refused. *)
Definition responding : Env := env (Responds bad_request).

Definition refused : Exception :=
  OtherError "ConnectionError" "Connection refused".

Definition failing : Env := env (Raises refused).

(** The state after the authenticated call [account_assets]. *)
Definition after_private : GMOCoin.State :=
  snd (GMOCoin.account_assets responding state).

(** [{symbol: "BTC_JPY", page: None}] *)
Definition payload : Dict.t PyVal :=
  [("symbol", VStr "BTC_JPY"); ("page", VNone)].
End Sample.

(** ** Reading a list of headers without regard to case *)

(** The value of the last item of [l] whose key is [lk] once lowered:
    what a [CaseInsensitiveDict] filled from [l] holds for it. *)
Fixpoint ci_last (lk : string) (l : list (string * string)) : option string :=
  match l with
  | [] => None
  | (k, v) :: r =>
      match ci_last lk r with
      | Some x => Some x
      | None => if String.eqb lk (PyStr.lower k) then Some v else None
      end
  end.

(** The number of items of [l] whose key is [lk] once lowered. *)
Fixpoint ci_count (lk : string) (l : list (string * string)) : nat :=
  match l with
  | [] => O
  | (k, _) :: r =>
      ((if String.eqb lk (PyStr.lower k) then 1 else 0) + ci_count lk r)%nat
  end.



(** The three headers of a signed request, lowered. *)
Definition auth_header (lk : string) : bool :=
  String.eqb lk "api-key" || String.eqb lk "api-timestamp"
  || String.eqb lk "api-sign".

(** ** The timing of a dispatch *)

(** What [time.time()] returns on line 65. *)
Definition check_time (env : Env) (st : GMOCoin.State) : Q :=
  clock (GMOCoin.world st) + t_check env.

(** The test of line 66. *)
Definition must_wait (env : Env) (st : GMOCoin.State) : bool :=
  GMOCoin.late_limit (GMOCoin.self st)
  && Qltb (check_time env st)
          (GMOCoin.last_req_time (GMOCoin.self st) + 1).

(** The duration that line 68 sleeps for. *)
Definition wait_time (env : Env) (st : GMOCoin.State) : Q :=
  GMOCoin.last_req_time (GMOCoin.self st) + 1 - check_time env st.

(** The clock when [send] is called, in a dispatch that has prepared its
    request in the state [st]. *)
Definition send_start (env : Env) (st : GMOCoin.State) : Q :=
  (if GMOCoin.late_limit (GMOCoin.self st)
   then if must_wait env st
        then check_time env st + (wait_time env st + t_oversleep env)
        else check_time env st
   else clock (GMOCoin.world st))
  + t_enter env.

(** The clock when [send] returns. *)
Definition send_finish (env : Env) (st : GMOCoin.State) : Q :=
  send_start env st + t_send env.

(** The events of lines 64-72. *)
Definition wire_events (env : Env) (prepped : PreparedRequest.t)
           (st : GMOCoin.State) : list Event :=
  (if must_wait env st
   then [Slept (check_time env st) (wait_time env st)] else [])
  ++ [Sent (send_start env st) (send_finish env st) prepped].

(** The events of the logger. *)
Definition is_log (e : Event) : Prop :=
  match e with
  | Logged _ _ => True
  | _ => False
  end.

(** Start and finish of the last send of a trace. *)
Fixpoint last_send (tr : list Event) : option (Q * Q) :=
  match tr with
  | [] => None
  | e :: r =>
      match last_send r with
      | Some x => Some x
      | None =>
          match e with
          | Sent s f _ => Some (s, f)
          | _ => None
          end
      end
  end.

(** The requests that a trace has sent. *)
Fixpoint sent_requests (tr : list Event) : list PreparedRequest.t :=
  match tr with
  | [] => []
  | Sent _ _ r :: t => r :: sent_requests t
  | _ :: t => sent_requests t
  end.

(** The events that a run from [st] to [st'] has added. *)
Definition new_events (st st' : GMOCoin.State) : list Event :=
  skipn (List.length (trace (GMOCoin.world st))) (trace (GMOCoin.world st')).

(** None of the three authentication headers. *)
Definition no_auth_headers (h : CaseInsensitiveDict.t) : Prop :=
  CaseInsensitiveDict.get "API-KEY" h = None
  /\ CaseInsensitiveDict.get "API-TIMESTAMP" h = None
  /\ CaseInsensitiveDict.get "API-SIGN" h = None.

(** The states of a client: as [__init__] makes it, and after any
    dispatch from such a state, by an endpoint method or by [_request]
    itself, whatever it returned or raised. *)
Inductive reachable : GMOCoin.State -> Prop :=
| reach_init user_agent accept_encoding api_key secret late_limit w :
    reachable {| GMOCoin.self :=
                   GMOCoin.__init__ user_agent accept_encoding
                                    api_key secret late_limit;
                 GMOCoin.world := w |}
| reach_request st env method path payload auth :
    reachable st ->
    reachable (snd (GMOCoin._request env method path payload auth st)).

(** ** Reading the wire *)

(** [s.split(sep)], for a separator of one character. *)
Fixpoint split (sep : ascii) (s : string) : list string :=
  match s with
  | EmptyString => [EmptyString]
  | String c r =>
      if Ascii.eqb c sep then EmptyString :: split sep r
      else match split sep r with
           | x :: l => String c x :: l
           | [] => [String c EmptyString]
           end
  end.

(** The pairs of a query string, as its reader takes them: the text is
    cut at every [&], and each part at its first [=]. *)
Definition query_pairs (q : string) : list (string * string) :=
  if PyStr.is_empty q then []
  else map (fun p => (fst (PyStr.break (Ascii.eqb "=") p),
                      PyStr.tail (snd (PyStr.break (Ascii.eqb "=") p))))
           (split "&" q).

(** The pairs that the parameters [d] are to give: for each item, in
    order, the quoted key with each of the texts that [requests] makes
    of the value. *)
Definition wire_pairs (d : Dict.t PyVal) : list (string * string) :=
  flat_map (fun kv => map (fun e => (UrlEncode.quote_plus (fst kv), e))
                          (UrlEncode.values (snd kv))) d.

(** The characters that [quote_plus] writes: the unreserved ones, the
    plus sign and the percent sign. *)
Definition query_safe (c : ascii) : bool :=
  ((PyStr.ord c <? 128)%Z && PyStr.is_alnum c) || PyStr.one_of "_.-~+%" c.

(** What [quote_plus] writes for one character. *)
Definition quoted_char (c : ascii) : string :=
  String.concat "" (map UrlEncode.quote_byte (UrlEncode.utf8 c)).

(** The characters of the model, each with the text that [quote_plus]
    writes for it, and the check that the text of no character begins
    the text of another. *)
Definition all_chars : list ascii := map ascii_of_nat (seq 0 256).

Definition quoted_chars : list (ascii * string) :=
  Eval vm_compute in map (fun c => (c, quoted_char c)) all_chars.

Definition prefix_free : bool :=
  forallb (fun a =>
             forallb (fun b =>
                        Ascii.eqb (fst a) (fst b)
                        || negb (Session.startswith (snd a) (snd b)))
                     quoted_chars)
          quoted_chars.

(** A member of a JSON object as [json.dumps] writes it, and the text
    of the object. *)
Definition member (kv : string * PyVal) : string :=
  (Json.quote (fst kv) ++ ": " ++ Json.dumps (snd kv))%string.

Definition object_text (d : Dict.t PyVal) : string :=
  ("{" ++ PyStr.join ", " (map member d) ++ "}")%string.

(** The characters of a decimal number. *)
Definition sign_or_digit (c : ascii) : bool :=
  PyStr.is_digit c || Ascii.eqb c "-".

(** [{symbol: "BTC/JPY & co", page: None, count: 10}]: a payload whose
    text needs quoting. *)
Definition spaced_payload : Dict.t PyVal :=
  [("symbol"%string, VStr "BTC/JPY & co"); ("page"%string, VNone);
   ("count"%string, VInt 10)].

(** The payload of [order] for a market order: [price] is [None]. *)
Definition market_order : Dict.t PyVal :=
  [("symbol"%string, VStr "BTC_JPY"); ("side"%string, VStr "BUY");
   ("executionType"%string, VStr "MARKET"); ("price"%string, VNone);
   ("size"%string, VStr "0.01")].

(** ** The run of a dispatch, written out *)

(** Whether lines 77-78 are reached: [send] has returned, or has raised
    an [HTTPError], which line 74 catches. *)
Definition reaches_stamp (env : Env) : bool :=
  match outcome env with
  | Responds _ => true
  | Raises e => is_HTTPError e
  end.

(** The line that line 75 logs for a response. *)
Definition error_log (resp : Response.t) : list Event :=
  match Response.raise_for_status resp with
  | Some e => [Logged ERROR (exc_str e)]
  | None => []
  end.

(** The line that line 80 logs. *)
Definition response_log (resp : Response.t) : Event :=
  Logged DEBUG ("<Response [" ++ PyStr.str_of_Z (Response.status_code resp)
                ++ "]> " ++ Response.text resp)%string.

(** The lines logged after the send. *)
Definition tail_logs (env : Env) : list Event :=
  match outcome env with
  | Responds resp => error_log resp ++ [response_log resp]
  | Raises e => if is_HTTPError e then [Logged ERROR (exc_str e)] else []
  end.

(** What [_request] returns or raises once the request is sent. *)
Definition result_of (env : Env) : Exc Response.t :=
  match outcome env with
  | Responds resp => inr resp
  | Raises e =>
      if is_HTTPError e
      then inl (AttributeError "'NoneType' object has no attribute 'text'")
      else inl e
  end.

(** The client with [last_req_time] set to [now]. *)
Definition stamped (c : GMOCoin.t) (now : Q) : GMOCoin.t :=
  {| GMOCoin.s := GMOCoin.s c;
     GMOCoin.gmo_auth := GMOCoin.gmo_auth c;
     GMOCoin.late_limit := GMOCoin.late_limit c;
     GMOCoin.last_req_time := now |}.

(** The line that line 62 logs. *)
Definition request_log (prepped : PreparedRequest.t) : Event :=
  Logged DEBUG ("sending req to " ++ PreparedRequest.url prepped ++ ": "
                ++ GMOCoin.show_body (PreparedRequest.body prepped))%string.

(** The [Slept] events of a trace: when and for how long. *)
Fixpoint sleeps (tr : list Event) : list (Q * Q) :=
  match tr with
  | [] => []
  | Slept s d :: t => (s, d) :: sleeps t
  | _ :: t => sleeps t
  end.

(** The messages logged at the level [ERROR]. *)
Fixpoint errors (tr : list Event) : list string :=
  match tr with
  | [] => []
  | Logged ERROR m :: t => m :: errors t
  | _ :: t => errors t
  end.

(** The client once lines 53-58 have set the hook of the session. *)
Definition hooked (c : GMOCoin.t) (auth : bool) : GMOCoin.t :=
  {| GMOCoin.s := session_for c auth;
     GMOCoin.gmo_auth := GMOCoin.gmo_auth c;
     GMOCoin.late_limit := GMOCoin.late_limit c;
     GMOCoin.last_req_time := GMOCoin.last_req_time c |}.

(** What [prepare_request] returns or raises on line 61. *)
Definition prepared (env : Env) (method path : string)
           (payload : Dict.t PyVal) (auth : bool) (st : GMOCoin.State)
  : Exc PreparedRequest.t :=
  Session.prepare_request
    (session_for (GMOCoin.self st) auth)
    (clock (GMOCoin.world st) + t_build env)
    (request_of method path payload auth).

(** The state in which line 64 is reached: the hook is set and the
    request is built; the trace plays no part in the timing. *)
Definition at_check (env : Env) (auth : bool) (st : GMOCoin.State)
  : GMOCoin.State :=
  {| GMOCoin.self := hooked (GMOCoin.self st) auth;
     GMOCoin.world := {| clock := clock (GMOCoin.world st) + t_build env;
                         trace := [] |} |}.

(** [last_req_time] is not ahead of the clock. *)
Definition timely (st : GMOCoin.State) : Prop :=
  GMOCoin.last_req_time (GMOCoin.self st) <= clock (GMOCoin.world st).

(** ** More sample inputs *)

(** The sample client without the rate limit. *)
Definition unlimited_state : GMOCoin.State :=
  {| GMOCoin.self :=
       GMOCoin.__init__ "python-requests/2.31.0" "gzip, deflate"
                        "KEY" "test" false;
     GMOCoin.world := {| clock := 1700000000; trace := [] |} |}.

(** A client whose secret is the one character of code point 233. *)
Definition latin_state : GMOCoin.State :=
  {| GMOCoin.self :=
       GMOCoin.__init__ "python-requests/2.31.0" "gzip, deflate"
                        "KEY" (String (PyStr.chr 233) "") true;
     GMOCoin.world := {| clock := 1700000000; trace := [] |} |}.

(** A send that raises an [HTTPError] itself. *)
Definition bad_gateway : Env :=
  Sample.env (Raises (HTTPError "502 Bad Gateway")).

(** ** Texts that the signer can encode *)


(** ** The calls of the endpoint methods *)

(** A call of an endpoint method, with its arguments. *)
Inductive Call : Type :=
| Status
| Ticker (symbol : PyVal)
| Orderbooks (symbol : PyVal)
| Trades (symbol page count : PyVal)
| AccountMargin
| AccountAssets
| Orders (orderId : PyVal)
| ActiveOrders (symbol page count : PyVal)
| Executions (orderId executionId : PyVal)
| LatestExecutions (symbol page count : PyVal)
| OpenPositions (symbol page count : PyVal)
| PositionSummary (symbol : PyVal)
| Order (symbol side executionType size price : PyVal)
| ChangeOrder (orderId price : PyVal)
| CancelOrder (orderId : PyVal)
| CloseOrder (symbol side executionType settlePosition_positionId
                     settlePosition_size price : PyVal)
| CloseBulkOrder (symbol side executionType size price : PyVal)
| ChangeLosscutPrice (positionId losscutPrice : PyVal).

Definition run (env : Env) (c : Call) : GMOCoin.M Response.t :=
  match c with
  | Status => GMOCoin.status env
  | Ticker symbol => GMOCoin.ticker env symbol
  | Orderbooks symbol => GMOCoin.orderbooks env symbol
  | Trades symbol page count => GMOCoin.trades env symbol page count
  | AccountMargin => GMOCoin.account_margin env
  | AccountAssets => GMOCoin.account_assets env
  | Orders orderId => GMOCoin.orders env orderId
  | ActiveOrders symbol page count =>
      GMOCoin.activeorders env symbol page count
  | Executions orderId executionId =>
      GMOCoin.executions env orderId executionId
  | LatestExecutions symbol page count =>
      GMOCoin.latestexecutions env symbol page count
  | OpenPositions symbol page count =>
      GMOCoin.openpositions env symbol page count
  | PositionSummary symbol => GMOCoin.positionsummary env symbol
  | Order symbol side executionType size price =>
      GMOCoin.order env symbol side executionType size price
  | ChangeOrder orderId price => GMOCoin.changeorder env orderId price
  | CancelOrder orderId => GMOCoin.cancelorder env orderId
  | CloseOrder symbol side executionType positionId size price =>
      GMOCoin.closeorder env symbol side executionType positionId size price
  | CloseBulkOrder symbol side executionType size price =>
      GMOCoin.closebulkorder env symbol side executionType size price
  | ChangeLosscutPrice positionId losscutPrice =>
      GMOCoin.changelosscutprice env positionId losscutPrice
  end.

(** The methods under the heading [Public API] (lines 84-143); the
    others stand under [Private API] (lines 145-424). *)
Definition is_public (c : Call) : bool :=
  match c with
  | Status | Ticker _ | Orderbooks _ | Trades _ _ _ => true
  | _ => false
  end.
(** * Properties *)

(** ** The embedded library functions on known values *)

Example sha256_abc :
  PyStr.hex (Sha256.digest (bytes_of_string "abc"))
  = "ba7816bf8f01cfea414140de5dae2223b00361a396177a9cb410ff61f20015ad"%string.
Proof. vm_compute. reflexivity. Qed.

Example sha256_empty :
  PyStr.hex (Sha256.digest [])
  = "e3b0c44298fc1c149afbf4c8996fb92427ae41e4649b934ca495991b7852b855"%string.
Proof. vm_compute. reflexivity. Qed.

(** RFC 4231, test case 2. *)
Example hmac_rfc4231_2 :
  hexdigest (bytes_of_string "Jefe")
            (bytes_of_string "what do ya want for nothing?")
  = "5bdcc146bf60754e6a042426089575c75a003f089d2739839dec58b964ec3843"%string.
Proof. vm_compute. reflexivity. Qed.

(** The signature of secret [test], timestamp [1000], method [GET], path
    [/v1/ticker] and no body. *)
Example signature_of_ticker :
  hexdigest (bytes_of_string "test") (bytes_of_string "1000GET/v1/ticker")
  = "a4cf7b3c90fe2b5c32211aac88713d5f346a64a3ed9674a78ef3c4db13e2b433"%string.
Proof. vm_compute. reflexivity. Qed.

Example urlencode_sample :
  UrlEncode.encode_params
    [("symbol", VStr "BTC_JPY"); ("page", VNone); ("count", VInt 3);
     ("s p", VStr "a b&c=d/~-._*"); ("l", VList [VInt 1; VNone; VStr "x y"])]%string
  = "symbol=BTC_JPY&count=3&s+p=a+b%26c%3Dd%2F~-._%2A&l=1&l=x+y"%string.
Proof. vm_compute. reflexivity. Qed.

Example json_sample :
  Json.dumps (VDict [("a", VNone); ("b", VBool true); ("c", VInt (-12));
                     ("e", VList [VInt 1; VDict [("k", VStr "v")]]);
                     ("f", VDict [])]%string)
  = Sample.dq "{'a': null, 'b': true, 'c': -12, 'e': [1, {'k': 'v'}], 'f': {}}".
Proof. vm_compute. reflexivity. Qed.

Example urlparse_path_samples :
  map Url.urlparse_path
      ["/private/v1/order"; "/a;b/c;d?q=1"; "//host/p?x"; "/p#f?x";
       "a:b/c;d"; "/x;y;z"]%string
  = map inr ["/private/v1/order"; "/a;b/c"; "/p"; "/p"; "b/c;d"; "/x"]%string.
Proof. vm_compute. reflexivity. Qed.

(** ** Facts about [dict] *)

Section DictFacts.
Variable V : Type.
Implicit Types (d : Dict.t V) (k : string) (v : V).

Lemma get_set_eq k v d : Dict.get k (Dict.set k v d) = Some v.
Proof.
  induction d as [|[k' v'] r IH]; simpl.
  - now rewrite String.eqb_refl.
  - destruct (String.eqb k k') eqn:E; simpl; rewrite E; auto.
Qed.

Lemma get_set_neq k k' v d :
  k <> k' -> Dict.get k' (Dict.set k v d) = Dict.get k' d.
Proof.
  intros N. induction d as [|[k0 v0] r IH]; simpl.
  - destruct (String.eqb_spec k' k); congruence.
  - destruct (String.eqb_spec k k0) as [->|]; simpl.
    + destruct (String.eqb_spec k' k0); congruence.
    + now rewrite IH.
Qed.

Lemma get_some_in k v d : Dict.get k d = Some v -> In (k, v) d.
Proof.
  induction d as [|[k' v'] r IH]; simpl; [discriminate|].
  destruct (String.eqb_spec k k') as [->|]; intros H.
  - left. congruence.
  - right. auto.
Qed.

Lemma get_none_keys k d : Dict.get k d = None -> ~ In k (Dict.keys d).
Proof.
  induction d as [|[k' v'] r IH]; simpl; [tauto|].
  destruct (String.eqb_spec k k'); [discriminate|].
  intros H [?|?]; [congruence | now apply IH].
Qed.

Lemma keys_get k d : In k (Dict.keys d) -> exists v, Dict.get k d = Some v.
Proof.
  destruct (Dict.get k d) eqn:E; [eauto|].
  intros H. now apply get_none_keys in E.
Qed.

Lemma del_app k v (acc r : Dict.t V) :
  ~ In k (Dict.keys acc) -> Dict.del k (acc ++ (k, v) :: r) = acc ++ r.
Proof.
  induction acc as [|[k' v'] a IH]; simpl; intros N.
  - now rewrite String.eqb_refl.
  - destruct (String.eqb_spec k k') as [->|]; [tauto|].
    rewrite IH; tauto.
Qed.

Lemma get_filter_sound (f : string * V -> bool) k v d :
  Dict.get k (filter f d) = Some v -> f (k, v) = true.
Proof.
  intros H. apply get_some_in, filter_In in H. tauto.
Qed.

Lemma get_filter_keep (f : string * V -> bool) k v d :
  f (k, v) = true -> Dict.get k d = Some v ->
  Dict.get k (filter f d) = Some v.
Proof.
  intros F. induction d as [|[k' v'] r IH]; simpl; [discriminate|].
  destruct (String.eqb_spec k k') as [->|N]; intros H.
  - injection H as ->. rewrite F. simpl. now rewrite String.eqb_refl.
  - destruct (f (k', v')); simpl; auto.
    destruct (String.eqb_spec k k'); [congruence | auto].
Qed.

Lemma get_filter_back (f : string * V -> bool) k v d :
  Dict.wf d -> Dict.get k (filter f d) = Some v -> Dict.get k d = Some v.
Proof.
  unfold Dict.wf. induction d as [|[k' v'] r IH]; simpl; [discriminate|].
  intros W H. inversion W as [|? ? Hn Hr]; subst.
  destruct (String.eqb_spec k k') as [->|N].
  - destruct (f (k', v')) eqn:F; simpl in H.
    + now rewrite String.eqb_refl in H.
    + exfalso. apply Hn. apply get_some_in in H.
      apply filter_In in H. destruct H as [H _].
      change k' with (fst (k', v)). now apply in_map.
  - apply IH; auto. destruct (f (k', v')); simpl in H; auto.
    destruct (String.eqb_spec k k'); [congruence | auto].
Qed.
End DictFacts.

(** ** Stripping the [None] values (lines 42-44) *)

Lemma strip_none_from (l acc : Dict.t PyVal) :
  Dict.wf (acc ++ l) ->
  fold_left (fun p kv => if is_None (snd kv) then Dict.del (fst kv) p else p)
            l (acc ++ l)
  = acc ++ filter not_None l.
Proof.
  revert acc. induction l as [|[k v] r IH]; intros acc W; simpl.
  - reflexivity.
  - unfold not_None at 1. simpl. destruct (is_None v) eqn:E; simpl.
    + assert (N : ~ In k (Dict.keys acc)).
      { unfold Dict.wf, Dict.keys in W. rewrite map_app in W.
        apply NoDup_remove_2 in W. simpl in W.
        intros H. apply W. apply in_or_app. now left. }
      rewrite del_app by exact N. apply IH.
      unfold Dict.wf, Dict.keys in *. rewrite map_app in *.
      now apply NoDup_remove_1 in W.
    + change (acc ++ (k, v) :: r) with (acc ++ [(k, v)] ++ r).
      rewrite app_assoc. rewrite IH.
      * now rewrite <- app_assoc.
      * now rewrite <- app_assoc.
Qed.

(** On a [dict], the loop keeps the items whose value is not [None], in
    their order. *)
Lemma strip_none_filter (payload : Dict.t PyVal) :
  Dict.wf payload -> GMOCoin.strip_none payload = filter not_None payload.
Proof.
  intros W. unfold GMOCoin.strip_none, Dict.items.
  exact (strip_none_from payload [] W).
Qed.

Lemma not_None_true k v : not_None (k, v) = true <-> v <> VNone.
Proof.
  unfold not_None. simpl. destruct v; simpl; split; congruence.
Qed.

(** ** What preparing a request keeps *)

Ltac exc_inv H :=
  repeat match type of H with
         | exc_bind ?c _ = inr _ =>
             let E := fresh "E" in
             destruct c eqn:E; simpl in H; [discriminate H|]
         end.

Lemma prepare_headers_keeps r hs p :
  PreparedRequest.prepare_headers r hs = inr p ->
  PreparedRequest.method p = PreparedRequest.method r
  /\ PreparedRequest.url p = PreparedRequest.url r
  /\ PreparedRequest.body p = PreparedRequest.body r
  /\ PreparedRequest.headers p
     = CaseInsensitiveDict.from_items (Dict.items hs).
Proof.
  unfold PreparedRequest.prepare_headers. intros H. exc_inv H.
  injection H as <-. simpl. auto.
Qed.

Lemma prepare_content_length_keeps r :
  let p := PreparedRequest.prepare_content_length r in
  PreparedRequest.method p = PreparedRequest.method r
  /\ PreparedRequest.url p = PreparedRequest.url r
  /\ PreparedRequest.body p = PreparedRequest.body r.
Proof.
  unfold PreparedRequest.prepare_content_length.
  destruct (PreparedRequest.body r) as [b|] eqn:B.
  - destruct (PreparedRequest.super_len b =? 0)%Z; simpl; auto.
  - destruct (negb _); [|simpl; auto].
    destruct (CaseInsensitiveDict.get _ _); simpl; auto.
Qed.

Lemma call_keeps self now r r' :
  GMOCoinAuth.__call__ self now r = inr r' ->
  PreparedRequest.method r' = PreparedRequest.method r
  /\ PreparedRequest.url r' = PreparedRequest.url r
  /\ PreparedRequest.body r' = PreparedRequest.body r.
Proof.
  unfold GMOCoinAuth.__call__. intros H. exc_inv H.
  apply prepare_headers_keeps in H. tauto.
Qed.

(** [prepare_request] changes neither the URL that [prepare_url] makes
    nor the body, and the method is in upper case. *)
Lemma prepare_request_inv s now req p :
  Session.prepare_request s now req = inr p ->
  Session.prepare_url (Request.url req) (Request.params req)
  = inr (PreparedRequest.url p)
  /\ PreparedRequest.body p
     = match Request.data req with
       | Some d => if PyStr.is_empty d then None else Some d
       | None => None
       end
  /\ PreparedRequest.method p = PyStr.upper (Request.method req).
Proof.
  unfold Session.prepare_request. intros H. exc_inv H.
  apply prepare_headers_keeps in E0. simpl in E0.
  destruct E0 as (Hm & Hu & _ & _).
  match type of H with
  | context [PreparedRequest.prepare_content_length ?x] =>
      pose proof (prepare_content_length_keeps x) as K; simpl in K;
      set (q := PreparedRequest.prepare_content_length x) in *
  end.
  destruct K as (Km & Ku & Kb).
  destruct (Session.auth s) as [a|].
  - exc_inv H. injection H as <-.
    match goal with
    | C : GMOCoinAuth.__call__ _ _ _ = inr ?r |- _ =>
        apply call_keeps in C; destruct C as (Cm & Cu & Cb);
        pose proof (prepare_content_length_keeps r) as L
    end.
    simpl in L. destruct L as (Lm & Lu & Lb).
    rewrite Lu, Lb, Lm, Cu, Cb, Cm, Ku, Kb, Km, Hu, Hm. auto.
  - injection H as <-. rewrite Ku, Kb, Km, Hu, Hm. auto.
Qed.

Lemma build_inv env method path payload auth st prepped st1 :
  GMOCoin.build env method path payload auth st = (inr prepped, st1) ->
  Session.prepare_request
    (session_for (GMOCoin.self st) auth)
    (clock (GMOCoin.world st) + t_build env)
    (request_of method path payload auth) = inr prepped
  /\ st1 = {| GMOCoin.self :=
               {| GMOCoin.s := session_for (GMOCoin.self st) auth;
                  GMOCoin.gmo_auth := GMOCoin.gmo_auth (GMOCoin.self st);
                  GMOCoin.late_limit := GMOCoin.late_limit (GMOCoin.self st);
                  GMOCoin.last_req_time :=
                    GMOCoin.last_req_time (GMOCoin.self st) |};
             GMOCoin.world :=
               {| clock := clock (GMOCoin.world st) + t_build env;
                  trace := trace (GMOCoin.world st)
                           ++ [Logged DEBUG
                                 ("sending req to "
                                  ++ PreparedRequest.url prepped ++ ": "
                                  ++ GMOCoin.show_body
                                       (PreparedRequest.body prepped))%string]
               |} |}.
Proof.
  unfold GMOCoin.build, request_of, base_url, session_for.
  destruct auth;
    cbv [GMOCoin.select_endpoint negb GMOCoin.bind GMOCoin.set_auth
         GMOCoin.get_self GMOCoin.put_self GMOCoin.ret GMOCoin.elapse
         GMOCoin.time_time GMOCoin.lift GMOCoin.logger_debug GMOCoin.emit
         GMOCoin.self GMOCoin.world GMOCoin.s GMOCoin.gmo_auth
         GMOCoin.late_limit GMOCoin.last_req_time clock trace];
    destruct st as [[s ga ll lrt] [ck tr]];
    match goal with
    | |- context [Session.prepare_request ?a ?b ?c] =>
        destruct (Session.prepare_request a b c) eqn:E
    end;
    intros H; inversion H; subst; auto.
Qed.

(** ** URLs of plain paths *)

Lemma plain_char_cases c :
  Url.plain_char c = true ->
  Ascii.eqb "#" c = false /\ Ascii.eqb "?" c = false
  /\ Ascii.eqb ":" c = false
  /\ ((PyStr.ord c =? 9) || (PyStr.ord c =? 13) || (PyStr.ord c =? 10))%Z = false.
Proof.
  destruct c as [[] [] [] [] [] [] [] []]; vm_compute; intuition congruence.
Qed.

Lemma break_plain (f : ascii -> bool) p :
  (forall c, Url.plain_char c = true -> f c = false) ->
  Url.plain p = true -> PyStr.break f p = (p, ""%string).
Proof.
  intros F. induction p as [|c r IH]; simpl; [reflexivity|].
  intros H. apply andb_prop in H. destruct H as [Hc Hr].
  rewrite (F c Hc), (IH Hr). reflexivity.
Qed.

Lemma remove_unsafe_plain p :
  Url.plain p = true -> Url.remove_unsafe p = p.
Proof.
  induction p as [|c r IH]; simpl; [reflexivity|].
  intros H. apply andb_prop in H. destruct H as [Hc Hr].
  destruct (plain_char_cases c Hc) as (_ & _ & _ & U).
  cbv zeta. rewrite U, (IH Hr). reflexivity.
Qed.

Lemma urlsplit_base auth p :
  Url.plain p = true ->
  Url.urlsplit (base_url auth ++ p)
  = inr {| Url.scheme := "https"; Url.netloc := "api.coin.z.com";
           Url.path := (family auth ++ p)%string;
           Url.query := ""; Url.fragment := "" |}.
Proof.
  intros P.
  assert (Bh := break_plain (Ascii.eqb "#") p
                  (fun c H => proj1 (plain_char_cases c H)) P).
  assert (Bq := break_plain (Ascii.eqb "?") p
                  (fun c H => proj1 (proj2 (plain_char_cases c H))) P).
  assert (R := remove_unsafe_plain p P).
  unfold Url.urlsplit.
  destruct auth; cbn; rewrite R; cbn; rewrite Bh; cbn; rewrite Bq; reflexivity.
Qed.

Lemma append_empty (s : string) : (s ++ "")%string = s.
Proof.
  induction s as [|c r IH]; simpl; [reflexivity | now rewrite IH].
Qed.

Lemma prepare_url_base auth p params :
  Url.plain p = true ->
  Session.prepare_url (base_url auth ++ p) params
  = inr (base_url auth ++ p ++ query_suffix params)%string.
Proof.
  intros P. unfold Session.prepare_url.
  assert (L : Session.lstrip (base_url auth ++ p) = (base_url auth ++ p)%string)
    by (destruct auth; reflexivity).
  rewrite L.
  assert (C : PyStr.one_of (base_url auth ++ p) ":"
              && negb (Session.startswith "http"
                         (PyStr.lower (base_url auth ++ p))) = false)
    by (destruct auth; reflexivity).
  rewrite C, (urlsplit_base auth p P). simpl exc_bind. cbv beta.
  unfold query_suffix.
  set (enc := match params with
              | Some d => UrlEncode.encode_params d
              | None => ""%string
              end).
  destruct auth; cbn; destruct enc; cbn; try reflexivity.
  - now rewrite append_empty.
  - now rewrite append_empty.
Qed.

Ltac nodup :=
  repeat (constructor; [simpl; intuition discriminate|]); constructor.

(** ** The texts on the wire *)

Lemma in_all_chars c : In c all_chars.
Proof.
  unfold all_chars. rewrite <- (ascii_nat_embedding c).
  apply in_map, in_seq. pose proof (nat_ascii_bounded c). lia.
Qed.

Lemma quoted_char_safe c : PyStr.forallb query_safe (quoted_char c) = true.
Proof.
  destruct c as [[] [] [] [] [] [] [] []]; reflexivity.
Qed.

Lemma quoted_char_not_empty c : quoted_char c <> ""%string.
Proof.
  destruct c as [[] [] [] [] [] [] [] []]; discriminate.
Qed.

Lemma forallb_append (f : ascii -> bool) a b :
  PyStr.forallb f (a ++ b) = PyStr.forallb f a && PyStr.forallb f b.
Proof.
  induction a as [|c r IH]; simpl; [reflexivity|].
  now rewrite IH, andb_assoc.
Qed.

Lemma forallb_weaken (f g : ascii -> bool) s :
  (forall c, f c = true -> g c = true) ->
  PyStr.forallb f s = true -> PyStr.forallb g s = true.
Proof.
  intros I. induction s as [|c r IH]; simpl; [reflexivity|].
  intros H. apply andb_prop in H. destruct H as [Hc Hr].
  now rewrite (I c Hc), (IH Hr).
Qed.

(** [quote_plus] writes unreserved characters, [+] and [%] only. *)
Lemma quote_plus_safe s :
  PyStr.forallb query_safe (UrlEncode.quote_plus s) = true.
Proof.
  induction s as [|c r IH]; [reflexivity|].
  change (UrlEncode.quote_plus (String c r))
    with (quoted_char c ++ UrlEncode.quote_plus r)%string.
  now rewrite forallb_append, quoted_char_safe, IH.
Qed.

Lemma query_safe_cases c :
  query_safe c = true ->
  Ascii.eqb c "&" = false /\ Ascii.eqb "=" c = false
  /\ Ascii.eqb "?" c = false /\ Ascii.eqb "#" c = false.
Proof.
  destruct c as [[] [] [] [] [] [] [] []]; vm_compute; intuition congruence.
Qed.

(** *** Splitting what was joined *)

Lemma split_free sep s :
  PyStr.forallb (fun c => negb (Ascii.eqb c sep)) s = true ->
  split sep s = [s].
Proof.
  induction s as [|c r IH]; simpl; [reflexivity|].
  intros H. apply andb_prop in H. destruct H as [Hc Hr].
  apply negb_true_iff in Hc. now rewrite Hc, (IH Hr).
Qed.

Lemma split_app sep s t :
  PyStr.forallb (fun c => negb (Ascii.eqb c sep)) s = true ->
  split sep (s ++ String sep t) = s :: split sep t.
Proof.
  induction s as [|c r IH]; simpl.
  - intros _. now rewrite Ascii.eqb_refl.
  - intros H. apply andb_prop in H. destruct H as [Hc Hr].
    apply negb_true_iff in Hc. now rewrite Hc, (IH Hr).
Qed.

Lemma split_join sep x l :
  Forall (fun s => PyStr.forallb (fun c => negb (Ascii.eqb c sep)) s = true)
         (x :: l) ->
  split sep (PyStr.join (String sep "") (x :: l)) = x :: l.
Proof.
  revert x. induction l as [|y l IH]; intros x F.
  - inversion F. now apply split_free.
  - inversion F as [|? ? Hx F']. subst.
    change (PyStr.join (String sep "") (x :: y :: l))
      with (x ++ String sep "" ++ PyStr.join (String sep "") (y :: l))%string.
    change (String sep "" ++ PyStr.join (String sep "") (y :: l))%string
      with (String sep (PyStr.join (String sep "") (y :: l))).
    rewrite split_app by exact Hx. rewrite (IH y F'). reflexivity.
Qed.

Lemma break_at (f : ascii -> bool) k c e :
  PyStr.forallb (fun x => negb (f x)) k = true -> f c = true ->
  PyStr.break f (k ++ String c e) = (k, String c e).
Proof.
  intros H Hc. induction k as [|x r IH]; simpl.
  - now rewrite Hc.
  - simpl in H. apply andb_prop in H. destruct H as [Hx Hr].
    apply negb_true_iff in Hx. now rewrite Hx, (IH Hr).
Qed.

(** *** The query string read back *)

Lemma values_safe v :
  Forall (fun e => PyStr.forallb query_safe e = true) (UrlEncode.values v).
Proof.
  assert (E : forall x, Forall (fun e => PyStr.forallb query_safe e = true)
                               (UrlEncode.element x)).
  { intros [ |b|z|s|l|d]; simpl; repeat constructor;
      try apply quote_plus_safe.
    - induction l; constructor; auto using quote_plus_safe.
    - induction d; constructor; auto using quote_plus_safe. }
  destruct v as [ |b|z|s|l|d];
    [exact (E VNone) | exact (E (VBool b)) | exact (E (VInt z))
     | exact (E (VStr s)) | | exact (E (VDict d))].
  simpl. induction l as [|x r IH]; simpl; [constructor|].
  apply Forall_app. split; [apply E | exact IH].
Qed.

Lemma wire_pairs_safe d :
  Forall (fun p => PyStr.forallb query_safe (fst p) = true
                   /\ PyStr.forallb query_safe (snd p) = true)
         (wire_pairs d).
Proof.
  unfold wire_pairs. induction d as [|[k v] r IH]; simpl; [constructor|].
  apply Forall_app. split; [|exact IH].
  apply Forall_map. simpl.
  eapply Forall_impl; [|apply values_safe].
  intros e He. split; [apply quote_plus_safe | exact He].
Qed.

Lemma encode_params_pairs d :
  UrlEncode.encode_params d
  = PyStr.join "&" (map (fun p => (fst p ++ "=" ++ snd p)%string)
                        (wire_pairs d)).
Proof.
  unfold UrlEncode.encode_params, wire_pairs. f_equal.
  induction d as [|[k v] r IH]; [reflexivity|].
  cbn [flat_map]. rewrite map_app, map_map, <- IH. reflexivity.
Qed.

Lemma safe_no_ampersand s :
  PyStr.forallb query_safe s = true ->
  PyStr.forallb (fun c => negb (Ascii.eqb c "&")) s = true.
Proof.
  apply forallb_weaken. intros c Hc. apply query_safe_cases in Hc.
  destruct Hc as (-> & _). reflexivity.
Qed.

Lemma safe_no_equals s :
  PyStr.forallb query_safe s = true ->
  PyStr.forallb (fun c => negb (Ascii.eqb "=" c)) s = true.
Proof.
  apply forallb_weaken. intros c Hc. apply query_safe_cases in Hc.
  destruct Hc as (_ & -> & _). reflexivity.
Qed.

(** The pairs of the query string are the pairs that were written: no
    key and no value holds a [&] or a [=] of its own. *)
Lemma query_pairs_encode_params d :
  query_pairs (UrlEncode.encode_params d) = wire_pairs d.
Proof.
  rewrite encode_params_pairs. pose proof (wire_pairs_safe d) as S.
  destruct (wire_pairs d) as [|[a b] l]; [reflexivity|].
  unfold query_pairs.
  assert (N : PyStr.is_empty
                (PyStr.join "&"
                   (map (fun p => (fst p ++ "=" ++ snd p)%string)
                        ((a, b) :: l))) = false).
  { simpl. destruct l; simpl; destruct a; reflexivity. }
  rewrite N. clear N.
  assert (F : Forall (fun s => PyStr.forallb
                                  (fun c => negb (Ascii.eqb c "&")) s = true)
                     (map (fun p => (fst p ++ "=" ++ snd p)%string)
                          ((a, b) :: l))).
  { apply Forall_map. eapply Forall_impl; [|exact S].
    intros [x y] [Hx Hy]. cbn [fst snd] in *.
    rewrite !forallb_append, (safe_no_ampersand _ Hx).
    change (PyStr.forallb (fun c => negb (Ascii.eqb c "&")) ("=" ++ y))
      with (PyStr.forallb (fun c => negb (Ascii.eqb c "&")) y).
    now rewrite (safe_no_ampersand _ Hy). }
  cbn [map] in F |- *. rewrite split_join by exact F.
  cbn [map]. f_equal.
  - inversion S as [|? ? [Hx _] _]. cbn [fst snd String.append] in *.
    rewrite (@break_at (Ascii.eqb "=") a "=" b (safe_no_equals _ Hx) eq_refl).
    reflexivity.
  - inversion S as [|? ? _ S']. subst. clear F S. rewrite map_map.
    induction S' as [|[u w] r [Hx Hy] S' IH]; [reflexivity|].
    cbn [fst snd map String.append] in *. rewrite IH. f_equal.
    rewrite (@break_at (Ascii.eqb "=") u "=" w (safe_no_equals _ Hx) eq_refl).
    reflexivity.
Qed.

(** *** [quote_plus] loses nothing *)

Lemma append_cancel (a x y : string) : (a ++ x = a ++ y)%string -> x = y.
Proof.
  induction a as [|c a IH]; simpl; [auto|]. intros H. injection H. auto.
Qed.

(** Of two texts that begin the same text, one begins the other. *)
Lemma startswith_either a b : forall x y,
  (a ++ x = b ++ y)%string ->
  Session.startswith a b = true \/ Session.startswith b a = true.
Proof.
  unfold Session.startswith. revert b.
  induction a as [|c a IH]; intros b x y H.
  - left. now destruct b.
  - destruct b as [|d b]; [now right|].
    simpl in H. injection H as -> H. simpl. rewrite Ascii.eqb_refl.
    exact (IH b x y H).
Qed.

Lemma in_quoted_chars c : In (c, quoted_char c) quoted_chars.
Proof.
  change quoted_chars with (map (fun c => (c, quoted_char c)) all_chars).
  apply (in_map (fun c => (c, quoted_char c))). apply in_all_chars.
Qed.

Lemma prefix_free_true : prefix_free = true.
Proof. vm_compute. reflexivity. Qed.

Lemma quoted_char_prefix a b :
  Session.startswith (quoted_char a) (quoted_char b) = true -> a = b.
Proof.
  intros H. pose proof prefix_free_true as T. unfold prefix_free in T.
  rewrite forallb_forall in T. specialize (T _ (in_quoted_chars a)).
  rewrite forallb_forall in T. specialize (T _ (in_quoted_chars b)).
  cbn [fst snd] in T. rewrite H in T. simpl in T.
  rewrite orb_false_r in T. now apply Ascii.eqb_eq.
Qed.

(** Two texts with the same quoted form are the same text. *)
Lemma quote_plus_inj s : forall t,
  UrlEncode.quote_plus s = UrlEncode.quote_plus t -> s = t.
Proof.
  induction s as [|c s IH]; intros [|d t] H.
  - reflexivity.
  - exfalso. change (UrlEncode.quote_plus (String d t))
      with (quoted_char d ++ UrlEncode.quote_plus t)%string in H.
    pose proof (quoted_char_not_empty d).
    destruct (quoted_char d); [congruence | discriminate].
  - exfalso. change (UrlEncode.quote_plus (String c s))
      with (quoted_char c ++ UrlEncode.quote_plus s)%string in H.
    pose proof (quoted_char_not_empty c).
    destruct (quoted_char c); [congruence | discriminate].
  - change (quoted_char c ++ UrlEncode.quote_plus s
            = quoted_char d ++ UrlEncode.quote_plus t)%string in H.
    assert (E : c = d).
    { destruct (startswith_either _ _ _ _ H) as [P|P];
        apply quoted_char_prefix in P; congruence. }
    subst d. apply append_cancel in H. now rewrite (IH t H).
Qed.

(** *** The JSON text of a value *)

Lemma uint_sign_or_digit d :
  PyStr.forallb sign_or_digit (NilEmpty.string_of_uint d) = true.
Proof.
  induction d; simpl; auto.
Qed.

Lemma str_of_Z_sign_or_digit z :
  PyStr.forallb sign_or_digit (PyStr.str_of_Z z) = true.
Proof.
  unfold PyStr.str_of_Z.
  destruct (Z.to_int z) as [d|d]; simpl;
    destruct d; simpl; auto using uint_sign_or_digit.
Qed.

(** [json.dumps] writes [null] for [None] and for nothing else. *)
Lemma dumps_null v : Json.dumps v = "null"%string -> v = VNone.
Proof.
  destruct v as [ |b|z|s|l|d]; simpl; intros H.
  - reflexivity.
  - destruct b; discriminate.
  - pose proof (str_of_Z_sign_or_digit z) as D. rewrite H in D.
    discriminate.
  - discriminate.
  - discriminate.
  - discriminate.
Qed.

(** *** A [dict] has one value for a key *)

Lemma wf_in_unique (V : Type) (d : Dict.t V) k v v' :
  Dict.wf d -> In (k, v) d -> In (k, v') d -> v = v'.
Proof.
  unfold Dict.wf, Dict.keys.
  induction d as [|[k0 v0] r IH]; simpl; [tauto|].
  intros W [E|H] [E'|H'].
  - congruence.
  - inversion W as [|? ? N _]. exfalso. apply N.
    injection E as -> _. now apply (in_map fst) in H'.
  - inversion W as [|? ? N _]. exfalso. apply N.
    injection E' as -> _. now apply (in_map fst) in H.
  - inversion W. auto.
Qed.

Lemma filter_not_None_in k v (d : Dict.t PyVal) :
  In (k, v) (filter not_None d) -> In (k, v) d /\ v <> VNone.
Proof.
  intros H. apply filter_In in H. destruct H as [H N].
  split; [exact H|]. now apply not_None_true in N.
Qed.

(** No pair of the parameters has the key of an item whose value is
    [None]. *)
Lemma wire_pairs_names d k :
  Dict.wf d -> In (k, VNone) d ->
  ~ In (UrlEncode.quote_plus k) (map fst (wire_pairs (filter not_None d))).
Proof.
  intros W H I. apply in_map_iff in I. destruct I as ([a b] & E & I).
  simpl in E. unfold wire_pairs in I. apply in_flat_map in I.
  destruct I as ([k' v'] & F & I). apply in_map_iff in I.
  destruct I as (e & P & _). injection P as <- _. simpl in E.
  apply quote_plus_inj in E. subst k'.
  apply filter_not_None_in in F. destruct F as [F N].
  apply N. exact (@wf_in_unique _ d k _ _ W F H).
Qed.

Lemma filter_keys_none k (d : Dict.t PyVal) :
  Dict.wf d -> In (k, VNone) d -> ~ In k (map fst (filter not_None d)).
Proof.
  intros W H I. apply in_map_iff in I. destruct I as ([k' v'] & E & F).
  simpl in E. subst k'. apply filter_not_None_in in F.
  destruct F as [F N]. apply N. exact (@wf_in_unique _ d k _ _ W F H).
Qed.

(** The URL of a dispatch without parameters holds no question mark. *)
Lemma plain_url_no_query auth p :
  Url.plain p = true -> PyStr.one_of (base_url auth ++ p) "?" = false.
Proof.
  intros P.
  assert (Q : PyStr.one_of p "?" = false).
  { unfold PyStr.one_of, PyStr.existsb.
    assert (F : PyStr.forallb (fun c => negb (Ascii.eqb "?" c)) p = true).
    { revert P. unfold Url.plain.
      induction p as [|c r IH]; [reflexivity|].
      cbn [PyStr.forallb]. intros H. apply andb_prop in H.
      destruct H as [Hc Hr].
      destruct (plain_char_cases c Hc) as (_ & E & _).
      rewrite E, (IH Hr). reflexivity. }
    now rewrite F. }
  revert Q. unfold PyStr.one_of, PyStr.existsb.
  destruct auth; cbn; intros Q; exact Q.
Qed.

Lemma dumps_object d : Json.dumps (VDict d) = object_text d.
Proof.
  unfold object_text. cbn [Json.dumps]. do 3 f_equal.
  apply map_ext. now intros [k v].
Qed.

(** What a dispatch that has prepared its request puts on the wire. *)
Lemma wire_of_build env method path payload auth st prepped st1 :
  GMOCoin.build env method path payload auth st = (inr prepped, st1) ->
  let wire := GMOCoin.strip_none payload in
  PreparedRequest.method prepped = PyStr.upper method
  /\ (method = "GET"%string ->
      PreparedRequest.body prepped = None
      /\ (Url.plain path = true ->
          PreparedRequest.url prepped
          = (base_url auth ++ path
             ++ (if PyStr.is_empty (UrlEncode.encode_params wire) then ""
                 else "?" ++ UrlEncode.encode_params wire))%string))
  /\ (method <> "GET"%string ->
      PreparedRequest.body prepped = Some (object_text wire)
      /\ (Url.plain path = true ->
          PreparedRequest.url prepped = (base_url auth ++ path)%string)).
Proof.
  intros B wire.
  apply build_inv in B. destruct B as [B _].
  apply prepare_request_inv in B. destruct B as (Hu & Hb & Hm).
  unfold request_of, GMOCoin.body_query in Hu, Hb, Hm. fold wire in Hu, Hb.
  split; [exact Hm|]. split.
  - intros ->. simpl in Hu, Hb. split; [exact Hb|].
    intros P. rewrite (prepare_url_base auth path _ P) in Hu.
    now injection Hu as <-.
  - intros N. apply String.eqb_neq in N. rewrite N in Hu, Hb.
    cbn [fst snd Request.data Request.params Request.url] in Hu, Hb.
    rewrite dumps_object in Hb. split.
    + exact Hb.
    + intros P. rewrite (prepare_url_base auth path _ P) in Hu.
      injection Hu as <-. now rewrite append_empty.
Qed.

(** ** C5: top-level keys whose value is [None] never reach the wire *)

(** C5, as the code has it.  For every payload (a dict) that [_request]
    is given, the loop of lines 42-44 removes exactly the keys of the
    payload itself whose value is [None] and keeps the other items in
    their order.  The request is built from what is left.  For [GET],
    on a path of plain characters, the URL ends in the query string, and
    the pairs read back from the query string (cut at every [&], each
    part at its first [=]) are the pairs of the items kept: no parameter
    has the name of a key whose value was [None].  For every other
    method the body is the JSON object whose members are the items
    kept, none of them with the value [null] and none with a key whose
    value was [None].  The payload [{symbol: "BTC_JPY", page: None}]
    leaves only [symbol] on the wire.  A [None] inside a list or a dict
    that is a value of the payload is not removed. *)
Theorem null_valued_keys_removed
        env method path payload auth st prepped st1 :
  Dict.wf payload ->
  GMOCoin.build env method path payload auth st = (inr prepped, st1) ->
  let wire := GMOCoin.strip_none payload in
  wire = filter not_None payload
  /\ (forall k, Dict.get k wire <> Some VNone)
  /\ (forall k v, v <> VNone -> Dict.get k payload = Some v ->
                  Dict.get k wire = Some v)
  /\ (forall k v, Dict.get k wire = Some v -> Dict.get k payload = Some v)
  /\ (method = "GET"%string -> Url.plain path = true ->
      exists q,
        PreparedRequest.url prepped
        = (base_url auth ++ path
           ++ (if PyStr.is_empty q then "" else "?" ++ q))%string
        /\ query_pairs q = wire_pairs (filter not_None payload)
        /\ forall k,
            Dict.get k payload = Some VNone ->
            ~ In (UrlEncode.quote_plus k) (map fst (query_pairs q)))
  /\ (method <> "GET"%string ->
      PreparedRequest.body prepped
      = Some (object_text (filter not_None payload))
      /\ Forall (fun kv => Json.dumps (snd kv) <> "null"%string)
                (filter not_None payload)
      /\ forall k,
          Dict.get k payload = Some VNone ->
          ~ In k (map fst (filter not_None payload)))
  /\ query_pairs (UrlEncode.encode_params (GMOCoin.strip_none Sample.payload))
     = [("symbol"%string, "BTC_JPY"%string)]
  /\ Json.dumps (VDict (GMOCoin.strip_none Sample.payload))
     = Sample.dq "{'symbol': 'BTC_JPY'}".
Proof.
  intros W B wire.
  assert (F : wire = filter not_None payload) by now apply strip_none_filter.
  destruct (wire_of_build _ _ _ _ _ _ B) as (_ & G & J).
  fold wire in G, J. rewrite F in G, J.
  split; [exact F|]. rewrite F.
  split; [|split; [|split; [|split; [|split; [|split]]]]].
  - intros k H. apply get_filter_sound in H. discriminate H.
  - intros k v N H. apply get_filter_keep; auto. now apply not_None_true.
  - intros k v. now apply get_filter_back.
  - intros M P. destruct (G M) as [_ U]. specialize (U P).
    exists (UrlEncode.encode_params (filter not_None payload)).
    split; [exact U|]. rewrite query_pairs_encode_params.
    split; [reflexivity|].
    intros k H. apply wire_pairs_names; [exact W|].
    now apply get_some_in.
  - intros M. destruct (J M) as [Hb _]. split; [exact Hb|]. split.
    + apply Forall_forall. intros [k v] I H.
      apply filter_not_None_in in I. destruct I as [_ N].
      apply N. now apply dumps_null.
    + intros k H. apply filter_keys_none; [exact W|].
      now apply get_some_in.
  - vm_compute. reflexivity.
  - vm_compute. reflexivity.
Qed.

Lemma null_valued_keys_removed_witness :
  Dict.wf spaced_payload
  /\ exists prepped,
      PreparedRequest.url prepped
      = "https://api.coin.z.com/public/v1/trades?symbol=BTC%2FJPY+%26+co&count=10"%string
      /\ ~ In "page"%string
              (map fst (query_pairs "symbol=BTC%2FJPY+%26+co&count=10")).
Proof.
  assert (W : Dict.wf spaced_payload) by (unfold Dict.wf; simpl; nodup).
  split; [exact W|]. eexists.
  destruct (@null_valued_keys_removed
              Sample.responding "GET" "/v1/trades" spaced_payload false
              Sample.state _ _ W ltac:(vm_compute; reflexivity))
    as (_ & _ & _ & _ & G & _).
  destruct (G eq_refl eq_refl) as (q & U & Q & N).
  assert (E : q = "symbol=BTC%2FJPY+%26+co&count=10"%string).
  { vm_compute in U. injection U as U.
    destruct q as [|c q]; [discriminate U|]. simpl in U.
    apply (f_equal PyStr.tail) in U. simpl in U. now inversion U. }
  subst q. split; [exact U|]. exact (N "page"%string eq_refl).
Defined.

(** The claim as it was made does not hold of the values inside the
    payload: [closeorder] without a position id and without a size
    sends both keys with the value [null]. *)
Lemma nested_null_reaches_the_wire :
  exists prepped,
    sent_requests
      (trace (GMOCoin.world
                (snd (GMOCoin.closeorder
                        Sample.responding
                        (VStr "BTC_JPY") (VStr "BUY") (VStr "MARKET")
                        VNone VNone VNone Sample.state))))
    = [prepped]
    /\ PreparedRequest.body prepped
       = Some (Sample.dq "{'symbol': 'BTC_JPY', 'side': 'BUY', 'executionType': 'MARKET', 'settlePosition': [{'positionId': null, 'size': null}]}")
    /\ Dict.get "settlePosition"
         (GMOCoin.strip_none
            (GMOCoin.closeorder_payload
               (VStr "BTC_JPY") (VStr "BUY") (VStr "MARKET")
               VNone VNone VNone))
       = Some (VList [VDict [("positionId"%string, VNone);
                             ("size"%string, VNone)]]).
Proof.
  eexists. split; [vm_compute; reflexivity|].
  split; vm_compute; reflexivity.
Qed.

(** ** C6: query parameters for the method [GET], a JSON body otherwise *)

(** C6, as the code has it.  For every dispatch that has prepared its
    request: when the method argument is the string [GET] (line 46
    compares it as it is), the request has no body and, on a path of
    plain characters, its URL is the base URL and the path followed by
    the query string of the stripped payload, whose pairs read back are
    the pairs of the payload; for every other method argument the body
    is the JSON object of the stripped payload and, on a path of plain
    characters, the URL is the base URL and the path with nothing added,
    and holds no question mark.  The method on the wire is the method
    argument in upper case, so that the second case includes requests
    that go out as [GET]. *)
Theorem get_query_else_json_body
        env method path payload auth st prepped st1 :
  GMOCoin.build env method path payload auth st = (inr prepped, st1) ->
  let wire := GMOCoin.strip_none payload in
  (PyStr.is_ascii method = true ->
   PreparedRequest.method prepped = PyStr.upper method)
  /\ (method = "GET"%string ->
      PreparedRequest.method prepped = "GET"%string
      /\ PreparedRequest.body prepped = None
      /\ (Url.plain path = true ->
          exists q,
            q = UrlEncode.encode_params wire
            /\ PreparedRequest.url prepped
               = (base_url auth ++ path
                  ++ (if PyStr.is_empty q then "" else "?" ++ q))%string
            /\ query_pairs q = wire_pairs wire))
  /\ (method <> "GET"%string ->
      PreparedRequest.body prepped = Some (object_text wire)
      /\ (Url.plain path = true ->
          PreparedRequest.url prepped = (base_url auth ++ path)%string
          /\ PyStr.one_of (PreparedRequest.url prepped) "?" = false)).
Proof.
  intros B wire.
  destruct (wire_of_build _ _ _ _ _ _ B) as (M & G & J).
  fold wire in G, J.
  split; [intros _; exact M|]. split.
  - intros E. destruct (G E) as [Hb U].
    split; [rewrite M, E; reflexivity|]. split; [exact Hb|].
    intros P. exists (UrlEncode.encode_params wire).
    split; [reflexivity|]. split; [exact (U P)|].
    apply query_pairs_encode_params.
  - intros N. destruct (J N) as [Hb U]. split; [exact Hb|].
    intros P. rewrite (U P). split; [reflexivity|].
    now apply plain_url_no_query.
Qed.

Lemma get_query_else_json_body_witness :
  (exists prepped,
      PreparedRequest.body prepped = None
      /\ PreparedRequest.url prepped
         = "https://api.coin.z.com/public/v1/trades?symbol=BTC%2FJPY+%26+co&count=10"%string)
  /\ (exists prepped,
        PreparedRequest.body prepped
        = Some (Sample.dq "{'symbol': 'BTC_JPY', 'side': 'BUY', 'executionType': 'MARKET', 'size': '0.01'}")
        /\ PreparedRequest.url prepped
           = "https://api.coin.z.com/private/v1/order"%string).
Proof.
  split; eexists.
  - destruct (proj1 (proj2 (@get_query_else_json_body
                              Sample.responding
                              "GET" "/v1/trades" spaced_payload false
                              Sample.state _ _
                              ltac:(vm_compute; reflexivity)))
                    eq_refl) as (_ & Hb & Hu).
    destruct (Hu eq_refl) as (q & -> & U & _).
    split; [exact Hb | exact U].
  - destruct (proj2 (proj2 (@get_query_else_json_body
                              Sample.responding
                              "POST" "/v1/order" market_order true
                              Sample.state _ _
                              ltac:(vm_compute; reflexivity))))
      as (Hb & Hu); [discriminate|].
    destruct (Hu eq_refl) as (U & _).
    split; [exact Hb | exact U].
Defined.

(** The claim as it was made does not hold of the method on the wire:
    a dispatch with the method argument [get] goes out as [GET], with
    the payload in a JSON body and no query string. *)
Lemma lowercase_get_sends_a_body :
  exists prepped,
    sent_requests
      (trace (GMOCoin.world
                (snd (GMOCoin._request
                        Sample.responding "get" "/v1/ticker"
                        [("symbol"%string, VStr "BTC_JPY")] false
                        Sample.state))))
    = [prepped]
    /\ PreparedRequest.method prepped = "GET"%string
    /\ PreparedRequest.body prepped = Some (Sample.dq "{'symbol': 'BTC_JPY'}")
    /\ PreparedRequest.url prepped
       = "https://api.coin.z.com/public/v1/ticker"%string.
Proof.
  eexists. split; [vm_compute; reflexivity|].
  repeat split.
Qed.

(** ** C8: the nested payload of [closeorder] *)

(** C8.  [closeorder] passes to [_request] a payload whose field
    [settlePosition] is the list of the one object
    [{positionId: settlePosition_positionId, size: settlePosition_size}];
    the field survives the stripping whatever the other arguments are,
    and with [123] and ["0.1"] it is [[{positionId: 123, size: "0.1"}]]. *)
Theorem closeorder_settlePosition
        env symbol side executionType positionId size price :
  let payload := GMOCoin.closeorder_payload symbol side executionType
                                            positionId size price in
  let nested := VList [VDict [("positionId"%string, positionId);
                              ("size"%string, size)]] in
  GMOCoin.closeorder env symbol side executionType positionId size price
  = GMOCoin._request env "POST" "/v1/closeOrder" payload true
  /\ Dict.get "settlePosition" payload = Some nested
  /\ Dict.get "settlePosition" (GMOCoin.strip_none payload) = Some nested
  /\ Dict.get "settlePosition"
       (GMOCoin.closeorder_payload symbol side executionType
                                   (VInt 123) (VStr "0.1") price)
     = Some (VList [VDict [("positionId"%string, VInt 123);
                           ("size"%string, VStr "0.1")]]).
Proof.
  intros payload nested. repeat split.
  assert (W : Dict.wf payload) by (unfold Dict.wf; simpl; nodup).
  rewrite (strip_none_filter W).
  apply get_filter_keep; reflexivity.
Qed.

(** ** Facts about [CaseInsensitiveDict] *)

Module CID := CaseInsensitiveDict.

Lemma cid_get_setitem_eq k k' v d :
  PyStr.lower k = PyStr.lower k' ->
  CID.get k (CID.setitem k' v d) = Some v.
Proof.
  unfold CID.get, CID.setitem. intros ->. now rewrite get_set_eq.
Qed.

Lemma cid_get_setitem_neq k k' v d :
  PyStr.lower k <> PyStr.lower k' ->
  CID.get k (CID.setitem k' v d) = CID.get k d.
Proof.
  unfold CID.get, CID.setitem. intros N. rewrite get_set_neq; auto.
Qed.

Lemma cid_fold_get l : forall acc k,
  CID.get k (fold_left (fun d kv => CID.setitem (fst kv) (snd kv) d) l acc)
  = match ci_last (PyStr.lower k) l with
    | Some v => Some v
    | None => CID.get k acc
    end.
Proof.
  induction l as [|[k' v] r IH]; intros acc k; simpl; [reflexivity|].
  rewrite IH. destruct (ci_last (PyStr.lower k) r); [reflexivity|].
  destruct (String.eqb_spec (PyStr.lower k) (PyStr.lower k')) as [E|N].
  - now apply cid_get_setitem_eq.
  - now apply cid_get_setitem_neq.
Qed.

Lemma cid_from_items_get l k :
  CID.get k (CID.from_items l) = ci_last (PyStr.lower k) l.
Proof.
  unfold CID.from_items. rewrite cid_fold_get.
  now destruct (ci_last (PyStr.lower k) l).
Qed.

Lemma ci_last_set_other lk k0 v0 (d : Dict.t string) :
  PyStr.lower k0 <> lk ->
  ci_last lk (Dict.set k0 v0 d) = ci_last lk d.
Proof.
  intros N. induction d as [|[k v] r IH]; simpl.
  - destruct (String.eqb_spec lk (PyStr.lower k0)); congruence.
  - destruct (String.eqb_spec k0 k) as [->|]; simpl.
    + destruct (ci_last lk r); [reflexivity|].
      destruct (String.eqb_spec lk (PyStr.lower k)); congruence.
    + now rewrite IH.
Qed.

Lemma ci_count_zero lk l : ci_count lk l = O -> ci_last lk l = None.
Proof.
  induction l as [|[k v] r IH]; simpl; [reflexivity|].
  destruct (String.eqb lk (PyStr.lower k)); [discriminate|].
  simpl. intros H. now rewrite IH.
Qed.

Lemma ci_count_set_other lk k0 v0 (d : Dict.t string) :
  PyStr.lower k0 <> lk ->
  ci_count lk (Dict.set k0 v0 d) = ci_count lk d.
Proof.
  intros N. induction d as [|[k v] r IH]; simpl.
  - destruct (String.eqb_spec lk (PyStr.lower k0)); [congruence|reflexivity].
  - destruct (String.eqb_spec k0 k) as [->|]; simpl; [reflexivity|].
    now rewrite IH.
Qed.

Lemma ci_last_set_same k0 v0 (d : Dict.t string) :
  (ci_count (PyStr.lower k0) d <= 1)%nat ->
  ci_last (PyStr.lower k0) (Dict.set k0 v0 d) = Some v0.
Proof.
  induction d as [|[k v] r IH]; simpl.
  - now rewrite String.eqb_refl.
  - destruct (String.eqb_spec k0 k) as [->|N]; simpl.
    + rewrite String.eqb_refl. intros H.
      rewrite ci_count_zero by lia. reflexivity.
    + intros H. rewrite IH; [reflexivity|].
      destruct (String.eqb (PyStr.lower k0) (PyStr.lower k)); lia.
Qed.

Lemma ci_count_notin lk l :
  ~ In lk (map (fun kv => PyStr.lower (fst kv)) l) -> ci_count lk l = O.
Proof.
  induction l as [|[k v] r IH]; simpl; [reflexivity|].
  intros N. destruct (String.eqb_spec lk (PyStr.lower k)) as [E|_].
  - exfalso. apply N. now left.
  - apply IH. tauto.
Qed.

Lemma ci_count_nodup lk l :
  NoDup (map (fun kv => PyStr.lower (fst kv)) l) -> (ci_count lk l <= 1)%nat.
Proof.
  induction l as [|[k v] r IH]; simpl; [lia|].
  intros H. inversion H as [|? ? Hn Hr]; subst.
  destruct (String.eqb_spec lk (PyStr.lower k)) as [->|].
  - rewrite ci_count_notin by exact Hn. lia.
  - simpl. auto.
Qed.

(** The items of a well-formed store: their lowered keys are its keys. *)
Lemma wf_items_keys (d : CID.t) :
  CID.wf d ->
  map (fun kv => PyStr.lower (fst kv)) (CID.items d) = Dict.keys d.
Proof.
  intros [_ F]. unfold CID.items, Dict.keys. rewrite map_map.
  induction d as [|[sk [ck v]] r IH]; simpl; [reflexivity|].
  inversion F as [|? ? Hh Hr]. simpl in Hh. subst.
  f_equal. auto.
Qed.

Lemma wf_items_get (d : CID.t) k :
  CID.wf d -> ci_last (PyStr.lower k) (CID.items d) = CID.get k d.
Proof.
  unfold CID.get. generalize (PyStr.lower k) as lk. intros lk [N F].
  induction d as [|[sk [ck v]] r IH]; simpl; [reflexivity|].
  inversion F as [|? ? Hh Hr]. simpl in Hh.
  inversion N as [|? ? Hn Hd]. subst.
  rewrite (IH Hd Hr).
  destruct (String.eqb_spec lk (PyStr.lower ck)) as [->|]; simpl.
  - destruct (Dict.get (PyStr.lower ck) r) as [p|] eqn:G; [|reflexivity].
    exfalso. apply Hn. apply get_some_in in G.
    change (PyStr.lower ck) with (fst (PyStr.lower ck, p)).
    now apply in_map.
  - now destruct (Dict.get lk r).
Qed.

Lemma set_fresh (V : Type) k (v : V) (d : Dict.t V) :
  ~ In k (Dict.keys d) -> Dict.set k v d = d ++ [(k, v)].
Proof.
  induction d as [|[k' v'] r IH]; simpl; [reflexivity|].
  intros N. destruct (String.eqb_spec k k') as [->|]; [tauto|].
  rewrite IH; tauto.
Qed.

Lemma from_items_fold (V : Type) (l : list (string * V)) : forall acc,
  NoDup (Dict.keys (acc ++ l)) ->
  fold_left (fun d kv => Dict.set (fst kv) (snd kv) d) l acc = acc ++ l.
Proof.
  induction l as [|[k v] r IH]; intros acc N; simpl.
  - now rewrite app_nil_r.
  - rewrite set_fresh.
    + rewrite IH; rewrite <- app_assoc; [reflexivity | exact N].
    + unfold Dict.keys in N. rewrite map_app in N.
      apply NoDup_remove_2 in N. intros H. apply N.
      apply in_or_app. now left.
Qed.

(** [dict(d)] of a [dict] is a copy. *)
Lemma from_items_id (V : Type) (l : list (string * V)) :
  NoDup (Dict.keys l) -> Dict.from_items l = l.
Proof.
  intros N. unfold Dict.from_items. now rewrite from_items_fold.
Qed.

Lemma lower_keys_nodup (l : list (string * string)) :
  NoDup (map (fun kv => PyStr.lower (fst kv)) l) -> NoDup (Dict.keys l).
Proof.
  unfold Dict.keys. rewrite <- (map_map fst PyStr.lower).
  apply NoDup_map_inv.
Qed.

(** ** The digest in hexadecimal *)









(** ** The signer *)

Lemma encode_inr s b : encode s = inr b -> PyStr.encode_ascii s = Some b.
Proof.
  unfold encode. destruct (PyStr.encode_ascii s); congruence.
Qed.

(** What [__call__] computes, step by step. *)
Lemma call_inv self now r r' :
  CID.wf (PreparedRequest.headers r) ->
  GMOCoinAuth.__call__ self now r = inr r' ->
  exists pu o key msg,
    PreparedRequest.path_url r = inr pu
    /\ Url.urlparse_path pu = inr o
    /\ PyStr.encode_ascii (GMOCoinAuth.secret self) = Some key
    /\ PyStr.encode_ascii
         (GMOCoinAuth.text_of (GMOCoinAuth.timestamp_of now) r o) = Some msg
    /\ PreparedRequest.headers r'
       = CID.from_items
           (Dict.set "API-SIGN" (hexdigest key msg)
              (Dict.set "API-TIMESTAMP" (GMOCoinAuth.timestamp_of now)
                 (Dict.set "API-KEY" (GMOCoinAuth.api_key self)
                    (CID.items (PreparedRequest.headers r))))).
Proof.
  intros W H. unfold GMOCoinAuth.__call__ in H. exc_inv H.
  apply prepare_headers_keeps in H. destruct H as (_ & _ & _ & H).
  rewrite from_items_id in H.
  - repeat match goal with
           | X : encode _ = inr _ |- _ => apply encode_inr in X
           end.
    eauto 10.
  - apply lower_keys_nodup. rewrite wf_items_keys by exact W. apply W.
Qed.

Lemma signed_headers_get (d : CID.t) key ts sign k :
  CID.wf d ->
  CID.get k (CID.from_items
               (Dict.set "API-SIGN" sign
                  (Dict.set "API-TIMESTAMP" ts
                     (Dict.set "API-KEY" key (CID.items d)))))
  = if String.eqb (PyStr.lower k) "api-sign" then Some sign
    else if String.eqb (PyStr.lower k) "api-timestamp" then Some ts
    else if String.eqb (PyStr.lower k) "api-key" then Some key
    else CID.get k d.
Proof.
  intros W. rewrite cid_from_items_get.
  assert (C : forall lk, (ci_count lk (CID.items d) <= 1)%nat).
  { intros lk. apply ci_count_nodup. rewrite wf_items_keys by exact W.
    apply W. }
  destruct (String.eqb_spec (PyStr.lower k) "api-sign") as [->|N1].
  { apply (ci_last_set_same "API-SIGN").
    rewrite !ci_count_set_other by (vm_compute; discriminate). apply C. }
  rewrite ci_last_set_other by (intro E; apply N1; now rewrite <- E).
  destruct (String.eqb_spec (PyStr.lower k) "api-timestamp") as [->|N2].
  { apply (ci_last_set_same "API-TIMESTAMP").
    rewrite !ci_count_set_other by (vm_compute; discriminate). apply C. }
  rewrite ci_last_set_other by (intro E; apply N2; now rewrite <- E).
  destruct (String.eqb_spec (PyStr.lower k) "api-key") as [->|N3].
  { apply (ci_last_set_same "API-KEY"). apply C. }
  rewrite ci_last_set_other by (intro E; apply N3; now rewrite <- E).
  now apply wf_items_get.
Qed.

(** ** C1: what the signature covers *)



(** ** C2: the canonical path *)

Lemma strip_prefix_app p rest : PyStr.strip_prefix p (p ++ rest) = Some rest.
Proof.
  induction p as [|c p IH]; simpl; [reflexivity|].
  now rewrite Ascii.eqb_refl.
Qed.

Lemma strip_prefix_some p : forall s rest,
  PyStr.strip_prefix p s = Some rest -> s = (p ++ rest)%string.
Proof.
  induction p as [|c p IH]; intros s rest; simpl.
  - congruence.
  - destruct s as [|b s]; [discriminate|].
    destruct (Ascii.eqb_spec c b) as [->|]; [|discriminate].
    intros H. now rewrite (IH _ _ H).
Qed.

Lemma strip_prefix_none p s :
  PyStr.strip_prefix p s = None -> forall rest, s <> (p ++ rest)%string.
Proof.
  intros H rest ->. rewrite strip_prefix_app in H. discriminate.
Qed.

(** C2, as the code has it.  The canonical path is the path without a
    leading [/public] or [/private], whatever follows these characters;
    [/private/v1/order] gives [/v1/order], and a path that begins with
    neither, such as [/v1/order], is left as it is.  It is the path with
    the leading segment removed unless the path begins with [/public]
    or [/private] and goes on within the same segment. *)
Theorem canonical_path_strips_prefix :
  (forall rest, GMOCoinAuth.canonical_path ("/public" ++ rest) = rest)
  /\ (forall rest, GMOCoinAuth.canonical_path ("/private" ++ rest) = rest)
  /\ (forall o,
        (forall rest, o <> ("/public" ++ rest)%string) ->
        (forall rest, o <> ("/private" ++ rest)%string) ->
        GMOCoinAuth.canonical_path o = o)
  /\ GMOCoinAuth.canonical_path "/private/v1/order" = "/v1/order"%string
  /\ GMOCoinAuth.canonical_path "/v1/order" = "/v1/order"%string
  /\ (forall o,
        GMOCoinAuth.canonical_path o = strip_family_segment o
        \/ exists c rest,
            c <> "/"%char
            /\ (o = ("/public" ++ String c rest)%string
                \/ o = ("/private" ++ String c rest)%string)).
Proof.
  repeat split.
  - intros o Hpub Hpriv. unfold GMOCoinAuth.canonical_path.
    destruct (PyStr.strip_prefix "/public" o) as [x|] eqn:E1.
    { apply strip_prefix_some in E1. now apply Hpub in E1. }
    destruct (PyStr.strip_prefix "/private" o) as [x|] eqn:E2.
    { apply strip_prefix_some in E2. now apply Hpriv in E2. }
    reflexivity.
  - intros o. unfold GMOCoinAuth.canonical_path, strip_family_segment.
    destruct (PyStr.strip_prefix "/public" o) as [x|] eqn:E1.
    { apply strip_prefix_some in E1. destruct x as [|c x]; [now left|].
      simpl. destruct (Ascii.eqb_spec c "/"); [now left|].
      right. exists c, x. auto. }
    destruct (PyStr.strip_prefix "/private" o) as [x|] eqn:E2.
    { apply strip_prefix_some in E2. destruct x as [|c x]; [now left|].
      simpl. destruct (Ascii.eqb_spec c "/"); [now left|].
      right. exists c, x. auto. }
    now left.
Qed.

(** The path [/publicity/v1] has no leading segment [/public], yet the
    signer does not leave it as it is. *)
Lemma canonical_path_cuts_inside_segment :
  strip_family_segment "/publicity/v1" = "/publicity/v1"%string
  /\ GMOCoinAuth.canonical_path "/publicity/v1" = "ity/v1"%string
  /\ GMOCoinAuth.canonical_path "/publicity/v1"
     <> strip_family_segment "/publicity/v1".
Proof.
  repeat split. discriminate.
Qed.

(** ** C7: the headers of a signed request *)

(** C7, as the code has it.  Signing sets the three headers [API-KEY],
    [API-TIMESTAMP] and [API-SIGN]; every other header name, compared
    without regard to case, has afterwards the value it had before, or
    none if it had none; method, URL and body are unchanged. *)
Theorem signing_sets_three_headers self now r r' :
  CID.wf (PreparedRequest.headers r) ->
  GMOCoinAuth.__call__ self now r = inr r' ->
  CID.get "API-KEY" (PreparedRequest.headers r')
  = Some (GMOCoinAuth.api_key self)
  /\ CID.get "API-TIMESTAMP" (PreparedRequest.headers r')
     = Some (GMOCoinAuth.timestamp_of now)
  /\ (exists sign,
        CID.get "API-SIGN" (PreparedRequest.headers r') = Some sign)
  /\ (forall k,
        auth_header (PyStr.lower k) = false ->
        CID.get k (PreparedRequest.headers r')
        = CID.get k (PreparedRequest.headers r))
  /\ PreparedRequest.method r' = PreparedRequest.method r
  /\ PreparedRequest.url r' = PreparedRequest.url r
  /\ PreparedRequest.body r' = PreparedRequest.body r.
Proof.
  intros W H.
  destruct (call_inv self now r W H) as (pu & o & key & msg & _ & _ & _ & _ & Hh).
  apply call_keeps in H. rewrite Hh, !signed_headers_get by exact W.
  repeat split; try tauto.
  - eexists. reflexivity.
  - intros k A. rewrite signed_headers_get by exact W.
    unfold auth_header in A. apply orb_false_elim in A. destruct A as [A A3].
    apply orb_false_elim in A. destruct A as [A1 A2].
    now rewrite A1, A2, A3.
Qed.

Lemma signing_sets_three_headers_witness :
  CID.wf (PreparedRequest.headers Sample.request_with_key)
  /\ exists r',
      GMOCoinAuth.__call__ Sample.signer 1700000000
                           Sample.request_with_key = inr r'
      /\ CID.get "content-type" (PreparedRequest.headers r')
         = Some "application/json"%string.
Proof.
  assert (W : CID.wf (PreparedRequest.headers Sample.request_with_key)).
  { split; [simpl; nodup | repeat constructor]. }
  split; [exact W|].
  eexists. split; [vm_compute; reflexivity|].
  match goal with
  | |- CID.get _ (PreparedRequest.headers ?x) = _ =>
      rewrite (proj1 (proj2 (proj2 (proj2
                 (@signing_sets_three_headers Sample.signer 1700000000
                    Sample.request_with_key x W eq_refl))))
                 "content-type"%string eq_refl)
  end.
  reflexivity.
Defined.

(** A request that has a header [API-KEY] before it is signed does not
    keep the value of that header. *)
Lemma signing_overwrites_api_key :
  exists r',
    CID.wf (PreparedRequest.headers Sample.request_with_key)
    /\ GMOCoinAuth.__call__ Sample.signer 1700000000
                            Sample.request_with_key = inr r'
    /\ CID.get "API-KEY" (PreparedRequest.headers Sample.request_with_key)
       = Some "OLD"%string
    /\ CID.get "API-KEY" (PreparedRequest.headers r') = Some "KEY"%string
    /\ CID.get "API-KEY" (PreparedRequest.headers r')
       <> CID.get "API-KEY" (PreparedRequest.headers Sample.request_with_key).
Proof.
  eexists. split; [split; [simpl; nodup | repeat constructor]|].
  split; [vm_compute; reflexivity|].
  repeat split. discriminate.
Qed.

(** ** The exchange (lines 64-82) *)

Lemma raise_for_status_http resp e :
  Response.raise_for_status resp = Some e -> is_HTTPError e = true.
Proof.
  unfold Response.raise_for_status.
  repeat match goal with
         | |- context [if ?b then _ else _] => destruct b
         end; intros H; inversion H; reflexivity.
Qed.

Ltac run_m :=
  cbv [GMOCoin._request GMOCoin.exchange GMOCoin.throttle
       GMOCoin.send_logged GMOCoin.stamp GMOCoin.send GMOCoin.time_sleep
       GMOCoin.try_except GMOCoin.bind GMOCoin.ret GMOCoin.raise
       GMOCoin.get_self GMOCoin.put_self GMOCoin.set_last_req_time
       GMOCoin.elapse GMOCoin.time_time GMOCoin.emit
       GMOCoin.logger_debug GMOCoin.logger_error
       GMOCoin.self GMOCoin.world GMOCoin.s GMOCoin.gmo_auth
       GMOCoin.late_limit GMOCoin.last_req_time clock trace
       check_time must_wait wait_time send_start send_finish wire_events
       fst snd andb outcome t_check t_oversleep t_enter t_send t_stamp].

(** The run of [exchange], whatever the rate limit and the outcome. *)
Lemma exchange_run env prepped st :
  let r := GMOCoin.exchange env prepped st in
  exists logs,
    trace (GMOCoin.world (snd r))
    = trace (GMOCoin.world st) ++ wire_events env prepped st ++ logs
    /\ Forall is_log logs
    /\ GMOCoin.s (GMOCoin.self (snd r)) = GMOCoin.s (GMOCoin.self st)
    /\ GMOCoin.late_limit (GMOCoin.self (snd r))
       = GMOCoin.late_limit (GMOCoin.self st)
    /\ match outcome env with
       | Responds resp =>
           fst r = inr resp
           /\ (GMOCoin.late_limit (GMOCoin.self st) = true ->
               GMOCoin.last_req_time (GMOCoin.self (snd r))
               = send_finish env st + t_stamp env)
           /\ (forall e, Response.raise_for_status resp = Some e ->
                         In (Logged ERROR (exc_str e)) logs)
       | Raises e =>
           if is_HTTPError e
           then exists m, fst r = inl (AttributeError m)
           else fst r = inl e
                /\ GMOCoin.last_req_time (GMOCoin.self (snd r))
                   = GMOCoin.last_req_time (GMOCoin.self st)
       end.
Proof.
  destruct st as [[s ga ll lrt] [ck tr]].
  destruct env as [tb tc to te ts tst out].
  destruct ll; run_m;
    try destruct (Qltb (ck + tc) (lrt + 1));
    (destruct out as [resp|e];
     [ destruct (Response.raise_for_status resp) as [e|] eqn:R;
       [ rewrite (raise_for_status_http _ R) |]
     | destruct (is_HTTPError e) eqn:H ]);
    eexists; simpl; rewrite <- ?app_assoc; simpl;
    repeat split;
    try reflexivity; try discriminate; try (repeat constructor; fail);
    try (intros e' E; injection E as <-; now left);
    eauto.
Qed.

Lemma request_after_build env method path payload auth st prepped st1 :
  GMOCoin.build env method path payload auth st = (inr prepped, st1) ->
  GMOCoin._request env method path payload auth st
  = GMOCoin.exchange env prepped st1.
Proof.
  intros B. unfold GMOCoin._request, GMOCoin.bind. now rewrite B.
Qed.

Lemma request_build_fails env method path payload auth st e st1 :
  GMOCoin.build env method path payload auth st = (inl e, st1) ->
  GMOCoin._request env method path payload auth st = (inl e, st1).
Proof.
  intros B. unfold GMOCoin._request, GMOCoin.bind. now rewrite B.
Qed.

Lemma sent_requests_app a b :
  sent_requests (a ++ b) = sent_requests a ++ sent_requests b.
Proof.
  induction a as [|[| |] a IH]; simpl; auto. now rewrite IH.
Qed.

Lemma sent_requests_logs logs : Forall is_log logs -> sent_requests logs = [].
Proof.
  induction 1 as [|[| |] r H _ IH]; simpl in *; auto; contradiction.
Qed.

Lemma sent_requests_wire env prepped st :
  sent_requests (wire_events env prepped st) = [prepped].
Proof.
  unfold wire_events. now destruct (must_wait env st).
Qed.

Lemma error_status_raises resp :
  (400 <= Response.status_code resp < 600)%Z ->
  exists e, Response.raise_for_status resp = Some e.
Proof.
  intros H. unfold Response.raise_for_status.
  destruct (Z.leb_spec 400 (Response.status_code resp)); [|lia].
  destruct (Z.ltb_spec (Response.status_code resp) 500); simpl; [eauto|].
  destruct (Z.leb_spec 500 (Response.status_code resp)); [|lia].
  destruct (Z.ltb_spec (Response.status_code resp) 600); simpl; [eauto|lia].
Qed.

(** ** C4: the response is returned whatever its status *)

(** C4.  For every dispatch that has prepared its request and whose send
    yields a response, [_request] returns that very response, status and
    body as they came, also when the status is 4xx or 5xx:
    [raise_for_status] then raises, and the error is logged and not
    raised again. *)
Theorem response_returned_whatever_status
        env method path payload auth st prepped st1 resp :
  GMOCoin.build env method path payload auth st = (inr prepped, st1) ->
  outcome env = Responds resp ->
  let r := GMOCoin._request env method path payload auth st in
  fst r = inr resp
  /\ In prepped (sent_requests (trace (GMOCoin.world (snd r))))
  /\ ((400 <= Response.status_code resp < 600)%Z ->
      exists e, Response.raise_for_status resp = Some e
                /\ is_HTTPError e = true
                /\ In (Logged ERROR (exc_str e))
                      (trace (GMOCoin.world (snd r)))).
Proof.
  intros B O r. unfold r. rewrite (request_after_build _ _ _ _ _ _ B).
  destruct (exchange_run env prepped st1) as (logs & T & L & _ & _ & X).
  rewrite O in X. destruct X as (R & _ & E).
  split; [exact R|]. rewrite T. split.
  - rewrite !sent_requests_app, sent_requests_wire.
    apply in_or_app. right. now left.
  - intros S. destruct (error_status_raises resp S) as [e He].
    exists e. split; [exact He|]. split.
    + exact (raise_for_status_http _ He).
    + apply in_or_app. right. apply in_or_app. right. now apply E.
Qed.

Lemma response_returned_whatever_status_witness :
  fst (GMOCoin.order Sample.responding
                     (VStr "BTC_JPY") (VStr "BUY") (VStr "LIMIT")
                     (VStr "0.01") (VInt 5000000) Sample.state)
  = inr Sample.bad_request.
Proof.
  refine (proj1 (@response_returned_whatever_status
                   Sample.responding
                   "POST" "/v1/order" _ true Sample.state _ _
                   Sample.bad_request _ eq_refl)).
  vm_compute. reflexivity.
Defined.

(** ** C9: a failed send leaves the rate state alone *)

(** C9.  For every dispatch that has prepared its request and whose send
    raises an exception that is not an [HTTPError], [_request] raises
    that exception and [last_req_time] is what it was before the
    dispatch, with the rate limit on or off. *)
Theorem transport_error_propagates
        env method path payload auth st prepped st1 e :
  GMOCoin.build env method path payload auth st = (inr prepped, st1) ->
  outcome env = Raises e ->
  is_HTTPError e = false ->
  let r := GMOCoin._request env method path payload auth st in
  fst r = inl e
  /\ GMOCoin.last_req_time (GMOCoin.self (snd r))
     = GMOCoin.last_req_time (GMOCoin.self st)
  /\ In prepped (sent_requests (trace (GMOCoin.world (snd r)))).
Proof.
  intros B O H r. unfold r. rewrite (request_after_build _ _ _ _ _ _ B).
  destruct (exchange_run env prepped st1) as (logs & T & L & _ & _ & X).
  rewrite O, H in X. destruct X as (R & S).
  apply build_inv in B. destruct B as [_ ->]. simpl in S.
  repeat split; auto.
  rewrite T, !sent_requests_app, sent_requests_wire.
  apply in_or_app. right. now left.
Qed.

Lemma transport_error_propagates_witness :
  fst (GMOCoin.ticker Sample.failing (VStr "BTC_JPY") Sample.state)
  = inl Sample.refused
  /\ GMOCoin.last_req_time
       (GMOCoin.self
          (snd (GMOCoin.ticker Sample.failing (VStr "BTC_JPY") Sample.state)))
     = 0.
Proof.
  destruct (@transport_error_propagates
              Sample.failing "GET" "/v1/ticker"
              [("symbol"%string, VStr "BTC_JPY")] false Sample.state
              _ _ Sample.refused
              ltac:(vm_compute; reflexivity) eq_refl eq_refl)
    as (R & L & _).
  split; [exact R | exact L].
Defined.

(** ** C3: the rate limit *)

Lemma Qltb_true x y : Qltb x y = true -> x < y.
Proof.
  unfold Qltb. intros H. apply negb_true_iff in H.
  apply Qnot_le_lt. intros L. apply Qle_bool_iff in L. congruence.
Qed.

Lemma Qltb_false x y : Qltb x y = false -> y <= x.
Proof.
  unfold Qltb. intros H. apply negb_false_iff in H.
  now apply Qle_bool_iff.
Qed.

Lemma Qltb_lt x y : x < y -> Qltb x y = true.
Proof.
  intros H. destruct (Qltb x y) eqn:E; [reflexivity|].
  apply Qltb_false in E. lra.
Qed.

Lemma last_send_app a b :
  last_send (a ++ b)
  = match last_send b with
    | Some x => Some x
    | None => last_send a
    end.
Proof.
  induction a as [|e a IH]; simpl.
  - now destruct (last_send b).
  - rewrite IH. now destruct (last_send b).
Qed.

Lemma last_send_logs logs : Forall is_log logs -> last_send logs = None.
Proof.
  induction 1 as [|[| |] r H _ IH]; simpl in *; try contradiction; auto.
  now rewrite IH.
Qed.

Lemma last_send_wire env prepped st :
  last_send (wire_events env prepped st)
  = Some (send_start env st, send_finish env st).
Proof.
  unfold wire_events. now destruct (must_wait env st).
Qed.

(** When the rate limit is on, [send] is not called before one second
    has passed since [last_req_time]. *)
Lemma send_start_spaced env st :
  Env_ok env ->
  GMOCoin.late_limit (GMOCoin.self st) = true ->
  GMOCoin.last_req_time (GMOCoin.self st) + 1 <= send_start env st.
Proof.
  intros (_ & _ & Ho & He & _ & _) L.
  unfold send_start, must_wait, wait_time. rewrite L. simpl.
  destruct (Qltb _ _) eqn:E.
  - lra.
  - apply Qltb_false in E. lra.
Qed.

(** What a dispatch that returns a response has done. *)
Lemma request_responds env method path payload auth st resp st2 :
  GMOCoin._request env method path payload auth st = (inr resp, st2) ->
  exists prepped st1 logs,
    GMOCoin.build env method path payload auth st = (inr prepped, st1)
    /\ trace (GMOCoin.world st2)
       = trace (GMOCoin.world st1) ++ wire_events env prepped st1 ++ logs
    /\ Forall is_log logs
    /\ GMOCoin.late_limit (GMOCoin.self st2)
       = GMOCoin.late_limit (GMOCoin.self st)
    /\ (GMOCoin.late_limit (GMOCoin.self st) = true ->
        GMOCoin.last_req_time (GMOCoin.self st2)
        = send_finish env st1 + t_stamp env).
Proof.
  intros R.
  destruct (GMOCoin.build env method path payload auth st)
    as [[e|prepped] st1] eqn:B.
  { rewrite (request_build_fails _ _ _ _ _ _ B) in R. discriminate. }
  rewrite (request_after_build _ _ _ _ _ _ B) in R.
  destruct (exchange_run env prepped st1) as (logs & T & L & _ & K & X).
  rewrite R in T, K, X. simpl in T, K, X.
  exists prepped, st1, logs.
  pose proof (build_inv _ _ _ _ _ _ B) as [_ S].
  assert (LL : GMOCoin.late_limit (GMOCoin.self st1)
               = GMOCoin.late_limit (GMOCoin.self st)) by now rewrite S.
  repeat split; auto; try congruence.
  intros H. destruct (outcome env) as [resp'|e].
  - destruct X as (_ & X & _). apply X. congruence.
  - destruct (is_HTTPError e); [destruct X as [m X] | destruct X as [X _]];
      discriminate.
Qed.

(** C3.  With the rate limit on, take a dispatch that returned a
    response and the next dispatch on the same client.  The first left
    in [last_req_time] a clock reading taken after its send had
    finished.  The second, when less than a second has passed since
    then, sleeps for what is missing before it sends; its send starts at
    least one second after [last_req_time], so the two sends finish at
    least one second apart; and if it gets a response, [last_req_time]
    becomes a reading taken after that send has finished. *)
Theorem rate_limit_spacing
        env1 method1 path1 payload1 auth1
        env2 method2 path2 payload2 auth2
        st resp1 st1 prepped2 st1b :
  Env_ok env1 -> Env_ok env2 ->
  GMOCoin.late_limit (GMOCoin.self st) = true ->
  GMOCoin._request env1 method1 path1 payload1 auth1 st = (inr resp1, st1) ->
  GMOCoin.build env2 method2 path2 payload2 auth2 st1 = (inr prepped2, st1b) ->
  let st2 := snd (GMOCoin._request env2 method2 path2 payload2 auth2 st1) in
  let last := GMOCoin.last_req_time (GMOCoin.self st1) in
  let now := check_time env2 st1b in
  exists start1 finish1 logs,
    last_send (trace (GMOCoin.world st1)) = Some (start1, finish1)
    /\ finish1 <= last
    /\ trace (GMOCoin.world st2)
       = trace (GMOCoin.world st1b) ++ wire_events env2 prepped2 st1b ++ logs
    /\ Forall is_log logs
    /\ (now - last < 1 ->
        wire_events env2 prepped2 st1b
        = [Slept now (last + 1 - now);
           Sent (send_start env2 st1b) (send_finish env2 st1b) prepped2])
    /\ last + 1 <= send_start env2 st1b
    /\ send_start env2 st1b <= send_finish env2 st1b
    /\ finish1 + 1 <= send_finish env2 st1b
    /\ (forall resp2,
          outcome env2 = Responds resp2 ->
          GMOCoin.last_req_time (GMOCoin.self st2)
          = send_finish env2 st1b + t_stamp env2
          /\ send_finish env2 st1b
             <= GMOCoin.last_req_time (GMOCoin.self st2)
          /\ last + 1 <= GMOCoin.last_req_time (GMOCoin.self st2)).
Proof.
  intros E1 E2 L R1 B2 st2 last now.
  destruct (request_responds _ _ _ _ _ _ R1)
    as (prepped1 & st0b & logs1 & B1 & T1 & F1 & L1 & S1).
  specialize (S1 L). rewrite L in L1.
  pose proof (build_inv _ _ _ _ _ _ B2) as [_ S].
  assert (LL : GMOCoin.late_limit (GMOCoin.self st1b) = true)
    by (rewrite S; exact L1).
  assert (LR : GMOCoin.last_req_time (GMOCoin.self st1b) = last)
    by (rewrite S; reflexivity).
  pose proof (@send_start_spaced env2 st1b E2 LL) as SP. rewrite LR in SP.
  destruct (exchange_run env2 prepped2 st1b) as (logs & T & F & _ & _ & X).
  rewrite <- (request_after_build _ _ _ _ _ _ B2) in T, X. fold st2 in T, X.
  exists (send_start env1 st0b), (send_finish env1 st0b), logs.
  assert (FL : send_finish env1 st0b <= last).
  { unfold last. rewrite S1. destruct E1 as (_ & _ & _ & _ & _ & ?). lra. }
  assert (SF : send_start env2 st1b <= send_finish env2 st1b).
  { unfold send_finish. destruct E2 as (_ & _ & _ & _ & ? & _). lra. }
  split.
  { rewrite T1, !last_send_app, (last_send_logs F1), last_send_wire.
    reflexivity. }
  split; [exact FL|]. split; [exact T|]. split; [exact F|]. split.
  { intros W. unfold wire_events, must_wait, wait_time.
    rewrite LL, LR. fold now. simpl. rewrite Qltb_lt by lra. reflexivity. }
  split; [exact SP|]. split; [exact SF|]. split; [lra|].
  intros resp2 O. rewrite O in X. destruct X as (_ & X & _).
  specialize (X LL). rewrite X.
  split; [reflexivity|].
  destruct E2 as (_ & _ & _ & _ & _ & ?). split; lra.
Qed.

Lemma Sample_env_ok o : Env_ok (Sample.env o).
Proof.
  unfold Env_ok. simpl. repeat split; discriminate.
Defined.

Lemma rate_limit_spacing_witness :
  exists st1 prepped2 st1b,
    GMOCoin.ticker Sample.responding (VStr "BTC_JPY") Sample.state
    = (inr Sample.bad_request, st1)
    /\ GMOCoin.build Sample.responding "GET" "/v1/account/assets" [] true st1
       = (inr prepped2, st1b)
    /\ GMOCoin.last_req_time (GMOCoin.self st1) + 1
       <= send_start Sample.responding st1b.
Proof.
  eexists _, _, _.
  split; [vm_compute; reflexivity|].
  split; [vm_compute; reflexivity|].
  match goal with
  | |- GMOCoin.last_req_time (GMOCoin.self ?a) + 1 <= send_start _ ?b =>
      destruct (@rate_limit_spacing
                  Sample.responding "GET" "/v1/ticker"
                  [("symbol"%string, VStr "BTC_JPY")] false
                  Sample.responding "GET" "/v1/account/assets" [] true
                  Sample.state Sample.bad_request a _ b
                  (Sample_env_ok _) (Sample_env_ok _) eq_refl
                  ltac:(vm_compute; reflexivity)
                  ltac:(vm_compute; reflexivity))
        as (s1 & f1 & logs & _ & _ & _ & _ & _ & H & _)
  end.
  exact H.
Defined.

(** ** C10: a public request carries no authentication header *)

Lemma set_keys (V : Type) k (v : V) (d : Dict.t V) :
  Dict.keys (Dict.set k v d)
  = match Dict.get k d with
    | Some _ => Dict.keys d
    | None => Dict.keys d ++ [k]
    end.
Proof.
  induction d as [|[k' v'] r IH]; simpl; [reflexivity|].
  destruct (String.eqb_spec k k') as [->|]; simpl; [reflexivity|].
  rewrite IH. now destruct (Dict.get k r).
Qed.

Lemma set_forall (V : Type) (P : string * V -> Prop) k v (d : Dict.t V) :
  (forall k' v', P (k', v') -> k = k' -> P (k', v)) ->
  P (k, v) -> Forall P d -> Forall P (Dict.set k v d).
Proof.
  intros R N F. induction F as [|[k' v'] r H F IH]; simpl.
  - now repeat constructor.
  - destruct (String.eqb_spec k k') as [E|]; constructor; auto.
    exact (R k' v' H E).
Qed.

Lemma cid_setitem_wf k v d : CID.wf d -> CID.wf (CID.setitem k v d).
Proof.
  intros [N F]. unfold CID.setitem. split.
  - rewrite set_keys.
    destruct (Dict.get (PyStr.lower k) d) eqn:G; [exact N|].
    apply get_none_keys in G.
    apply NoDup_app.
    + exact N.
    + constructor; [simpl; tauto | constructor].
    + intros x Hx [<-|[]]; contradiction.
  - apply set_forall; auto.
Qed.

Lemma cid_from_items_wf l : CID.wf (CID.from_items l).
Proof.
  unfold CID.from_items.
  assert (G : forall acc, CID.wf acc ->
            CID.wf (fold_left (fun d kv => CID.setitem (fst kv) (snd kv) d)
                              l acc)).
  { induction l as [|[k v] r IH]; intros acc W; simpl; [exact W|].
    apply IH. now apply cid_setitem_wf. }
  apply G. split; constructor.
Qed.

(** A store filled from the items of a store reads the same. *)
Lemma cid_copy_get d k :
  CID.wf d -> CID.get k (CID.from_items (CID.items d)) = CID.get k d.
Proof.
  intros W. rewrite cid_from_items_get. now apply wf_items_get.
Qed.

Lemma content_length_other r k :
  PyStr.lower k <> "content-length"%string ->
  CID.get k (PreparedRequest.headers
               (PreparedRequest.prepare_content_length r))
  = CID.get k (PreparedRequest.headers r).
Proof.
  intros N. unfold PreparedRequest.prepare_content_length.
  destruct (PreparedRequest.body r) as [b|].
  - destruct (PreparedRequest.super_len b =? 0)%Z; [reflexivity|].
    simpl. now apply cid_get_setitem_neq.
  - destruct (negb _); [|reflexivity].
    destruct (CID.get "Content-Length" _); [reflexivity|].
    simpl. now apply cid_get_setitem_neq.
Qed.

(** Without a hook, the headers of the prepared request are those of the
    session, and a [Content-Length] where there is a body to send. *)
Lemma prepare_request_no_hook s now req p k :
  Session.auth s = None ->
  CID.wf (Session.headers s) ->
  PyStr.lower k <> "content-length"%string ->
  Session.prepare_request s now req = inr p ->
  CID.get k (PreparedRequest.headers p) = CID.get k (Session.headers s).
Proof.
  intros A W N H. unfold Session.prepare_request in H. rewrite A in H.
  exc_inv H. injection H as <-.
  rewrite content_length_other by exact N. simpl.
  match goal with
  | X : PreparedRequest.prepare_headers _ _ = inr _ |- _ =>
      apply prepare_headers_keeps in X; destruct X as (_ & _ & _ & ->)
  end.
  unfold Dict.items. rewrite !cid_copy_get; auto using cid_from_items_wf.
Qed.

Lemma build_fails_inv env method path payload auth st e st1 :
  GMOCoin.build env method path payload auth st = (inl e, st1) ->
  st1 = {| GMOCoin.self :=
             {| GMOCoin.s := session_for (GMOCoin.self st) auth;
                GMOCoin.gmo_auth := GMOCoin.gmo_auth (GMOCoin.self st);
                GMOCoin.late_limit := GMOCoin.late_limit (GMOCoin.self st);
                GMOCoin.last_req_time :=
                  GMOCoin.last_req_time (GMOCoin.self st) |};
           GMOCoin.world :=
             {| clock := clock (GMOCoin.world st) + t_build env;
                trace := trace (GMOCoin.world st) |} |}.
Proof.
  unfold GMOCoin.build, session_for.
  destruct auth;
    cbv [GMOCoin.select_endpoint negb GMOCoin.bind GMOCoin.set_auth
         GMOCoin.get_self GMOCoin.put_self GMOCoin.ret GMOCoin.elapse
         GMOCoin.time_time GMOCoin.lift GMOCoin.logger_debug GMOCoin.emit
         GMOCoin.self GMOCoin.world GMOCoin.s GMOCoin.gmo_auth
         GMOCoin.late_limit GMOCoin.last_req_time clock trace];
    destruct st as [[s ga ll lrt] [ck tr]];
    match goal with
    | |- context [Session.prepare_request ?a ?b ?c] =>
        destruct (Session.prepare_request a b c)
    end;
    intros H; inversion H; reflexivity.
Qed.

Lemma build_session env method path payload auth st :
  Session.headers
    (GMOCoin.s (GMOCoin.self
                  (snd (GMOCoin.build env method path payload auth st))))
  = Session.headers (GMOCoin.s (GMOCoin.self st)).
Proof.
  destruct (GMOCoin.build env method path payload auth st)
    as [[e|prepped] st1] eqn:B.
  - apply build_fails_inv in B. now rewrite B.
  - apply build_inv in B. destruct B as [_ ->]. reflexivity.
Qed.

Lemma request_session env method path payload auth st :
  Session.headers
    (GMOCoin.s (GMOCoin.self
                  (snd (GMOCoin._request env method path payload auth st))))
  = Session.headers (GMOCoin.s (GMOCoin.self st)).
Proof.
  pose proof (build_session env method path payload auth st) as BS.
  destruct (GMOCoin.build env method path payload auth st)
    as [[e|prepped] st1] eqn:B.
  - now rewrite (request_build_fails _ _ _ _ _ _ B).
  - rewrite (request_after_build _ _ _ _ _ _ B).
    destruct (exchange_run env prepped st1) as (_ & _ & _ & S & _).
    rewrite S. exact BS.
Qed.

(** The headers of the session of a client are those that [__init__]
    has set: a well-formed store without authentication headers. *)
Lemma reachable_session st :
  reachable st ->
  CID.wf (Session.headers (GMOCoin.s (GMOCoin.self st)))
  /\ no_auth_headers (Session.headers (GMOCoin.s (GMOCoin.self st))).
Proof.
  induction 1 as [ua ae key secret ll w | st env m p pl a R IH].
  - split.
    + simpl. apply cid_setitem_wf. apply cid_from_items_wf.
    + repeat split.
  - now rewrite request_session.
Qed.

Lemma new_events_app st st' l :
  trace (GMOCoin.world st') = trace (GMOCoin.world st) ++ l ->
  new_events st st' = l.
Proof.
  intros H. unfold new_events. rewrite H.
  rewrite skipn_app, skipn_all, Nat.sub_diag. reflexivity.
Qed.

(** C10.  In every state of a client, also right after an authenticated
    dispatch, a dispatch with [auth] false leaves the hook of the
    session cleared, and the request it prepares and whatever it sends
    has none of the headers [API-KEY], [API-TIMESTAMP] and [API-SIGN]. *)
Theorem public_request_has_no_auth_headers
        env method path payload st :
  reachable st ->
  let r := GMOCoin._request env method path payload false st in
  Session.auth (GMOCoin.s (GMOCoin.self (snd r))) = None
  /\ (forall prepped st1,
        GMOCoin.build env method path payload false st = (inr prepped, st1) ->
        Session.auth (GMOCoin.s (GMOCoin.self st1)) = None
        /\ no_auth_headers (PreparedRequest.headers prepped))
  /\ (forall q,
        In q (sent_requests (new_events st (snd r))) ->
        no_auth_headers (PreparedRequest.headers q)).
Proof.
  intros R r. destruct (reachable_session R) as [W (N1 & N2 & N3)].
  assert (P : forall prepped st1,
            GMOCoin.build env method path payload false st
            = (inr prepped, st1) ->
            Session.auth (GMOCoin.s (GMOCoin.self st1)) = None
            /\ no_auth_headers (PreparedRequest.headers prepped)).
  { intros prepped st1 B. apply build_inv in B. destruct B as [B ->].
    split; [reflexivity|].
    assert (G : forall k,
              PyStr.lower k <> "content-length"%string ->
              CID.get k (PreparedRequest.headers prepped)
              = CID.get k (Session.headers (GMOCoin.s (GMOCoin.self st)))).
    { intros k Nk.
      exact (@prepare_request_no_hook
               (session_for (GMOCoin.self st) false) _ _ _ k
               eq_refl W Nk B). }
    unfold no_auth_headers.
    rewrite !G by (vm_compute; discriminate).
    now rewrite N1, N2, N3. }
  unfold r.
  destruct (GMOCoin.build env method path payload false st)
    as [[e|prepped] st1] eqn:B.
  - rewrite (request_build_fails _ _ _ _ _ _ B). simpl.
    apply build_fails_inv in B. subst st1.
    split; [reflexivity|]. split; [exact P|].
    unfold new_events. simpl. rewrite skipn_all. intros q [].
  - rewrite (request_after_build _ _ _ _ _ _ B).
    destruct (P prepped st1 eq_refl) as [A H].
    destruct (exchange_run env prepped st1) as (logs & T & L & S & _).
    split; [now rewrite S|]. split; [exact P|].
    apply build_inv in B. destruct B as [_ B].
    rewrite B in T at 2. simpl in T. rewrite <- app_assoc in T.
    rewrite (@new_events_app st _ _ T). simpl.
    rewrite sent_requests_app, sent_requests_wire, (sent_requests_logs L).
    intros q [<-|[]]. exact H.
Qed.

Lemma public_request_has_no_auth_headers_witness :
  reachable Sample.after_private
  /\ Session.auth (GMOCoin.s (GMOCoin.self Sample.after_private))
     = Some Sample.signer
  /\ Session.auth
       (GMOCoin.s (GMOCoin.self
                     (snd (GMOCoin.ticker Sample.responding (VStr "BTC_JPY")
                                          Sample.after_private)))) = None.
Proof.
  assert (R : reachable Sample.after_private).
  { unfold Sample.after_private, GMOCoin.account_assets.
    apply reach_request. apply reach_init. }
  split; [exact R|]. split; [vm_compute; reflexivity|].
  exact (proj1 (@public_request_has_no_auth_headers
                  Sample.responding "GET" "/v1/ticker"
                  [("symbol"%string, VStr "BTC_JPY")]
                  Sample.after_private R)).
Defined.

(** ** The signature of a dispatch *)

Lemma break_plain_app (f : ascii -> bool) p s :
  (forall c, Url.plain_char c = true -> f c = false) ->
  Url.plain p = true ->
  PyStr.break f (p ++ s)
  = (p ++ fst (PyStr.break f s), snd (PyStr.break f s))%string.
Proof.
  intros F. induction p as [|c r IH]; simpl.
  - intros _. now destruct (PyStr.break f s).
  - intros H. apply andb_prop in H. destruct H as [Hc Hr].
    rewrite (F c Hc), (IH Hr). reflexivity.
Qed.

Lemma remove_unsafe_plain_app p s :
  Url.plain p = true ->
  Url.remove_unsafe (p ++ s) = (p ++ Url.remove_unsafe s)%string.
Proof.
  induction p as [|c r IH]; simpl; [reflexivity|].
  intros H. apply andb_prop in H. destruct H as [Hc Hr].
  destruct (plain_char_cases c Hc) as (_ & _ & _ & U).
  cbv zeta. rewrite U, (IH Hr). reflexivity.
Qed.

Lemma forallb_plain (f : ascii -> bool) p :
  (forall c, Url.plain_char c = true -> f c = true) ->
  Url.plain p = true -> PyStr.forallb f p = true.
Proof.
  intros F. induction p as [|c r IH]; [reflexivity|].
  intros H. apply andb_prop in H. destruct H as [Hc Hr].
  change (f c && PyStr.forallb f r = true).
  now rewrite (F c Hc), (IH Hr).
Qed.

Lemma plain_no_semicolon p :
  Url.plain p = true -> PyStr.one_of p ";" = false.
Proof.
  intros P. unfold PyStr.one_of, PyStr.existsb.
  rewrite forallb_plain; [reflexivity | | exact P].
  intros c. destruct c as [[] [] [] [] [] [] [] []]; vm_compute; congruence.
Qed.

(** The URL of a dispatch on a plain path splits into the base, the path
    and what the query leaves. *)
Lemma urlsplit_dispatch auth p sfx :
  Url.plain p = true -> query_like sfx ->
  exists q f,
    Url.urlsplit (base_url auth ++ p ++ sfx)
    = inr {| Url.scheme := "https"; Url.netloc := "api.coin.z.com";
             Url.path := (family auth ++ p)%string;
             Url.query := q; Url.fragment := f |}.
Proof.
  intros P [->|[q ->]].
  - rewrite append_empty, urlsplit_base by exact P. eauto.
  - pose proof (fun c H => proj1 (plain_char_cases c H)) as Fh.
    pose proof (fun c H => proj1 (proj2 (plain_char_cases c H))) as Fq.
    unfold Url.urlsplit.
    destruct auth; cbn; rewrite (@remove_unsafe_plain_app p _ P); cbn;
      rewrite (@break_plain_app _ p _ Fh P); cbn;
      destruct (PyStr.break (Ascii.eqb "#") (Url.remove_unsafe q))
        as [a b]; cbn;
      rewrite (@break_plain_app _ p _ Fq P); cbn;
      rewrite append_empty; eauto.
Qed.

Lemma append_assoc (a b c : string) :
  ((a ++ b) ++ c)%string = (a ++ b ++ c)%string.
Proof.
  induction a as [|x a IH]; simpl; [reflexivity | now rewrite IH].
Qed.

Lemma path_url_dispatch r auth p sfx :
  Url.plain p = true -> query_like sfx ->
  PreparedRequest.url r = (base_url auth ++ p ++ sfx)%string ->
  exists sfx',
    query_like sfx'
    /\ PreparedRequest.path_url r = inr (family auth ++ p ++ sfx')%string.
Proof.
  intros P Q U. unfold PreparedRequest.path_url. rewrite U.
  destruct (@urlsplit_dispatch auth p sfx P Q) as (q & f & ->). simpl.
  assert (E : PyStr.is_empty (family auth ++ p) = false)
    by now destruct auth.
  rewrite E. destruct q as [|c q]; simpl.
  - exists ""%string. split; [now left|]. now rewrite append_empty.
  - exists ("?" ++ String c q)%string. split; [right; eauto|].
    now rewrite append_assoc.
Qed.

Lemma urlparse_path_dispatch auth p sfx :
  Url.plain p = true -> query_like sfx ->
  Url.urlparse_path (family auth ++ p ++ sfx) = inr (family auth ++ p)%string.
Proof.
  intros P Q.
  pose proof (fun c H => proj1 (plain_char_cases c H)) as Fh.
  pose proof (fun c H => proj1 (proj2 (plain_char_cases c H))) as Fq.
  pose proof (fun c H => proj1 (proj2 (proj2 (plain_char_cases c H)))) as Fc.
  assert (S : exists q f,
            Url.urlsplit (family auth ++ p ++ sfx)
            = inr {| Url.scheme := ""; Url.netloc := "";
                     Url.path := (family auth ++ p)%string;
                     Url.query := q; Url.fragment := f |}).
  { unfold Url.urlsplit.
    destruct Q as [->|[q ->]].
    - rewrite append_empty.
      destruct auth; cbn; rewrite (remove_unsafe_plain p P); cbn;
        rewrite (break_plain _ p Fc P); cbn;
        rewrite (break_plain _ p Fh P); cbn;
        rewrite (break_plain _ p Fq P); cbn; eauto.
    - destruct auth; cbn; rewrite (@remove_unsafe_plain_app p _ P); cbn;
        rewrite (@break_plain_app _ p _ Fc P); cbn;
        destruct (PyStr.break (Ascii.eqb ":") (Url.remove_unsafe q))
          as [a0 [|b0 b1]]; cbn;
        rewrite (@break_plain_app _ p _ Fh P); cbn;
        destruct (PyStr.break (Ascii.eqb "#") (Url.remove_unsafe q))
          as [a b]; cbn;
        rewrite (@break_plain_app _ p _ Fq P); cbn;
        rewrite append_empty; eauto. }
  destruct S as (q & f & S). unfold Url.urlparse_path. rewrite S. simpl.
  assert (N : PyStr.one_of (family auth ++ p) ";" = false).
  { destruct auth; cbn; apply (plain_no_semicolon p P). }
  now rewrite N.
Qed.

Lemma canonical_path_family auth rest :
  GMOCoinAuth.canonical_path (family auth ++ rest) = rest.
Proof.
  destruct auth; reflexivity.
Qed.

Lemma query_suffix_like params : query_like (query_suffix params).
Proof.
  unfold query_suffix, query_like.
  destruct (PyStr.is_empty _); [now left | right; eauto].
Qed.

Lemma prepare_content_length_wf r :
  CID.wf (PreparedRequest.headers r) ->
  CID.wf (PreparedRequest.headers (PreparedRequest.prepare_content_length r)).
Proof.
  intros W. unfold PreparedRequest.prepare_content_length.
  destruct (PreparedRequest.body r) as [b|].
  - destruct (PreparedRequest.super_len b =? 0)%Z; [exact W|].
    now apply cid_setitem_wf.
  - destruct (negb _); [|exact W].
    destruct (CID.get "Content-Length" _); [exact W|].
    now apply cid_setitem_wf.
Qed.

(** For every authenticated dispatch on a path of plain characters, the
    request that is sent is signed over the timestamp, the method in
    upper case, the path as the endpoint method gives it (the [/private]
    of the base URL is cut off) and the JSON body, or nothing for
    [GET]. *)
Lemma dispatch_signature env method path payload st prepped st1 :
  Url.plain path = true ->
  GMOCoin.build env method path payload true st = (inr prepped, st1) ->
  let auth := GMOCoin.gmo_auth (GMOCoin.self st) in
  let timestamp :=
    GMOCoinAuth.timestamp_of (clock (GMOCoin.world st) + t_build env) in
  exists key msg,
    PyStr.encode_ascii (GMOCoinAuth.secret auth) = Some key
    /\ PyStr.encode_ascii
         (timestamp ++ PyStr.upper method ++ path
                    ++ body_text method payload)%string = Some msg
    /\ CID.get "API-KEY" (PreparedRequest.headers prepped)
       = Some (GMOCoinAuth.api_key auth)
    /\ CID.get "API-TIMESTAMP" (PreparedRequest.headers prepped)
       = Some timestamp
    /\ CID.get "API-SIGN" (PreparedRequest.headers prepped)
       = Some (hexdigest key msg).
Proof.
  intros P B auth timestamp.
  apply build_inv in B. destruct B as [B _].
  unfold Session.prepare_request, session_for in B. simpl in B.
  fold auth in B. exc_inv B. injection B as <-.
  match goal with
  | X : PreparedRequest.prepare_headers _ _ = inr _ |- _ =>
      apply prepare_headers_keeps in X; simpl in X;
      destruct X as (Hm & Hu & _ & Hh)
  end.
  match goal with
  | X : GMOCoinAuth.__call__ _ _
          (PreparedRequest.prepare_content_length ?inner) = inr _ |- _ =>
      pose proof (prepare_content_length_keeps inner) as K;
      simpl in K; destruct K as (Km & Ku & Kb);
      assert (W : CID.wf (PreparedRequest.headers
                            (PreparedRequest.prepare_content_length inner)))
        by (apply prepare_content_length_wf; simpl; rewrite Hh;
            apply cid_from_items_wf);
      destruct (call_inv _ _ _ W X)
        as (pu & o & key & msg & Hp & Ho & Hk & Ht & Hs)
  end.
  rewrite (prepare_url_base true path _ P) in E. injection E as <-.
  destruct (@path_url_dispatch _ true path _ P (query_suffix_like _)
              (eq_trans Ku Hu)) as (sfx & Q & Hp').
  rewrite Hp' in Hp.
  assert (Epu : pu = (family true ++ path ++ sfx)%string) by congruence.
  rewrite Epu, (@urlparse_path_dispatch true path sfx P Q) in Ho.
  assert (Eo : o = (family true ++ path)%string) by congruence.
  rewrite Eo in Ht.
  unfold GMOCoinAuth.text_of, GMOCoinAuth.body_or_empty in Ht.
  rewrite canonical_path_family, Km, Kb, Hm in Ht.
  exists key, msg. split; [exact Hk|]. split.
  - rewrite <- Ht. unfold body_text, request_of, GMOCoin.body_query.
    simpl. now destruct (String.eqb method "GET").
  - rewrite !content_length_other by (vm_compute; discriminate).
    rewrite Hs, !signed_headers_get by exact W. auto.
Qed.

(** Two dispatches of the sample client, at the clock 1700000000.1, with
    the signatures of [1700000000100GET/v1/account/assets] and of
    [1700000000100POST/v1/order] followed by the JSON body. *)
Example account_assets_signed :
  map (fun r => (PreparedRequest.url r, PreparedRequest.body r,
                 CID.get "API-TIMESTAMP" (PreparedRequest.headers r),
                 CID.get "API-SIGN" (PreparedRequest.headers r)))
      (sent_requests
         (trace (GMOCoin.world
                   (snd (GMOCoin.account_assets
                           Sample.responding
                           Sample.state)))))
  = [("https://api.coin.z.com/private/v1/account/assets"%string, None,
      Some "1700000000100"%string,
      Some "a1fdc6220d05eaa343c22f040011f74c5a52811e40718eb2f063542c328fee95"%string)].
Proof. vm_compute. reflexivity. Qed.

Example order_signed :
  map (fun r => (PreparedRequest.url r,
                 CID.get "Content-Length" (PreparedRequest.headers r),
                 CID.get "API-SIGN" (PreparedRequest.headers r)))
      (sent_requests
         (trace (GMOCoin.world
                   (snd (GMOCoin.order
                           Sample.responding
                           (VStr "BTC_JPY") (VStr "BUY") (VStr "LIMIT")
                           (VStr "0.01") (VInt 5000000) Sample.state)))))
  = [("https://api.coin.z.com/private/v1/order"%string, Some "96"%string,
      Some "9752975600b3718f598f1e117722716ec2d9017c779133f097f7604b40123747"%string)].
Proof. vm_compute. reflexivity. Qed.

(** [closeorder] of position 123, size ["0.1"], on the wire. *)
Example closeorder_body :
  map PreparedRequest.body
      (sent_requests
         (trace (GMOCoin.world
                   (snd (GMOCoin.closeorder
                           Sample.responding
                           (VStr "BTC_JPY") (VStr "BUY") (VStr "MARKET")
                           (VInt 123) (VStr "0.1") VNone Sample.state)))))
  = [Some (Sample.dq "{'symbol': 'BTC_JPY', 'side': 'BUY', 'executionType': 'MARKET', 'settlePosition': [{'positionId': 123, 'size': '0.1'}]}")].
Proof. vm_compute. reflexivity. Qed.

(** ** Copying a store of headers *)



(** * Further properties of the dispatch *)

(** ** The run of [_request], written out *)

(** The state and the result of [exchange], in full. *)
Lemma exchange_exact env prepped st :
  let stamp := GMOCoin.late_limit (GMOCoin.self st) && reaches_stamp env in
  GMOCoin.exchange env prepped st
  = (result_of env,
     {| GMOCoin.self :=
          if stamp
          then stamped (GMOCoin.self st) (send_finish env st + t_stamp env)
          else GMOCoin.self st;
        GMOCoin.world :=
          {| clock := if stamp then send_finish env st + t_stamp env
                      else send_finish env st;
             trace := trace (GMOCoin.world st)
                      ++ wire_events env prepped st ++ tail_logs env |} |}).
Proof.
  destruct st as [[s ga ll lrt] [ck tr]].
  destruct env as [tb tc to te ts tst out].
  unfold reaches_stamp, tail_logs, result_of, error_log, response_log,
    stamped.
  destruct ll; run_m;
    try destruct (Qltb (ck + tc) (lrt + 1));
    (destruct out as [resp|e];
     [ destruct (Response.raise_for_status resp) as [e|] eqn:R;
       [ rewrite (raise_for_status_http _ R) |]
     | destruct (is_HTTPError e) eqn:H ]);
    simpl; rewrite <- ?app_assoc; reflexivity.
Qed.

(** [build] is [prepare_request] in the hooked session, and one line of
    the log when it returns. *)
Lemma build_exact env method path payload auth st :
  GMOCoin.build env method path payload auth st
  = match prepared env method path payload auth st with
    | inl e =>
        (inl e,
         {| GMOCoin.self := hooked (GMOCoin.self st) auth;
            GMOCoin.world :=
              {| clock := clock (GMOCoin.world st) + t_build env;
                 trace := trace (GMOCoin.world st) |} |})
    | inr prepped =>
        (inr prepped,
         {| GMOCoin.self := hooked (GMOCoin.self st) auth;
            GMOCoin.world :=
              {| clock := clock (GMOCoin.world st) + t_build env;
                 trace := trace (GMOCoin.world st)
                          ++ [request_log prepped] |} |})
    end.
Proof.
  destruct (GMOCoin.build env method path payload auth st)
    as [[e|prepped] st1] eqn:B.
  - pose proof (build_fails_inv _ _ _ _ _ _ B) as S.
    unfold prepared.
    destruct (Session.prepare_request _ _ _) as [e'|p] eqn:P.
    + revert B. unfold GMOCoin.build, request_of, base_url, session_for in *.
      destruct auth;
        cbv [GMOCoin.select_endpoint negb GMOCoin.bind GMOCoin.set_auth
             GMOCoin.get_self GMOCoin.put_self GMOCoin.ret GMOCoin.elapse
             GMOCoin.time_time GMOCoin.lift GMOCoin.logger_debug GMOCoin.emit
             GMOCoin.self GMOCoin.world GMOCoin.s GMOCoin.gmo_auth
             GMOCoin.late_limit GMOCoin.last_req_time clock trace];
        destruct st as [[s ga ll lrt] [ck tr]]; simpl in P |- *;
        rewrite P; intros H; inversion H; reflexivity.
    + exfalso. revert B.
      unfold GMOCoin.build, request_of, base_url, session_for in *.
      destruct auth;
        cbv [GMOCoin.select_endpoint negb GMOCoin.bind GMOCoin.set_auth
             GMOCoin.get_self GMOCoin.put_self GMOCoin.ret GMOCoin.elapse
             GMOCoin.time_time GMOCoin.lift GMOCoin.logger_debug GMOCoin.emit
             GMOCoin.self GMOCoin.world GMOCoin.s GMOCoin.gmo_auth
             GMOCoin.late_limit GMOCoin.last_req_time clock trace];
        destruct st as [[s ga ll lrt] [ck tr]]; simpl in P |- *;
        rewrite P; discriminate.
  - apply build_inv in B. destruct B as [P ->].
    unfold prepared. rewrite P. reflexivity.
Qed.

Lemma send_start_at_check env auth st tr :
  send_start env {| GMOCoin.self := hooked (GMOCoin.self st) auth;
                    GMOCoin.world :=
                      {| clock := clock (GMOCoin.world st) + t_build env;
                         trace := tr |} |}
  = send_start env (at_check env auth st).
Proof. reflexivity. Qed.

Lemma wire_events_at_check env prepped auth st tr :
  wire_events env prepped
              {| GMOCoin.self := hooked (GMOCoin.self st) auth;
                 GMOCoin.world :=
                   {| clock := clock (GMOCoin.world st) + t_build env;
                      trace := tr |} |}
  = wire_events env prepped (at_check env auth st).
Proof. reflexivity. Qed.

(** The whole of [_request]. *)
Lemma request_exact env method path payload auth st :
  let st1 := at_check env auth st in
  let stamp := GMOCoin.late_limit (GMOCoin.self st) && reaches_stamp env in
  GMOCoin._request env method path payload auth st
  = match prepared env method path payload auth st with
    | inl e =>
        (inl e,
         {| GMOCoin.self := hooked (GMOCoin.self st) auth;
            GMOCoin.world :=
              {| clock := clock (GMOCoin.world st) + t_build env;
                 trace := trace (GMOCoin.world st) |} |})
    | inr prepped =>
        (result_of env,
         {| GMOCoin.self :=
              if stamp
              then stamped (hooked (GMOCoin.self st) auth)
                           (send_finish env st1 + t_stamp env)
              else hooked (GMOCoin.self st) auth;
            GMOCoin.world :=
              {| clock := if stamp then send_finish env st1 + t_stamp env
                          else send_finish env st1;
                 trace := trace (GMOCoin.world st)
                          ++ request_log prepped
                          :: wire_events env prepped st1
                          ++ tail_logs env |} |})
    end.
Proof.
  intros st1 stamp. unfold GMOCoin._request, GMOCoin.bind.
  rewrite build_exact.
  destruct (prepared env method path payload auth st) as [e|prepped];
    [reflexivity|].
  rewrite exchange_exact. cbn [GMOCoin.self GMOCoin.world trace clock].
  unfold send_finish. rewrite send_start_at_check, wire_events_at_check.
  fold st1. change (GMOCoin.late_limit (hooked (GMOCoin.self st) auth))
    with (GMOCoin.late_limit (GMOCoin.self st)).
  fold stamp. rewrite <- app_assoc. reflexivity.
Qed.

(** The events of a dispatch. *)
Lemma request_new_events env method path payload auth st :
  new_events st (snd (GMOCoin._request env method path payload auth st))
  = match prepared env method path payload auth st with
    | inl _ => []
    | inr prepped =>
        request_log prepped
        :: wire_events env prepped (at_check env auth st) ++ tail_logs env
    end.
Proof.
  rewrite request_exact.
  destruct (prepared env method path payload auth st) as [e|prepped].
  - unfold new_events. simpl. apply skipn_all.
  - apply new_events_app. reflexivity.
Qed.

Lemma sleeps_app a b : sleeps (a ++ b) = sleeps a ++ sleeps b.
Proof.
  induction a as [|[| |] a IH]; simpl; auto. now rewrite IH.
Qed.

Lemma errors_app a b : errors (a ++ b) = errors a ++ errors b.
Proof.
  induction a as [|[[]| |] a IH]; simpl; auto. now rewrite IH.
Qed.

Lemma sleeps_tail_logs env : sleeps (tail_logs env) = [].
Proof.
  unfold tail_logs, error_log.
  destruct (outcome env) as [resp|e].
  - now destruct (Response.raise_for_status resp).
  - now destruct (is_HTTPError e).
Qed.

Lemma sent_requests_tail_logs env : sent_requests (tail_logs env) = [].
Proof.
  unfold tail_logs, error_log.
  destruct (outcome env) as [resp|e].
  - now destruct (Response.raise_for_status resp).
  - now destruct (is_HTTPError e).
Qed.

Lemma sleeps_wire env prepped st :
  sleeps (wire_events env prepped st)
  = if must_wait env st then [(check_time env st, wait_time env st)] else [].
Proof.
  unfold wire_events. now destruct (must_wait env st).
Qed.

Lemma errors_wire env prepped st : errors (wire_events env prepped st) = [].
Proof.
  unfold wire_events. now destruct (must_wait env st).
Qed.

(** The sleeps of a dispatch. *)
Lemma request_sleeps env method path payload auth st :
  sleeps (new_events
            st (snd (GMOCoin._request env method path payload auth st)))
  = match prepared env method path payload auth st with
    | inl _ => []
    | inr _ =>
        let st1 := at_check env auth st in
        if must_wait env st1 then [(check_time env st1, wait_time env st1)]
        else []
    end.
Proof.
  rewrite request_new_events.
  destruct (prepared env method path payload auth st) as [e|prepped];
    [reflexivity|].
  simpl. rewrite sleeps_app, sleeps_wire, sleeps_tail_logs.
  apply app_nil_r.
Qed.

Lemma raise_for_status_none resp :
  Response.raise_for_status resp = None
  <-> ~ (400 <= Response.status_code resp < 600)%Z.
Proof.
  unfold Response.raise_for_status.
  destruct (Z.leb_spec 400 (Response.status_code resp));
    destruct (Z.ltb_spec (Response.status_code resp) 500);
    destruct (Z.leb_spec 500 (Response.status_code resp));
    destruct (Z.ltb_spec (Response.status_code resp) 600);
    simpl; split; intros; try discriminate; try lia; auto.
Qed.

(** ** The rate limit, when it does nothing *)

(** X1.  With the rate limit off ([late_limit] false), no dispatch
    sleeps, whatever it prepares, gets or raises, and [last_req_time] is
    left as it was: lines 64-68 and 77-78 are skipped. *)
Theorem no_rate_limit_no_sleep env method path payload auth st :
  GMOCoin.late_limit (GMOCoin.self st) = false ->
  let st' := snd (GMOCoin._request env method path payload auth st) in
  sleeps (new_events st st') = []
  /\ GMOCoin.last_req_time (GMOCoin.self st')
     = GMOCoin.last_req_time (GMOCoin.self st).
Proof.
  intros L st'. split.
  - unfold st'. rewrite request_sleeps.
    destruct (prepared env method path payload auth st); [reflexivity|].
    unfold must_wait. simpl. now rewrite L.
  - unfold st'. rewrite request_exact.
    destruct (prepared env method path payload auth st); [reflexivity|].
    rewrite L. reflexivity.
Qed.

Lemma no_rate_limit_no_sleep_witness :
  sleeps (new_events
            unlimited_state
            (snd (GMOCoin.ticker Sample.responding (VStr "BTC_JPY")
                                 unlimited_state)))
  = [].
Proof.
  exact (proj1 (@no_rate_limit_no_sleep
                  Sample.responding "GET" "/v1/ticker"
                  [("symbol"%string, VStr "BTC_JPY")] false
                  unlimited_state eq_refl)).
Defined.

(** X2.  A dispatch that has prepared its request does not sleep once a
    second has passed since [last_req_time]: when the clock read on
    line 65 is at least [last_req_time + 1], the only event between the
    two lines of the log is the send, and it starts as soon as line 70
    is entered. *)
Theorem no_sleep_after_a_second
        env method path payload auth st prepped st1 :
  GMOCoin.build env method path payload auth st = (inr prepped, st1) ->
  GMOCoin.last_req_time (GMOCoin.self st) + 1 <= check_time env st1 ->
  let st' := snd (GMOCoin._request env method path payload auth st) in
  sleeps (new_events st st') = []
  /\ exists start,
      new_events st st'
      = request_log prepped
        :: Sent start (start + t_send env) prepped :: tail_logs env
      /\ start = (if GMOCoin.late_limit (GMOCoin.self st)
                  then check_time env st1 else clock (GMOCoin.world st1))
                 + t_enter env.
Proof.
  intros B H st'. unfold st'.
  rewrite request_sleeps, request_new_events.
  rewrite build_exact in B.
  destruct (prepared env method path payload auth st) as [e|p];
    [discriminate|].
  injection B as -> <-.
  assert (M : must_wait env (at_check env auth st) = false).
  { unfold must_wait. simpl.
    destruct (GMOCoin.late_limit (GMOCoin.self st)); [|reflexivity].
    simpl. destruct (Qltb _ _) eqn:E; [|reflexivity].
    apply Qltb_true in E. unfold check_time in *. simpl in *. lra. }
  cbv zeta. rewrite M. split; [reflexivity|].
  exists (send_start env (at_check env auth st)).
  unfold wire_events. rewrite M. split; [reflexivity|].
  unfold send_start. rewrite M. reflexivity.
Qed.

Lemma no_sleep_after_a_second_witness :
  sleeps (new_events
            Sample.state
            (snd (GMOCoin.ticker Sample.responding (VStr "BTC_JPY")
                                 Sample.state)))
  = [].
Proof.
  refine (proj1 (@no_sleep_after_a_second
                   Sample.responding "GET" "/v1/ticker"
                   [("symbol"%string, VStr "BTC_JPY")] false
                   Sample.state _ _ _ _)).
  - vm_compute. reflexivity.
  - vm_compute. discriminate.
Defined.

(** ** The rate state over time *)

(** X3.  [last_req_time] never goes back: a dispatch leaves it as it
    was, or moves it forward by at least one second (the rate limit has
    made the send start a second after it, and the stamp is taken after
    the send). *)
Theorem last_req_time_grows env method path payload auth st :
  Env_ok env ->
  let last := GMOCoin.last_req_time (GMOCoin.self st) in
  let last' :=
    GMOCoin.last_req_time
      (GMOCoin.self (snd (GMOCoin._request env method path payload auth st)))
  in
  last' = last \/ last + 1 <= last'.
Proof.
  intros E last last'. unfold last'. rewrite request_exact.
  destruct (prepared env method path payload auth st) as [e|p];
    [now left|].
  destruct (GMOCoin.late_limit (GMOCoin.self st)) eqn:L; [|now left].
  destruct (reaches_stamp env); [|now left].
  right. simpl.
  pose proof (@send_start_spaced env (at_check env auth st) E L) as S.
  simpl in S. unfold send_finish.
  destruct E as (_ & _ & _ & _ & ? & ?). fold last in S. lra.
Qed.

Lemma last_req_time_grows_witness :
  0 + 1 <= GMOCoin.last_req_time (GMOCoin.self Sample.after_private).
Proof.
  destruct (@last_req_time_grows
              Sample.responding "GET" "/v1/account/assets" [] true
              Sample.state (Sample_env_ok _)) as [H|H].
  - vm_compute in H. discriminate H.
  - exact H.
Defined.

(** X4.  If [last_req_time] is not ahead of the clock, it is not ahead
    of it after a dispatch either, whatever the dispatch did. *)
Theorem last_req_time_not_ahead env method path payload auth st :
  Env_ok env ->
  timely st ->
  timely (snd (GMOCoin._request env method path payload auth st)).
Proof.
  intros E T. unfold timely in *. rewrite request_exact.
  destruct E as (Eb & Ec & Eo & Ee & Es & Et).
  destruct (prepared env method path payload auth st) as [e|p].
  - simpl. lra.
  - destruct (GMOCoin.late_limit (GMOCoin.self st) && reaches_stamp env)
             eqn:S.
    + simpl. lra.
    + cbn [GMOCoin.self GMOCoin.world clock].
      change (GMOCoin.last_req_time (hooked (GMOCoin.self st) auth))
        with (GMOCoin.last_req_time (GMOCoin.self st)).
      unfold send_finish, send_start, must_wait, wait_time, check_time.
      cbn [at_check GMOCoin.self GMOCoin.world clock hooked
           GMOCoin.late_limit GMOCoin.last_req_time].
      destruct (GMOCoin.late_limit (GMOCoin.self st)); simpl; [|lra].
      destruct (Qltb _ _) eqn:Q; [apply Qltb_true in Q | ]; lra.
Qed.

Lemma last_req_time_not_ahead_witness : timely Sample.after_private.
Proof.
  apply (@last_req_time_not_ahead
           Sample.responding "GET" "/v1/account/assets" [] true
           Sample.state (Sample_env_ok _)).
  vm_compute. discriminate.
Defined.

(** X5.  While [last_req_time] is not ahead of the clock, a dispatch
    sleeps at most once, for more than nothing and for at most one
    second. *)
Theorem sleep_within_a_second env method path payload auth st :
  Env_ok env ->
  timely st ->
  let zs := sleeps (new_events
                      st (snd (GMOCoin._request env method path payload
                                                auth st))) in
  (List.length zs <= 1)%nat
  /\ Forall (fun z => 0 < snd z /\ snd z <= 1) zs.
Proof.
  intros E T zs. unfold zs. rewrite request_sleeps.
  destruct (prepared env method path payload auth st) as [e|p].
  - split; [simpl; lia | constructor].
  - cbv zeta. destruct (must_wait env (at_check env auth st)) eqn:M.
    + split; [simpl; lia|]. constructor; [|constructor].
      unfold must_wait in M. apply andb_true_iff in M. destruct M as [_ M].
      apply Qltb_true in M. unfold timely in T.
      destruct E as (Eb & Ec & _).
      unfold wait_time, check_time in *. simpl in *. lra.
    + split; [simpl; lia | constructor].
Qed.

Lemma sleep_within_a_second_witness :
  Forall (fun z => 0 < snd z /\ snd z <= 1)
         (sleeps (new_events
                    Sample.after_private
                    (snd (GMOCoin.ticker Sample.responding (VStr "BTC_JPY")
                                         Sample.after_private)))).
Proof.
  refine (proj2 (@sleep_within_a_second
                   Sample.responding "GET" "/v1/ticker"
                   [("symbol"%string, VStr "BTC_JPY")] false
                   Sample.after_private (Sample_env_ok _) _)).
  vm_compute. discriminate.
Defined.

(** ** What a dispatch leaves of the client *)

(** X6.  No dispatch changes the credentials, the flag of the rate
    limit or the headers of the session, whatever it returns or raises.
    A dispatch with the method [GET], and every dispatch that has
    prepared its request, has set the hook of the session as its
    argument [auth] says: the signer of the client for an authenticated
    dispatch, none for a public one.  (With another method, lines 53-58
    are reached only when [json.dumps] has returned on line 50.) *)
Theorem dispatch_keeps_configuration env method path payload auth st :
  let c := GMOCoin.self st in
  let c' :=
    GMOCoin.self (snd (GMOCoin._request env method path payload auth st)) in
  let hook := if auth then Some (GMOCoin.gmo_auth c) else None in
  GMOCoin.gmo_auth c' = GMOCoin.gmo_auth c
  /\ GMOCoin.late_limit c' = GMOCoin.late_limit c
  /\ Session.headers (GMOCoin.s c') = Session.headers (GMOCoin.s c)
  /\ (method = "GET"%string -> Session.auth (GMOCoin.s c') = hook)
  /\ (forall prepped st1,
        GMOCoin.build env method path payload auth st = (inr prepped, st1) ->
        Session.auth (GMOCoin.s c') = hook).
Proof.
  intros c c' hook. unfold c', hook. rewrite request_exact.
  destruct (prepared env method path payload auth st) as [e|p].
  - repeat split.
  - destruct (GMOCoin.late_limit (GMOCoin.self st) && reaches_stamp env);
      repeat split.
Qed.

Lemma dispatch_keeps_configuration_witness :
  Session.auth
    (GMOCoin.s
       (GMOCoin.self
          (snd (GMOCoin._request Sample.responding "GET" "/v1/ticker"
                                 [("symbol"%string, VStr "BTC_JPY")] false
                                 Sample.after_private)))) = None.
Proof.
  exact (proj1 (proj2 (proj2 (proj2
           (@dispatch_keeps_configuration
              Sample.responding "GET" "/v1/ticker"
              [("symbol"%string, VStr "BTC_JPY")] false
              Sample.after_private)))) eq_refl).
Defined.

(** ** One send for every prepared request *)

(** X7.  A dispatch sends the request it has prepared once and nothing
    else: there is no second send after an error status or after an
    exception of the send; and when [prepare_request] raises, nothing
    is sent. *)
Theorem one_send_per_dispatch env method path payload auth st :
  sent_requests
    (new_events st (snd (GMOCoin._request env method path payload auth st)))
  = match fst (GMOCoin.build env method path payload auth st) with
    | inr prepped => [prepped]
    | inl _ => []
    end.
Proof.
  rewrite request_new_events, build_exact.
  destruct (prepared env method path payload auth st) as [e|p];
    [reflexivity|].
  simpl. rewrite sent_requests_app, sent_requests_wire,
           sent_requests_tail_logs.
  reflexivity.
Qed.

(** X8.  When [prepare_request] raises (a header of the session that is
    not valid, a secret that is not ASCII, ...), [_request] raises that
    exception, and nothing is logged, slept or sent; the hook of the
    session is set all the same, and [last_req_time] is left as it
    was. *)
Theorem preparation_error_propagates env method path payload auth st e :
  prepared env method path payload auth st = inl e ->
  let r := GMOCoin._request env method path payload auth st in
  fst r = inl e
  /\ new_events st (snd r) = []
  /\ GMOCoin.self (snd r) = hooked (GMOCoin.self st) auth
  /\ clock (GMOCoin.world (snd r)) = clock (GMOCoin.world st) + t_build env.
Proof.
  intros P r. unfold r. rewrite request_new_events, request_exact, P.
  repeat split.
Qed.

Lemma preparation_error_propagates_witness :
  fst (GMOCoin.account_assets Sample.responding latin_state)
  = inl UnicodeEncodeError.
Proof.
  refine (proj1 (@preparation_error_propagates
                   Sample.responding "GET" "/v1/account/assets" [] true
                   latin_state UnicodeEncodeError _)).
  vm_compute. reflexivity.
Defined.

(** ** The log of a dispatch *)

(** X9.  A dispatch whose send yields a response logs at the level
    [ERROR] exactly when the status is 4xx or 5xx, and then one line,
    the text of the [HTTPError]; the line of the response is the last
    event. *)
Theorem error_logged_iff_error_status
        env method path payload auth st prepped st1 resp :
  GMOCoin.build env method path payload auth st = (inr prepped, st1) ->
  outcome env = Responds resp ->
  let evs :=
    new_events st (snd (GMOCoin._request env method path payload auth st)) in
  let c := Response.status_code resp in
  ((400 <= c < 600)%Z ->
   errors evs
   = [(PyStr.str_of_Z c
       ++ (if (c <? 500)%Z then " Client" else " Server") ++ " Error: "
       ++ Response.reason resp ++ " for url: " ++ Response.url resp)%string])
  /\ (~ (400 <= c < 600)%Z -> errors evs = [])
  /\ last evs (Logged DEBUG "") = response_log resp.
Proof.
  intros B O evs c. unfold evs. rewrite request_new_events.
  rewrite build_exact in B.
  destruct (prepared env method path payload auth st) as [e|p];
    [discriminate|].
  injection B as -> _.
  assert (E : errors (request_log prepped
                      :: wire_events env prepped (at_check env auth st)
                      ++ tail_logs env)
              = errors (error_log resp)).
  { simpl. rewrite errors_app, errors_wire. unfold tail_logs. rewrite O.
    rewrite errors_app. simpl. now rewrite app_nil_r. }
  rewrite E. unfold error_log. split; [|split].
  - intros H. unfold Response.raise_for_status. fold c.
    destruct (Z.leb_spec 400 c); [|lia].
    destruct (Z.ltb_spec c 500); simpl; [reflexivity|].
    destruct (Z.leb_spec 500 c); [|lia].
    destruct (Z.ltb_spec c 600); simpl; [reflexivity|lia].
  - intros H. apply raise_for_status_none in H. now rewrite H.
  - unfold tail_logs. rewrite O.
    change (request_log prepped
            :: wire_events env prepped (at_check env auth st)
            ++ error_log resp ++ [response_log resp])
      with ((request_log prepped
             :: wire_events env prepped (at_check env auth st))
            ++ error_log resp ++ [response_log resp]).
    rewrite !app_assoc. apply last_last.
Qed.

Lemma error_logged_iff_error_status_witness :
  errors (new_events
            Sample.state
            (snd (GMOCoin.order Sample.responding
                                (VStr "BTC_JPY") (VStr "BUY") (VStr "LIMIT")
                                (VStr "0.01") (VInt 5000000) Sample.state)))
  = ["400 Client Error: Bad Request for url: https://api.coin.z.com/private/v1/order"%string].
Proof.
  refine (proj1 (@error_logged_iff_error_status
                   Sample.responding "POST" "/v1/order" _ true
                   Sample.state _ _ Sample.bad_request _ eq_refl) _).
  - vm_compute. reflexivity.
  - vm_compute. split; [discriminate | reflexivity].
Defined.

(** X10.  When the send itself raises an [HTTPError], line 74 catches
    it with [resp] still [None]: the error is logged, [last_req_time] is
    stamped under the rate limit as after a response, and line 80 then
    raises an [AttributeError] in place of the [HTTPError]. *)
Theorem send_http_error_becomes_attribute_error
        env method path payload auth st prepped st1 msg :
  GMOCoin.build env method path payload auth st = (inr prepped, st1) ->
  outcome env = Raises (HTTPError msg) ->
  let r := GMOCoin._request env method path payload auth st in
  fst r = inl (AttributeError "'NoneType' object has no attribute 'text'")
  /\ errors (new_events st (snd r)) = [msg]
  /\ sent_requests (new_events st (snd r)) = [prepped]
  /\ (GMOCoin.late_limit (GMOCoin.self st) = true ->
      GMOCoin.last_req_time (GMOCoin.self (snd r))
      = send_finish env st1 + t_stamp env).
Proof.
  intros B O r. unfold r. rewrite request_new_events, request_exact.
  rewrite build_exact in B.
  destruct (prepared env method path payload auth st) as [e|p];
    [discriminate|].
  injection B as -> <-.
  unfold result_of, tail_logs, reaches_stamp. rewrite O. simpl.
  split; [reflexivity|]. split.
  { rewrite errors_app, errors_wire. reflexivity. }
  split.
  { rewrite sent_requests_app, sent_requests_wire. reflexivity. }
  intros L. rewrite L. reflexivity.
Qed.

Lemma send_http_error_becomes_attribute_error_witness :
  fst (GMOCoin.ticker bad_gateway (VStr "BTC_JPY") Sample.state)
  = inl (AttributeError "'NoneType' object has no attribute 'text'").
Proof.
  refine (proj1 (@send_http_error_becomes_attribute_error
                   bad_gateway
                   "GET" "/v1/ticker" [("symbol"%string, VStr "BTC_JPY")]
                   false Sample.state _ _ "502 Bad Gateway" _ eq_refl)).
  vm_compute. reflexivity.
Defined.

(** ** The payload of a dispatch *)

(** X11.  A dispatch depends on its payload only through the items
    whose value is not [None]: two payloads that agree on them give the
    same dispatch, whatever the method.  So an optional argument of an
    endpoint method that is left out, or passed as [None], is as if the
    parameter were not there. *)
Theorem none_valued_items_do_not_matter env method path p q auth st :
  Dict.wf p -> Dict.wf q ->
  filter not_None p = filter not_None q ->
  GMOCoin._request env method path p auth st
  = GMOCoin._request env method path q auth st.
Proof.
  intros Wp Wq E. unfold GMOCoin._request, GMOCoin.build.
  now rewrite (strip_none_filter Wp), (strip_none_filter Wq), E.
Qed.

Lemma none_valued_items_do_not_matter_witness :
  GMOCoin.trades Sample.responding (VStr "BTC_JPY") VNone VNone Sample.state
  = GMOCoin._request Sample.responding "GET" "/v1/trades"
                     [("symbol"%string, VStr "BTC_JPY")] false Sample.state.
Proof.
  apply (@none_valued_items_do_not_matter
           Sample.responding "GET" "/v1/trades"
           [("symbol", VStr "BTC_JPY"); ("page", VNone); ("count", VNone)]%string
           [("symbol"%string, VStr "BTC_JPY")] false Sample.state).
  - unfold Dict.wf. simpl. nodup.
  - unfold Dict.wf. simpl. nodup.
  - reflexivity.
Defined.

(** ** The signer in a dispatch *)




Lemma encode_not_ascii s :
  PyStr.is_ascii s = false -> encode s = inl UnicodeEncodeError.
Proof.
  unfold encode, PyStr.is_ascii.
  induction s as [|c r IH]; simpl; [discriminate|].
  destruct (PyStr.ord c <? 128)%Z; [|reflexivity].
  simpl. intros H. specialize (IH H).
  destruct (PyStr.encode_ascii r); [discriminate IH | reflexivity].
Qed.

(** The signer raises whenever the secret is not ASCII. *)
Lemma call_secret_not_ascii self now r :
  PyStr.is_ascii (GMOCoinAuth.secret self) = false ->
  exists e, GMOCoinAuth.__call__ self now r = inl e.
Proof.
  intros S. unfold GMOCoinAuth.__call__.
  destruct (PreparedRequest.path_url r) as [e|pu]; [simpl; eauto|].
  cbn [exc_bind].
  destruct (Url.urlparse_path pu) as [e|o]; [simpl; eauto|].
  cbn [exc_bind]. rewrite (encode_not_ascii _ S). simpl. eauto.
Qed.

Lemma prepared_secret_not_ascii env method path payload st :
  PyStr.is_ascii (GMOCoinAuth.secret (GMOCoin.gmo_auth (GMOCoin.self st)))
  = false ->
  exists e, prepared env method path payload true st = inl e.
Proof.
  intros S. unfold prepared, Session.prepare_request.
  destruct (Session.prepare_url _ _) as [e|url]; [simpl; eauto|].
  cbn [exc_bind].
  destruct (PreparedRequest.prepare_headers _ _) as [e|p]; [simpl; eauto|].
  cbn [exc_bind session_for Session.auth].
  match goal with
  | |- context [GMOCoinAuth.__call__ ?a ?n ?r] =>
      destruct (@call_secret_not_ascii a n r S) as [e ->]
  end.
  simpl. eauto.
Qed.

(** X12.  A client whose secret is not ASCII never sends an
    authenticated request: whatever the method, the path and the
    payload, the dispatch raises before the send (from the signer, on
    line 21 of [auth.py], which encodes the secret, unless something
    has raised earlier), nothing is logged, slept or sent, and
    [last_req_time] is left as it was. *)
Theorem non_ascii_secret_never_sends env method path payload st :
  PyStr.is_ascii (GMOCoinAuth.secret (GMOCoin.gmo_auth (GMOCoin.self st)))
  = false ->
  let r := GMOCoin._request env method path payload true st in
  (exists e, fst r = inl e)
  /\ new_events st (snd r) = []
  /\ GMOCoin.last_req_time (GMOCoin.self (snd r))
     = GMOCoin.last_req_time (GMOCoin.self st).
Proof.
  intros S r.
  destruct (@prepared_secret_not_ascii env method path payload st S)
    as [e F].
  unfold r. rewrite request_new_events, request_exact, F.
  split; [exists e; reflexivity|]. now split.
Qed.

Lemma non_ascii_secret_never_sends_witness :
  fst (GMOCoin.order Sample.responding
                     (VStr "BTC_JPY") (VStr "BUY") (VStr "LIMIT")
                     (VStr "0.01") (VInt 5000000) latin_state)
  = inl UnicodeEncodeError
  /\ new_events
       latin_state
       (snd (GMOCoin._request
               Sample.responding "POST" "/v1/order"
               [("symbol", VStr "BTC_JPY"); ("side", VStr "BUY");
                ("executionType", VStr "LIMIT"); ("price", VInt 5000000);
                ("size", VStr "0.01")]%string true latin_state))
     = [].
Proof.
  split; [vm_compute; reflexivity|].
  exact (proj1 (proj2 (@non_ascii_secret_never_sends
                         Sample.responding "POST" "/v1/order"
                         [("symbol", VStr "BTC_JPY"); ("side", VStr "BUY");
                          ("executionType", VStr "LIMIT");
                          ("price", VInt 5000000);
                          ("size", VStr "0.01")]%string
                         latin_state eq_refl))).
Defined.

(** X13.  An authenticated dispatch on a path of plain characters that
    has prepared its request sends that request and no other, to the
    private base URL followed by the path and the query; and the request
    is signed, with the secret of the client, over the timestamp (the
    clock in milliseconds, whole), the method in upper case, the path as
    [_request] was given it (without the [/private] of the base URL and
    without the query) and the JSON text of the stripped payload, or
    nothing for [GET]. *)
Theorem authenticated_request_is_signed
        env method path payload st prepped st1 :
  Url.plain path = true ->
  GMOCoin.build env method path payload true st = (inr prepped, st1) ->
  let auth := GMOCoin.gmo_auth (GMOCoin.self st) in
  let timestamp :=
    GMOCoinAuth.timestamp_of (clock (GMOCoin.world st) + t_build env) in
  let wire := GMOCoin.strip_none payload in
  sent_requests
    (new_events st (snd (GMOCoin._request env method path payload true st)))
  = [prepped]
  /\ PreparedRequest.url prepped
     = ("https://api.coin.z.com/private" ++ path
        ++ query_suffix (if String.eqb method "GET" then Some wire
                         else None))%string
  /\ exists key msg,
      PyStr.encode_ascii (GMOCoinAuth.secret auth) = Some key
      /\ PyStr.encode_ascii
           (timestamp ++ PyStr.upper method ++ path
            ++ (if String.eqb method "GET" then ""
                else Json.dumps (VDict wire)))%string = Some msg
      /\ CID.get "API-KEY" (PreparedRequest.headers prepped)
         = Some (GMOCoinAuth.api_key auth)
      /\ CID.get "API-TIMESTAMP" (PreparedRequest.headers prepped)
         = Some timestamp
      /\ CID.get "API-SIGN" (PreparedRequest.headers prepped)
         = Some (hexdigest key msg).
Proof.
  intros P B auth timestamp wire. split; [|split].
  - rewrite request_new_events.
    rewrite build_exact in B.
    destruct (prepared env method path payload true st) as [e|p];
      [discriminate|].
    injection B as -> _. simpl.
    rewrite sent_requests_app, sent_requests_wire, sent_requests_tail_logs.
    reflexivity.
  - pose proof (build_inv _ _ _ _ _ _ B) as [B' _].
    apply prepare_request_inv in B'. destruct B' as (U & _ & _).
    change (Request.url (request_of method path payload true))
      with (base_url true ++ path)%string in U.
    rewrite (prepare_url_base true path _ P) in U.
    injection U as <-. unfold request_of, GMOCoin.body_query. fold wire.
    now destruct (String.eqb method "GET").
  - exact (dispatch_signature env method path payload st P B).
Qed.

Lemma authenticated_request_is_signed_witness :
  exists prepped,
    sent_requests
      (new_events Sample.state
                  (snd (GMOCoin.order Sample.responding
                                      (VStr "BTC_JPY") (VStr "BUY")
                                      (VStr "LIMIT")
                                      (VStr "0.01") (VInt 5000000)
                                      Sample.state)))
    = [prepped]
    /\ PreparedRequest.url prepped
       = "https://api.coin.z.com/private/v1/order"%string.
Proof.
  eexists.
  destruct (@authenticated_request_is_signed
              Sample.responding "POST" "/v1/order"
              [("symbol", VStr "BTC_JPY"); ("side", VStr "BUY");
               ("executionType", VStr "LIMIT"); ("price", VInt 5000000);
               ("size", VStr "0.01")]%string
              Sample.state _ _ eq_refl ltac:(vm_compute; reflexivity))
    as (S & U & _).
  split; [exact S | exact U].
Defined.

(** X14.  The query of a [GET] is not signed: two authenticated [GET]
    dispatches on the same path at the same time carry the same
    signature, whatever their payloads. *)
Theorem get_query_is_not_signed
        env path payload1 payload2 st prepped1 st1 prepped2 st2 :
  Url.plain path = true ->
  GMOCoin.build env "GET" path payload1 true st = (inr prepped1, st1) ->
  GMOCoin.build env "GET" path payload2 true st = (inr prepped2, st2) ->
  CID.get "API-SIGN" (PreparedRequest.headers prepped1)
  = CID.get "API-SIGN" (PreparedRequest.headers prepped2)
  /\ CID.get "API-TIMESTAMP" (PreparedRequest.headers prepped1)
     = CID.get "API-TIMESTAMP" (PreparedRequest.headers prepped2).
Proof.
  intros P B1 B2.
  destruct (dispatch_signature env "GET" path payload1 st P B1)
    as (k1 & m1 & K1 & M1 & _ & T1 & S1).
  destruct (dispatch_signature env "GET" path payload2 st P B2)
    as (k2 & m2 & K2 & M2 & _ & T2 & S2).
  unfold body_text in M1, M2. simpl in M1, M2.
  assert (k1 = k2) by congruence. assert (m1 = m2) by congruence.
  subst. rewrite S1, S2, T1, T2. now split.
Qed.

Lemma get_query_is_not_signed_witness :
  exists prepped1 prepped2,
    sent_requests
      (trace (GMOCoin.world
                (snd (GMOCoin.positionsummary Sample.responding
                                              (VStr "BTC_JPY")
                                              Sample.state))))
    = [prepped1]
    /\ sent_requests
         (trace (GMOCoin.world
                   (snd (GMOCoin.positionsummary Sample.responding
                                                 (VStr "ETH_JPY")
                                                 Sample.state))))
       = [prepped2]
    /\ PreparedRequest.url prepped1 <> PreparedRequest.url prepped2
    /\ CID.get "API-SIGN" (PreparedRequest.headers prepped1)
       = CID.get "API-SIGN" (PreparedRequest.headers prepped2).
Proof.
  eexists _, _.
  split; [vm_compute; reflexivity|].
  split; [vm_compute; reflexivity|].
  split; [vm_compute; discriminate|].
  refine (proj1 (@get_query_is_not_signed
                   Sample.responding "/v1/positionSummary"
                   [("symbol"%string, VStr "BTC_JPY")]
                   [("symbol"%string, VStr "ETH_JPY")]
                   Sample.state _ _ _ _ eq_refl _ _));
    vm_compute; reflexivity.
Defined.

(** ** The texts that the signer encodes *)



















(** ** The headers of the session on the wire *)





(** ** The endpoint methods *)


(** X17.  Every endpoint method, whatever its arguments, is one call of
    [_request]: by [GET] or [POST], on a path of plain characters under
    [/v1/], with a payload whose keys are pairwise distinct, and with
    [auth] false for the four methods under [Public API] ([GET] all
    four) and true for the fourteen under [Private API]. *)
Theorem endpoint_is_one_dispatch env c :
  exists method path payload,
    run env c = GMOCoin._request env method path payload (negb (is_public c))
    /\ (method = "GET" \/ method = "POST")%string
    /\ (is_public c = true -> method = "GET"%string)
    /\ Url.plain path = true
    /\ (exists rest, path = "/v1/" ++ rest)%string
    /\ Dict.wf payload.
Proof.
  destruct c; simpl; eexists _, _, _; (split; [reflexivity|]).
  all: split; [auto|].
  all: split; [try discriminate; auto|].
  all: split; [reflexivity|].
  all: split; [eexists; reflexivity|].
  all: unfold Dict.wf, GMOCoin.closeorder_payload; simpl; nodup.
Qed.



(** ** A new client *)

(** X19.  A client as [__init__] makes it has [last_req_time] 0: its
    first dispatch does not sleep, with the rate limit on or off, as
    soon as the clock is past the first second of the epoch. *)
Theorem first_dispatch_does_not_sleep
        env user_agent accept_encoding api_key secret late_limit w
        method path payload auth :
  Env_ok env ->
  1 <= clock w ->
  let st := {| GMOCoin.self :=
                 GMOCoin.__init__ user_agent accept_encoding
                                  api_key secret late_limit;
               GMOCoin.world := w |} in
  sleeps (new_events
            st (snd (GMOCoin._request env method path payload auth st)))
  = [].
Proof.
  intros (Eb & Ec & _) H st. rewrite request_sleeps.
  destruct (prepared env method path payload auth st); [reflexivity|].
  cbv zeta.
  assert (M : must_wait env (at_check env auth st) = false).
  { unfold must_wait. simpl. destruct late_limit; [|reflexivity]. simpl.
    destruct (Qltb _ _) eqn:Q; [|reflexivity].
    apply Qltb_true in Q. unfold check_time in Q. simpl in Q. lra. }
  now rewrite M.
Qed.

Lemma first_dispatch_does_not_sleep_witness :
  sleeps (new_events
            Sample.state
            (snd (GMOCoin.account_margin Sample.responding Sample.state)))
  = [].
Proof.
  apply (@first_dispatch_does_not_sleep
           Sample.responding "python-requests/2.31.0" "gzip, deflate"
           "KEY" "test" true {| clock := 1700000000; trace := [] |}
           "GET" "/v1/account/margin" [] true (Sample_env_ok _)).
  vm_compute. discriminate.
Defined.

(** ** The timestamp *)






